(** * rag-agent-chat: the agent orchestration graph and the lexical-index rebuild

  A shallow embedding of
  - [src/agent/agent.py]: the routing function, the two prompt-selecting
    graph nodes, [build_graph], the readiness guard, the life-cycle
    operations of [Agent] and the embedding of documents;
  - [src/config/configurer/bm25.py]: [BM25ConfigurerImpl.async_configure]
    with its nested [get_from_uploaded_docs], [get_from_external_docs] and
    [preprocess];
  - [src/config/configurer/mcp.py]: [MCPConfigurerImpl];
  - [src/process/recognizer/__init__.py]: [remove_classes_duplicate].

  Python text is embedded as lists of 8-bit characters read as code points
  0..255 (Latin-1), so that [str.lower], [str.split], [str.strip] and
  [string.punctuation] are total, computable functions.  Collaborators that
  are not part of the sources (chat model, vector stores, converter, chunker,
  file service, document repository, checkpointer, the agent configurer) are
  type-class members: every theorem holds for all of them. *)

From Stdlib Require Import Ascii QArith.
From stdpp Require Import base list strings gmap.

Set Warnings "-clear-no-such-hyp".

(* ===================================================================== *)
(** * Python text *)
(* ===================================================================== *)

Module Py.

(** A Python [str], as the list of its characters. *)
Abbreviation text := (list ascii).

Definition of_string (s : string) : text := String.list_ascii_of_string s.
Definition to_string (t : text) : string := String.string_of_list_ascii t.

Definition ord (c : ascii) : nat := Ascii.nat_of_ascii c.
Definition chr (n : nat) : ascii := Ascii.ascii_of_nat n.

Definition in_range (lo hi n : nat) : bool := (lo <=? n) && (n <=? hi).

(** [str.isspace] on one character: TAB..CR, FS..US, SPACE, NEL, NBSP. *)
Definition isspace (c : ascii) : bool :=
  let n := ord c in
  in_range 9 13 n || in_range 28 32 n || (n =? 133) || (n =? 160).

(** [string.punctuation]: the 32 ASCII punctuation characters
    (exclamation mark to slash, colon to at-sign, bracket to back-quote,
    brace to tilde). *)
Definition punctuation : text :=
  chr <$> (seq 33 15 ++ seq 58 7 ++ seq 91 6 ++ seq 123 4).

(** [str.lower] on one character: A..Z and the Latin-1 capitals
    (U+00C0..U+00DE without the multiplication sign U+00D7) move up by 32. *)
Definition lower_char (c : ascii) : ascii :=
  let n := ord c in
  if in_range 65 90 n || (in_range 192 222 n && negb (n =? 215))
  then chr (n + 32) else c.

Definition lower (t : text) : text := lower_char <$> t.

(** [s.translate(str.maketrans('', '', deleted))]: drop every character
    that occurs in [deleted]. *)
Definition translate_delete (deleted : text) (t : text) : text :=
  filter (λ c, c ∉ deleted) t.

(** [str.lstrip()], [str.rstrip()] and [str.strip()] without argument. *)
Fixpoint lstrip (t : text) : text :=
  match t with
  | c :: t' => if isspace c then lstrip t' else t
  | [] => []
  end.
Definition rstrip (t : text) : text := reverse (lstrip (reverse t)).
Definition strip (t : text) : text := rstrip (lstrip t).

(** [str.split()] without argument: maximal runs of non-space characters.
    [cur] is the run being read. *)
Definition emit (cur : text) : list text :=
  match cur with [] => [] | _ => [cur] end.

Fixpoint split_go (cur : text) (t : text) : list text :=
  match t with
  | [] => emit cur
  | c :: t' =>
      if isspace c then emit cur ++ split_go [] t'
      else split_go (cur ++ [c]) t'
  end.
Definition split (t : text) : list text := split_go [] t.

(** [sep.join(parts)]. *)
Fixpoint join (sep : text) (parts : list text) : text :=
  match parts with
  | [] => []
  | [p] => p
  | p :: ps => p ++ sep ++ join sep ps
  end.

Definition space : text := [" "%char].

End Py.

(* ===================================================================== *)
(** * TextNormalizer: the [preprocess] closure of [async_configure] *)
(* ===================================================================== *)

Module Normalizer.
Import Py.

(** The glyph tables consulted by [TextPreprocessing.remove_emoji] and
    [TextPreprocessing.remove_emoticons]. *)
Class GlyphTables := {
  emoji_glyphs : text;
  emoticon_glyphs : text
}.

(** Modelled from the spec: the class [TextPreprocessing] (imported from
    [src/util/__init__.py]) is missing from the sources.  Section 4.1 of the
    specification describes its three operations as "conditionally stripping
    emoji/emoticon glyphs, conditionally removing tokens present in a loaded
    stop-word set".  An instance holds the stop-word set it loaded from its
    file. *)
Record TextPreprocessing := { stop_words : list text }.

(** Modelled from the spec: [TextPreprocessing.remove_emoji] strips the
    emoji glyphs from the text. *)
Definition remove_emoji `{GlyphTables} (t : text) : text :=
  filter (λ c, c ∉ emoji_glyphs) t.

(** Modelled from the spec: [TextPreprocessing.remove_emoticons] strips the
    emoticon glyphs from the text. *)
Definition remove_emoticons `{GlyphTables} (t : text) : text :=
  filter (λ c, c ∉ emoticon_glyphs) t.

(** Modelled from the spec: [TextPreprocessing.remove_words] removes the
    tokens of the text that are in the loaded stop-word set; the remaining
    tokens are given back as one text. *)
Definition remove_words (helper : TextPreprocessing) (t : text) : text :=
  join space (filter (λ w, w ∉ stop_words helper) (split t)).

(** The three options of [BM25Configuration] read by [preprocess]; [helper]
    is [None] when no removal-words path is configured. *)
Record Options := {
  enable_remove_emoji : bool;
  enable_remove_emoticon : bool;
  helper : option TextPreprocessing
}.

(** [preprocess], bm25.py lines 138-147. *)
Definition preprocess `{GlyphTables} (o : Options) (t : text) : list text :=
  let normalized_text := translate_delete punctuation (lower t) in
  let normalized_text :=
    if enable_remove_emoji o then remove_emoji normalized_text
    else normalized_text in
  let normalized_text :=
    if enable_remove_emoticon o then remove_emoticons normalized_text
    else normalized_text in
  let normalized_text :=
    match helper o with
    | Some h => remove_words h normalized_text
    | None => normalized_text
    end in
  split normalized_text.

(** ** Notions used to state and prove the properties of [preprocess] *)

Definition nonspace (c : ascii) : Prop := isspace c = false.

(** A token: a non-empty run of non-space characters. *)
Definition token (t : text) : Prop := t ≠ [] ∧ Forall nonspace t.

(** What every character that survives the character-level stages of
    [preprocess] satisfies. *)
Definition clean `{GlyphTables} (o : Options) (c : ascii) : Prop :=
  ((lower_char c = c ∧ c ∉ punctuation)
   ∧ (enable_remove_emoji o = true → c ∉ emoji_glyphs))
  ∧ (enable_remove_emoticon o = true → c ∉ emoticon_glyphs).

Definition filter_if (b : bool) (glyphs : text) (t : text) : text :=
  if b then filter (λ c, c ∉ glyphs) t else t.

(** The text after lower-casing and the three character filters. *)
Definition cleaned `{GlyphTables} (o : Options) (t : text) : text :=
  filter_if (enable_remove_emoticon o) emoticon_glyphs
    (filter_if (enable_remove_emoji o) emoji_glyphs
       (translate_delete punctuation (lower t))).

(** The text after the word-level stage. *)
Definition reworded (o : Options) (t : text) : text :=
  match helper o with Some h => remove_words h t | None => t end.

End Normalizer.

(* ===================================================================== *)
(** * Exceptions and effects *)
(* ===================================================================== *)

Module Effects.

(** The Python exceptions raised by the embedded code. *)
Inductive Exception :=
| RuntimeError (msg : string)
| ValueError (msg : string)
| IndexError
| KeyError (key : string)
| AttributeError
| TypeError
| GraphRecursionError
| LibraryError (msg : string).

Inductive result (A : Type) :=
| Ok (a : A)
| Raise (e : Exception).
Arguments Ok {A} a.
Arguments Raise {A} e.

(** A computation leaves the list of its calls to collaborators, in order,
    and either returns or raises. *)
Definition M (E A : Type) : Type := list E * result A.

Definition tell {E} (ev : E) : M E unit := ([ev], Ok tt).
Definition raise {E A} (e : Exception) : M E A := ([], Raise e).
Definition lift {E A} (r : result A) : M E A := ([], r).

#[global] Instance M_ret {E} : MRet (M E) := λ A a, ([], Ok a).
#[global] Instance M_bind {E} : MBind (M E) := λ A B f m,
  match m with
  | (t, Ok a) => let '(t', r) := f a in (t ++ t', r)
  | (t, Raise e) => (t, Raise e)
  end.

Definition is_ok {A} (r : result A) : bool :=
  match r with Ok _ => true | Raise _ => false end.

End Effects.

(* ===================================================================== *)
(** * Conversation state, prompts and the graph *)
(* ===================================================================== *)

Module Conversation.
Import Effects.

Inductive MessageKind := HumanMessage | AIMessage | SystemMessage | ToolMessage.

#[global] Instance MessageKind_eq_dec : EqDecision MessageKind.
Proof. solve_decision. Defined.

Record ToolCall := {
  call_name : string;
  call_args : string;
  call_id : string
}.

(** A LangChain message: its class, its text and, on an AI message, the tool
    calls the model asks for. *)
Record Message := {
  kind : MessageKind;
  content : string;
  tool_calls : list ToolCall
}.

Definition human (s : string) : Message :=
  {| kind := HumanMessage; content := s; tool_calls := [] |}.
Definition system (s : string) : Message :=
  {| kind := SystemMessage; content := s; tool_calls := [] |}.

(** [isinstance(m, HumanMessage)], [isinstance(m, ToolMessage)]. *)
Definition isinstance (m : Message) (k : MessageKind) : bool :=
  bool_decide (kind m = k).

Record Attachment := {
  att_id : string;
  att_name : string;
  mime_type : string;
  url : string
}.

(** Modelled from the spec: the declaration of [State]
    ([src/agent/__init__.py]) is missing from the sources; section 3 gives a
    conversation state the ordered message history and an optional attachment
    [{id, name, mime_type, url}]. *)
Record State := {
  messages : list Message;
  attachment : option Attachment
}.

(** [state["messages"][-1]]: raises [IndexError] on an empty history. *)
Definition latest_message (state : State) : result Message :=
  match last (messages state) with
  | Some m => Ok m
  | None => Raise IndexError
  end.

Definition query_or_respond : string := "query_or_respond".
Definition suggest_questions : string := "suggest_questions".
Definition START : string := "__start__".
Definition END : string := "__end__".

(** [_routing_function], agent.py lines 23-28. *)
Definition _routing_function (state : State) : result string :=
  match latest_message state with
  | Raise e => Raise e
  | Ok latest_messages =>
      if negb (isinstance latest_messages HumanMessage)
         || (length (Py.strip (Py.of_string (content latest_messages))) =? 0)
      then Ok suggest_questions
      else Ok query_or_respond
  end.

(** The condition under which the entry edge chooses [suggest_questions],
    read off the last message. *)
Definition routes_to_suggest (m : Message) : Prop :=
  kind m ≠ HumanMessage ∨ Py.strip (Py.of_string (content m)) = [].

#[global] Instance routes_to_suggest_dec m : Decision (routes_to_suggest m).
Proof. unfold routes_to_suggest. apply _. Defined.

(** ** Prompt templates *)

Inductive TemplateItem :=
| Fixed (m : Message)
| MessagesPlaceholder (variable_name : string).

(** [ChatPromptTemplate.ainvoke(inputs)]: fixed messages stay, a placeholder
    is replaced by the messages bound to its variable. *)
Fixpoint template_invoke (t : list TemplateItem)
    (inputs : gmap string (list Message)) : result (list Message) :=
  match t with
  | [] => Ok []
  | Fixed m :: t' =>
      match template_invoke t' inputs with
      | Ok ms => Ok (m :: ms)
      | Raise e => Raise e
      end
  | MessagesPlaceholder v :: t' =>
      match inputs !! v with
      | None => Raise (KeyError v)
      | Some bound =>
          match template_invoke t' inputs with
          | Ok ms => Ok (bound ++ ms)
          | Raise e => Raise e
          end
      end
  end.

Definition nl : string := String (Py.chr 10) "".

(** [ATTACHMENT_INSTRUCTION.format(attachment=a)], agent.py lines 31-35. *)
Definition ATTACHMENT_INSTRUCTION (a : string) : string :=
  "You are given an attachment. There is the attachment information " +:+ a +:+ "."
  +:+ nl +:+ "You must do the following steps:"
  +:+ nl +:+ "Step 1. Specify what attachment type you have by looking at a value of `mime_type` field of the attachment information."
  +:+ nl +:+ "Step 2. Select the correct recognition tool to use based on the attachment type."
  +:+ nl +:+ "Step 3. Call the selected recognition tool.".

Definition RECOGNIZER_NOT_CONFIGURED : string :=
  "You must only say the following sentence: I cannot recognize the attachment. "
  +:+ "Because I have not been configured the image recognizer yet.".

Definition ATTACHMENT_ERROR : string :=
  "You must only say the following sentence:"
  +:+ "An error occurred while processing the attachment.".

Definition DO_NOT_REPEAT : string :=
  "You should not repeat the received recognition result, "
  +:+ "you just need to extract related information to doing your tasks.".

End Conversation.

(* ===================================================================== *)
(** * The agent *)
(* ===================================================================== *)

Module AgentModel.
Import Effects Conversation.

(** [ImageRecognizerConfigurer]: only its [tool] property is read. *)
Record ImageRecognizerConfigurer (Tool : Type) := {
  tool : option Tool
}.
Arguments tool {Tool} _.

(** The interface [AgentConfigurer] ([src/config/configurer/agent.py], not
    among the sources), as far as [Agent] uses it: the properties it reads and
    the operations it awaits.  [Configurer] is the state of the configurer
    object. *)
Class AgentConfigurer := {
  Configurer : Type;
  Checkpointer : Type;
  Tool : Type;
  Language : Type;
  checkpointer : Configurer → option Checkpointer;
  tools : Configurer → option (list Tool);
  agent_name : Configurer → string;
  language : Configurer → Language;
  respond_prompt : Configurer → string;
  suggest_questions_prompt : Configurer → string;
  image_recognizer_configurer :
    Configurer → option (ImageRecognizerConfigurer Tool);
  (** [chat_model.ainvoke(prompt)]: the answer of the chat model, for a call
      that returns *)
  chat_model_ainvoke : Configurer → list Message → Message;
  (** [async_configure()]: the state the call leaves the configurer in, and
      whether the call returned or raised *)
  async_configure : Configurer → Configurer * result unit;
  (** [sync_bm25()]: the states the configurer passes through while the
      lexical index is rebuilt, the state the call leaves it in, and whether
      the call returned or raised *)
  configurer_sync_bm25 :
    Configurer → list Configurer * (Configurer * result unit)
}.

(** What the agent takes from LangGraph, LangChain and [src/util/constant.py]. *)
Class Platform `{AgentConfigurer} := {
  UUID : Type;
  RunnableConfig : Type;
  StateSnapshot : Type;
  (** the constant [SUPPORTED_LANGUAGE_DICT] *)
  SUPPORTED_LANGUAGE_DICT : Language → string;
  (** [str(attachment)] and [str(thread_id)] *)
  str_attachment : Attachment → string;
  str_uuid : UUID → string;
  (** the message a [ToolNode] built over [tools] appends for one call *)
  tool_invoke : list Tool → ToolCall → Message;
  (** the recursion limit of a run, 25 when the configuration has none *)
  recursion_limit : option RunnableConfig → nat;
  (** what the checkpointer holds for [graph.get_state] and
      [graph.aget_state_history] *)
  saved_state : RunnableConfig → bool → StateSnapshot;
  saved_history : RunnableConfig → list StateSnapshot
}.

Section WithCollaborators.
Context `{Platform}.

(** The calls an agent operation makes to its collaborators. *)
Inductive Event :=
| EvRoute (chosen : string)
| EvWarning (msg : string)
| EvModel (prompt : list Message)
| EvTool (call : ToolCall)
| EvGetState (config : RunnableConfig) (sub_graphs : bool)
| EvGetStateHistory (config : RunnableConfig)
| EvDeleteThread (cp : Checkpointer) (thread_id : string).

(** ** The two prompt-selecting nodes *)

Definition system_msgs (c : Configurer) : list TemplateItem :=
  let lang := language c in
  [ Fixed (system ("You must answer in " +:+ SUPPORTED_LANGUAGE_DICT lang +:+ "."));
    Fixed (system ("Queries for using tools purpose must be in "
                   +:+ SUPPORTED_LANGUAGE_DICT lang +:+ ".")) ].

(** [image_recognizer_configurer is None or image_recognizer_configurer.tool is None] *)
Definition recognizer_missing (c : Configurer) : bool :=
  match image_recognizer_configurer c with
  | None => true
  | Some irc => match tool irc with None => true | Some _ => false end
  end.

(** The prompt template chosen by [_query_or_respond], agent.py lines 300-330,
    with the warning it logs on the way. *)
Definition respond_template (c : Configurer) (state : State)
    : M Event (list TemplateItem) :=
  match attachment state with
  | Some a =>
      if recognizer_missing c then
        _ ← tell (EvWarning "Image recognizer has not been configured yet. Skipping attachment recognition.");
        mret (system_msgs c ++ [Fixed (human RECOGNIZER_NOT_CONFIGURED)])
      else
        mret (system_msgs c ++
              [ Fixed (system (respond_prompt c));
                MessagesPlaceholder "messages";
                Fixed (human (ATTACHMENT_INSTRUCTION (str_attachment a))) ])
  | None =>
      last_msg ← lift (latest_message state);
      if isinstance last_msg ToolMessage then
        mret (system_msgs c ++
              [ MessagesPlaceholder "messages";
                Fixed (system DO_NOT_REPEAT);
                Fixed (human ("Tell me what you think about the attachment "
                              +:+ "based on the received recognition result "
                              +:+ "and the provided questions.")) ])
      else
        mret (system_msgs c ++
              [ Fixed (system (respond_prompt c));
                MessagesPlaceholder "messages" ])
  end.

(** The prompt template chosen by [_suggest_questions], agent.py lines 350-380. *)
Definition suggest_template (c : Configurer) (state : State)
    : M Event (list TemplateItem) :=
  match attachment state with
  | None =>
      _ ← tell (EvWarning "Attachment has not been provided yet. Skipping attachment recognition.");
      mret (system_msgs c ++ [Fixed (human ATTACHMENT_ERROR)])
  | Some a =>
      if recognizer_missing c then
        _ ← tell (EvWarning "Image recognizer has not been configured yet. Skipping attachment recognition.");
        mret (system_msgs c ++ [Fixed (human RECOGNIZER_NOT_CONFIGURED)])
      else
        last_msg ← lift (latest_message state);
        if isinstance last_msg ToolMessage then
          mret (system_msgs c ++
                [ MessagesPlaceholder "messages";
                  Fixed (system DO_NOT_REPEAT);
                  Fixed (human ("Based on the received recognition result, you must do the following things:"
                                +:+ nl +:+ "1. Tell me what you think about the attachment."
                                +:+ nl +:+ "2. Suggest some questions about the attachment.")) ])
        else
          mret (system_msgs c ++
                [ Fixed (system (suggest_questions_prompt c));
                  MessagesPlaceholder "messages";
                  Fixed (human (ATTACHMENT_INSTRUCTION (str_attachment a))) ])
  end.

(** The common tail of both nodes: fill the template with the history, call
    the chat model once and return the update [{"messages": [response]}]. *)
Definition invoke_model (c : Configurer) (state : State)
    (prompt_template : list TemplateItem) : M Event (list Message) :=
  prompt ← lift (template_invoke prompt_template
                   {[ "messages" := messages state ]});
  _ ← tell (EvModel prompt);
  let response := chat_model_ainvoke c prompt in
  mret [response].

(** [Agent._query_or_respond], agent.py lines 291-339. *)
Definition _query_or_respond (c : Configurer) (state : State)
    : M Event (list Message) :=
  prompt_template ← respond_template c state;
  invoke_model c state prompt_template.

(** [Agent._suggest_questions], agent.py lines 341-389. *)
Definition _suggest_questions (c : Configurer) (state : State)
    : M Event (list Message) :=
  prompt_template ← suggest_template c state;
  invoke_model c state prompt_template.

(** Modelled from the spec: the reducer of the [messages] channel is declared
    with [State], which is missing from the sources; by section 3 the history
    is append-only within a run, so an update is appended. *)
Definition apply_update (state : State) (update : list Message) : State :=
  {| messages := messages state ++ update; attachment := attachment state |}.

(** ** The graph *)

Inductive NodeAction :=
| RunQueryOrRespond
| RunSuggestQuestions
| RunTools (bound_tools : list Tool).

Inductive PathFunction := RoutingFunction | ToolsCondition.

(** A conditional edge: the function that names the next step and, when
    given, the mapping from the names it returns to node names. *)
Record Branch := {
  path : PathFunction;
  path_map : option (gmap string string)
}.

(** [StateGraph]: nodes by name, plain edges, conditional edges by source. *)
Record StateGraph := {
  nodes : gmap string NodeAction;
  edges : list (string * string);
  branches : gmap string Branch
}.

Definition empty_graph : StateGraph :=
  {| nodes := ∅; edges := []; branches := ∅ |}.

Definition add_node (name : string) (action : NodeAction) (g : StateGraph)
    : StateGraph :=
  {| nodes := <[name := action]> (nodes g);
     edges := edges g;
     branches := branches g |}.

Definition add_edge (start_key end_key : string) (g : StateGraph)
    : StateGraph :=
  {| nodes := nodes g;
     edges := edges g ++ [(start_key, end_key)];
     branches := branches g |}.

Definition add_conditional_edges (source : string) (p : PathFunction)
    (pm : option (gmap string string)) (g : StateGraph) : StateGraph :=
  {| nodes := nodes g;
     edges := edges g;
     branches := <[source := {| path := p; path_map := pm |}]> (branches g) |}.

(** [tools is not None and len(tools) != 0] *)
Definition configured_tools (c : Configurer) : option (list Tool) :=
  match tools c with
  | Some (t :: ts) => Some (t :: ts)
  | _ => None
  end.

(** The topology assembled by [Agent.build_graph], agent.py lines 237-260. *)
Definition build_state_graph (c : Configurer) : StateGraph :=
  let graph := empty_graph in
  let graph := add_node query_or_respond RunQueryOrRespond graph in
  let graph := add_node suggest_questions RunSuggestQuestions graph in
  let graph :=
    match configured_tools c with
    | Some tools =>
        let graph := add_node "tools_1" (RunTools tools) graph in
        let graph := add_conditional_edges query_or_respond ToolsCondition
                       (Some {[ "tools" := "tools_1"; END := END ]}) graph in
        let graph := add_edge "tools_1" query_or_respond graph in
        let graph := add_node "tools_2" (RunTools tools) graph in
        let graph := add_conditional_edges suggest_questions ToolsCondition
                       (Some {[ "tools" := "tools_2"; END := END ]}) graph in
        add_edge "tools_2" suggest_questions graph
    | None => graph
    end in
  add_conditional_edges START RoutingFunction None graph.

(** ** Running a graph (LangGraph) *)

(** [langgraph.prebuilt.tools_condition]: ["tools"] when the last message is
    an AI message with pending tool calls, the end of the run otherwise. *)
Definition tools_condition (state : State) : result string :=
  match last (messages state) with
  | None => Raise (ValueError "No messages found in input state to tool_edge")
  | Some ai_message =>
      if isinstance ai_message AIMessage
         && negb (length (tool_calls ai_message) =? 0)
      then Ok "tools" else Ok END
  end.

Definition resolve (b : Branch) (r : string) : result string :=
  match path_map b with
  | None => Ok r
  | Some pm =>
      match pm !! r with
      | Some destination => Ok destination
      | None => Raise (KeyError r)
      end
  end.

(** The step that follows [node]: its conditional edge if it has one, else its
    plain edge, else none, which ends the run. *)
Definition successor (g : StateGraph) (node : string) (state : State)
    : M Event string :=
  match branches g !! node with
  | Some b =>
      r ← match path b with
          | RoutingFunction =>
              r ← lift (_routing_function state);
              _ ← tell (EvRoute r);
              mret r
          | ToolsCondition => lift (tools_condition state)
          end;
      lift (resolve b r)
  | None =>
      match list_find (λ e, e.1 = node) (edges g) with
      | Some (_, (_, end_key)) => mret end_key
      | None => mret END
      end
  end.

Definition tell_all (evs : list Event) : M Event unit := (evs, Ok tt).

(** One node: the two agent nodes call the chat model, a [ToolNode] runs the
    tool calls of the last message; the update is appended to the history. *)
Definition exec_node (c : Configurer) (action : NodeAction) (state : State)
    : M Event State :=
  match action with
  | RunQueryOrRespond =>
      update ← _query_or_respond c state;
      mret (apply_update state update)
  | RunSuggestQuestions =>
      update ← _suggest_questions c state;
      mret (apply_update state update)
  | RunTools bound_tools =>
      ai_message ← lift (latest_message state);
      _ ← tell_all (EvTool <$> tool_calls ai_message);
      mret (apply_update state (tool_invoke bound_tools <$> tool_calls ai_message))
  end.

(** How a run calls the function of a node: [graph.stream] calls it
    synchronously, [graph.astream] awaits it. *)
Inductive RunMode := Synchronous | Asynchronous.

(** A node as a run calls it.  The two agent nodes are coroutine functions
    ([async def]): they have no synchronous function, and a synchronous run
    that reaches one of them raises [TypeError]. *)
Definition invoke_node (mode : RunMode) (c : Configurer) (action : NodeAction)
    (state : State) : M Event State :=
  match mode, action with
  | Synchronous, RunQueryOrRespond => raise TypeError
  | Synchronous, RunSuggestQuestions => raise TypeError
  | _, _ => exec_node c action state
  end.

(** The steps of a run from [node] on; the result lists the state after each
    node.  [fuel] is what is left of the recursion limit: a step is taken only
    while some is left, and it is also needed to find that the run has ended,
    so that a run of [n] nodes needs a limit of [n + 1]; with less it raises
    [GraphRecursionError] after the nodes within the limit have run. *)
Fixpoint run_from (mode : RunMode) (c : Configurer) (g : StateGraph)
    (fuel : nat) (node : string) (state : State) : M Event (list State) :=
  match fuel with
  | 0 => raise GraphRecursionError
  | S fuel' =>
      if decide (node = END) then mret []
      else
        match nodes g !! node with
        | None => raise (KeyError node)
        | Some action =>
            state' ← invoke_node mode c action state;
            next ← successor g node state';
            rest ← run_from mode c g fuel' next state';
            mret (state' :: rest)
        end
  end.

(** A run of the compiled graph, observed in stream mode ["values"]: the
    entry edge is followed once, then nodes run until one of them has no
    successor; the input state is emitted first, then the state after each
    node.  The stream modes differ in what is emitted for a step, not in the
    steps that are taken. *)
Definition graph_run (mode : RunMode) (c : Configurer) (g : StateGraph)
    (limit : nat) (input_state : State) : M Event (list State) :=
  first ← successor g START input_state;
  states ← run_from mode c g limit first input_state;
  mret (input_state :: states).

(** [graph.stream(input_state, config)] *)
Definition graph_stream (c : Configurer) (g : StateGraph) (limit : nat)
    (input_state : State) : M Event (list State) :=
  graph_run Synchronous c g limit input_state.

(** [graph.astream(input_state, config)] *)
Definition graph_astream (c : Configurer) (g : StateGraph) (limit : nat)
    (input_state : State) : M Event (list State) :=
  graph_run Asynchronous c g limit input_state.

(** ** The agent object *)

Inductive Status := ON | OFF | RESTART.

#[global] Instance Status_eq_dec : EqDecision Status.
Proof. solve_decision. Defined.

Record CompiledStateGraph := {
  builder : StateGraph;
  name : string;
  graph_checkpointer : option Checkpointer
}.

Record Agent := {
  _status : Status;
  _configurer : Configurer;
  _graph : option CompiledStateGraph;
  _is_configured : bool
}.

(** [Agent.__init__] *)
Definition __init__ (configurer : Configurer) : Agent :=
  {| _status := ON; _configurer := configurer;
     _graph := None; _is_configured := false |}.

Definition set_status (v : Status) (a : Agent) : Agent :=
  {| _status := v; _configurer := _configurer a;
     _graph := _graph a; _is_configured := _is_configured a |}.

Definition set_configurer (c : Configurer) (a : Agent) : Agent :=
  {| _status := _status a; _configurer := c;
     _graph := _graph a; _is_configured := _is_configured a |}.

Definition set_graph (g : option CompiledStateGraph) (a : Agent) : Agent :=
  {| _status := _status a; _configurer := _configurer a;
     _graph := g; _is_configured := _is_configured a |}.

Definition set_is_configured (b : bool) (a : Agent) : Agent :=
  {| _status := _status a; _configurer := _configurer a;
     _graph := _graph a; _is_configured := b |}.

Definition NOT_CONFIGURED : string :=
  "The agent has not been configured yet. Please call `configure()` first.".
Definition NOT_INITIALIZED : string :=
  "The agent graph has not been initialized yet. Please call `build_graph()` first.".
Definition TURNED_OFF : string := "The agent is turned off.".
Definition RESTARTING_NOW : string := "The agent is restarting.".

(** [Agent.check_graph_available], agent.py lines 268-289. *)
Definition check_graph_available (a : Agent) : result unit :=
  if negb (_is_configured a) then Raise (RuntimeError NOT_CONFIGURED)
  else
    match _graph a with
    | None => Raise (RuntimeError NOT_INITIALIZED)
    | Some _ =>
        if bool_decide (_status a = OFF) then Raise (RuntimeError TURNED_OFF)
        else if bool_decide (_status a = RESTART)
        then Raise (RuntimeError RESTARTING_NOW)
        else Ok tt
    end.

(** [graph: CompiledStateGraph = self._graph] followed by a method call. *)
Definition the_graph (a : Agent) : result CompiledStateGraph :=
  match _graph a with
  | Some g => Ok g
  | None => Raise AttributeError
  end.

(** [Agent.stream], agent.py lines 52-75: the states yielded by the
    synchronous run.  [stream] and [astream] are generators: their body, the
    guard included, runs when the first item is requested, on the agent as it
    is then. *)
Definition stream (a : Agent) (input_state : State)
    (config : option RunnableConfig) : M Event (list State) :=
  _ ← lift (check_graph_available a);
  graph ← lift (the_graph a);
  graph_stream (_configurer a) (builder graph) (recursion_limit config)
    input_state.

(** [Agent.astream], agent.py lines 77-100: the states yielded by the
    asynchronous run. *)
Definition astream (a : Agent) (input_state : State)
    (config : option RunnableConfig) : M Event (list State) :=
  _ ← lift (check_graph_available a);
  graph ← lift (the_graph a);
  graph_astream (_configurer a) (builder graph) (recursion_limit config)
    input_state.

(** [graph.get_state] and [graph.aget_state_history] read the checkpointer
    the graph was compiled with, and raise when it has none. *)
Definition graph_saver (graph : CompiledStateGraph) : result Checkpointer :=
  match graph_checkpointer graph with
  | Some cp => Ok cp
  | None => Raise (ValueError "No checkpointer set")
  end.

(** [Agent.get_state_history], agent.py lines 102-115. *)
Definition get_state_history (a : Agent) (config : RunnableConfig)
    : M Event (list StateSnapshot) :=
  _ ← lift (check_graph_available a);
  graph ← lift (the_graph a);
  _ ← lift (graph_saver graph);
  _ ← tell (EvGetStateHistory config);
  mret (saved_history config).

(** [Agent.get_state], agent.py lines 117-121. *)
Definition get_state (a : Agent) (config : RunnableConfig) (sub_graphs : bool)
    : M Event StateSnapshot :=
  _ ← lift (check_graph_available a);
  graph ← lift (the_graph a);
  _ ← lift (graph_saver graph);
  _ ← tell (EvGetState config sub_graphs);
  mret (saved_state config sub_graphs).

(** [Agent.delete_thread], agent.py lines 123-127. *)
Definition delete_thread (a : Agent) (thread_id : UUID) : M Event unit :=
  match checkpointer (_configurer a) with
  | None => raise (RuntimeError "Checkpointer is still not configured yet.")
  | Some cp => tell (EvDeleteThread cp (str_uuid thread_id))
  end.

(** [Agent.configure], agent.py lines 129-136: the agent after the call, and
    whether the call returned or raised.  When [async_configure()] raises,
    line 135 is not reached. *)
Definition configure (force : bool) (a : Agent) : Agent * result unit :=
  if _is_configured a && negb force then (a, Ok tt)
  else
    let configured := async_configure (_configurer a) in
    let a := set_configurer configured.1 a in
    match configured.2 with
    | Raise e => (a, Raise e)
    | Ok _ => (set_is_configured true a, Ok tt)
    end.

(** [Agent.build_graph], agent.py lines 233-266. *)
Definition build_graph (a : Agent) : Agent :=
  let graph := build_state_graph (_configurer a) in
  set_graph
    (Some {| builder := graph;
             name := agent_name (_configurer a);
             graph_checkpointer := checkpointer (_configurer a) |})
    a.

(** ** [Agent.restart], an asynchronous generator *)

Inductive ProgressStatus := RESTARTING | RESTARTED.

Record Progress := {
  status : ProgressStatus;
  percentage : Q
}.

Definition statuses : list Progress :=
  [ {| status := RESTARTING; percentage := 0.0 |};
    {| status := RESTARTING; percentage := 0.6 |};
    {| status := RESTARTED; percentage := 1.0 |} ].

#[global] Instance Progress_inhabited : Inhabited Progress :=
  populate {| status := RESTARTING; percentage := 0 |}.

(** Where the generator is suspended: not yet started, or after one of its
    three [yield]s. *)
Inductive RestartPoint := NotStarted | AfterYield0 | AfterYield1 | AfterYield2.

Inductive Resumed :=
| Yield (item : Progress) (suspended_at : RestartPoint)
| StopIteration
| Raised (e : Exception).

(** One resumption of [restart()], agent.py lines 161-171: the code between
    two suspension points, run on the agent as it is when the consumer asks
    for the next item.  An exception of [configure] leaves the generator at
    line 165: nothing catches it. *)
Definition restart_resume (at_point : RestartPoint) (a : Agent)
    : Agent * Resumed :=
  match at_point with
  | NotStarted => (a, Yield (statuses !!! 0) AfterYield0)
  | AfterYield0 =>
      let a := set_status RESTART a in
      let configured := configure true a in
      match configured.2 with
      | Raise e => (configured.1, Raised e)
      | Ok _ => (configured.1, Yield (statuses !!! 1) AfterYield1)
      end
  | AfterYield1 =>
      let a := build_graph a in
      let a := set_status ON a in
      (a, Yield (statuses !!! 2) AfterYield2)
  | AfterYield2 => (a, StopIteration)
  end.

(** [async for progress in agent.restart()]: the generator is resumed until it
    stops or raises, at most [fuel] times.  Each item is paired with the
    status the agent has at the moment the item is yielded; the second
    component is the agent when the iteration ends and how it ended, or [None]
    when [fuel] did not suffice. *)
Fixpoint restart_iterate (fuel : nat) (at_point : RestartPoint) (a : Agent)
    : list (Status * Progress) * option (Agent * result unit) :=
  match fuel with
  | 0 => ([], None)
  | S fuel' =>
      match restart_resume at_point a with
      | (a', Yield item next_point) =>
          let '(items, final) := restart_iterate fuel' next_point a' in
          ((_status a', item) :: items, final)
      | (a', StopIteration) => ([], Some (a', Ok tt))
      | (a', Raised e) => ([], Some (a', Raise e))
      end
  end.

Definition restart (a : Agent)
    : list (Status * Progress) * option (Agent * result unit) :=
  restart_iterate 4 NotStarted a.

(** ** [Agent.sync_bm25], agent.py lines 223-226 *)

(** A call of [sync_bm25]: the agent as other tasks find it at each moment
    the call is suspended in the [await] of line 225, the agent after the
    call, and whether the call returned or raised. *)
Record SyncRun := {
  suspended : list Agent;
  after : Agent;
  outcome : result unit
}.

(** The call is suspended with the agent as line 224 left it, then with each
    state the configurer passes through during the rebuild.  When the rebuild
    raises, line 226 is not reached: nothing catches the exception. *)
Definition sync_bm25 (a : Agent) : SyncRun :=
  let a := set_status RESTART a in
  let rebuild := configurer_sync_bm25 (_configurer a) in
  let during := a :: ((λ c, set_configurer c a) <$> rebuild.1) in
  let a := set_configurer rebuild.2.1 a in
  match rebuild.2.2 with
  | Raise e => {| suspended := during; after := a; outcome := Raise e |}
  | Ok _ =>
      let a := set_status ON a in
      {| suspended := during; after := a; outcome := Ok tt |}
  end.

(** ** Notions used to state the properties of the agent *)

Definition is_route (ev : Event) : bool :=
  match ev with EvRoute _ => true | _ => false end.

Definition is_tool_call (ev : Event) : bool :=
  match ev with EvTool _ => true | _ => false end.

(** At least one tool is configured when [build_graph] is called. *)
Definition at_least_one_tool (c : Configurer) : Prop :=
  ∃ t ts, tools c = Some (t :: ts).

Definition tools_map (tools_node : string) : gmap string string :=
  {[ "tools" := tools_node; END := END ]}.

(** What follows a node whose conditional edge is [tools_condition] with the
    mapping to [tools_node]. *)
Definition after_tools_condition (tools_node : string) (state : State)
    : M Event string :=
  match last (messages state) with
  | None => raise (ValueError "No messages found in input state to tool_edge")
  | Some m =>
      if isinstance m AIMessage && negb (length (tool_calls m) =? 0)
      then mret tools_node else mret END
  end.


(** The four turn-execution calls. *)
Inductive TurnCall :=
| CallStream (input_state : State) (config : option RunnableConfig)
| CallAstream (input_state : State) (config : option RunnableConfig)
| CallGetStateHistory (config : RunnableConfig)
| CallGetState (config : RunnableConfig) (sub_graphs : bool).

(** What a caller sees of a computation: the collaborator calls it made and
    the exception it raised, if any. *)
Definition observe {A} (m : M Event A) : list Event * option Exception :=
  (m.1, match m.2 with Ok _ => None | Raise e => Some e end).

Definition perform (a : Agent) (call : TurnCall)
    : list Event * option Exception :=
  match call with
  | CallStream input_state config => observe (stream a input_state config)
  | CallAstream input_state config => observe (astream a input_state config)
  | CallGetStateHistory config => observe (get_state_history a config)
  | CallGetState config sub_graphs => observe (get_state a config sub_graphs)
  end.

(** The messages of the four errors of [check_graph_available]. *)
Definition readiness_messages : list string :=
  [NOT_CONFIGURED; NOT_INITIALIZED; TURNED_OFF; RESTARTING_NOW].

Definition no_runtime_error {A} (r : result A) : Prop :=
  ∀ msg, r ≠ Raise (RuntimeError msg).

(** The prompt sent to the chat model when an attachment cannot be
    recognised: the two language directives and the fixed sentence. *)
Definition refusal_prompt (c : Configurer) : list Message :=
  [ system ("You must answer in "
            +:+ SUPPORTED_LANGUAGE_DICT (language c) +:+ ".");
    system ("Queries for using tools purpose must be in "
            +:+ SUPPORTED_LANGUAGE_DICT (language c) +:+ ".");
    human RECOGNIZER_NOT_CONFIGURED ].

Definition recognizer_warning : string :=
  "Image recognizer has not been configured yet. Skipping attachment recognition.".

End WithCollaborators.
End AgentModel.

(* ===================================================================== *)
(** * The lexical-index rebuild *)
(* ===================================================================== *)

Module BM25.
Import Effects Py Normalizer.

(** Modelled from the spec: the enumeration [DocumentSource]
    ([src/data/base_model.py]) is missing from the sources; section 3 gives a
    document record the source tag UPLOADED or EXTERNAL. *)
Inductive DocumentSource := UPLOADED | EXTERNAL.

#[global] Instance DocumentSource_eq_dec : EqDecision DocumentSource.
Proof. solve_decision. Defined.

Record Chunk := { chunk_id : string }.

(** A document row of the repository, with the attributes the rebuild reads
    ([id], [source], [file_id], [embed_to_vs], [chunks]) or writes
    ([embed_bm25]). *)
Record DBDocument := {
  id : string;
  source : DocumentSource;
  file_id : string;
  embed_to_vs : string;
  chunks : list Chunk;
  embed_bm25 : bool
}.

Definition mark_bm25 (doc : DBDocument) : DBDocument :=
  {| id := id doc; source := source doc; file_id := file_id doc;
     embed_to_vs := embed_to_vs doc; chunks := chunks doc;
     embed_bm25 := true |}.

Inductive MetaValue := MetaStr (s : string) | MetaInt (n : nat).

(** A LangChain [Document]. *)
Record Document := {
  page_content : string;
  metadata : gmap string MetaValue
}.

(** [IFileService.FileMetadata] *)
Record FileMetadata := {
  file_ident : string;
  file_name : string;
  file_mime_type : string;
  file_path : string
}.

(** One result of [DocumentConverter.convert_all]: the markdown export of the
    document and the number of its pages. *)
Record ConversionResult := {
  export_to_markdown : string;
  pages : nat
}.

Record EmbeddingsConfiguration := { embeddings_name : string }.

(** [BM25Configuration], as far as the rebuild reads it. *)
Record BM25Configuration := {
  embeddings_model : EmbeddingsConfiguration;
  removal_words_path : option string;
  enable_remove_emoji : bool;
  enable_remove_emoticon : bool;
  k : nat
}.

(** What the rebuild calls outside [bm25.py]. *)
Class Collaborators := {
  Embeddings : Type;
  EmbeddingsConfigurerImpl : Type;
  VectorStore : Type;
  BM25Retriever : Type;
  Datetime : Type;
  (** [document_repository.get_all_vs_embedded()] *)
  get_all_vs_embedded : list DBDocument;
  (** [file_service.get_metadata_by_id(file_id)] *)
  get_metadata_by_id : string → option FileMetadata;
  (** [DocumentConverter().convert_all(paths)] *)
  convert_all : list string → list ConversionResult;
  (** [vector_store.aget_by_ids(chunk_ids)] *)
  aget_by_ids : VectorStore → list string → list Document;
  (** [embeddings_configurer.async_configure(config)] and [get_model(name)] *)
  embeddings_async_configure :
    EmbeddingsConfigurerImpl → EmbeddingsConfiguration → EmbeddingsConfigurerImpl;
  get_model : EmbeddingsConfigurerImpl → string → option Embeddings;
  (** [SemanticChunker(embeddings_model).split_documents(docs)] *)
  split_documents : Embeddings → list Document → list Document;
  (** [BM25Retriever.from_documents(documents, preprocess_func, k)]: a library
      constructor, which returns the index or raises *)
  from_documents :
    list Document → (text → list text) → nat → result BM25Retriever;
  (** [TextPreprocessing(path)]: loads the removal words, or raises *)
  load_text_preprocessing : string → result TextPreprocessing;
  (** [get_datetime_now()], [os.getenv("AGENT_CONFIG_PATH")], [Path(a, b)],
      [str(config.embeddings_model)] *)
  get_datetime_now : Datetime;
  AGENT_CONFIG_PATH : option string;
  Path : string → string → string;
  str_embeddings : EmbeddingsConfiguration → string
}.

Section WithCollaborators.
Context `{Collaborators} `{GlyphTables}.

(** Modelled from the spec: [VectorStoreConfigurerImpl]
    ([src/config/configurer/vector_store.py]) is missing from the sources; the
    rebuild "resolves its target vector store by name", and a name may be "not
    configured".  The configurer is the dictionary of its stores by name. *)
Record VectorStoreConfigurerImpl := { stores : gmap string VectorStore }.

Definition get_store (vs_configurer : VectorStoreConfigurerImpl)
    (store_name : string) : option VectorStore :=
  stores vs_configurer !! store_name.

(** A keyword argument of [async_configure]. *)
Inductive KwArg :=
| KwVectorStoreConfigurer (v : VectorStoreConfigurerImpl)
| KwEmbeddingsConfigurer (e : EmbeddingsConfigurerImpl)
| KwOther.

Record BM25ConfigurerImpl := {
  _config : option BM25Configuration;
  _retriever : option BM25Retriever;
  _last_sync : option Datetime
}.

(** [BM25ConfigurerImpl.__init__] *)
Definition __init__ : BM25ConfigurerImpl :=
  {| _config := None; _retriever := None; _last_sync := None |}.

(** What a rebuild leaves behind: log records, the calls whose arguments
    the properties below speak about, and the assignments to the attributes
    of the configurer ([self._retriever = ...] is [Assign "_retriever"]). *)
Inductive Event :=
| LogInfo (msg : string)
| LogDebug (msg : string)
| LogWarning (msg : string)
| CallSplitDocuments (docs : list Document)
| CallFromDocuments (documents : list Document) (top_k : nat)
| Assign (attribute : string)
| CreateTaskSaveAll (docs : list DBDocument).

(** [get_config_folder_path], util/function.py lines 38-42. *)
Definition get_config_folder_path : result string :=
  match AGENT_CONFIG_PATH with
  | None => Raise (RuntimeError "Missing the AGENT_CONFIG_PATH environment variable.")
  | Some config_path => Ok config_path
  end.

(** [get_from_uploaded_docs], bm25.py lines 78-96. *)
Definition get_from_uploaded_docs (documents : list DBDocument)
    : M Event (list Document) :=
  _ ← tell (LogDebug "Collecting chunks from uploaded documents.");
  let file_metadata_tasks :=
    (λ doc, get_metadata_by_id (file_id doc)) <$> documents in
  let files := omap (λ p, p) file_metadata_tasks in
  let results := convert_all (file_path <$> files) in
  mret (zip_with
          (λ file result,
             {| page_content := export_to_markdown result;
                metadata := {[ "source" := MetaStr (file_name file);
                               "id" := MetaStr (file_ident file);
                               "total_pages" := MetaInt (pages result);
                               "mime_type" := MetaStr (file_mime_type file);
                               "path" := MetaStr (file_path file) ]} |})
          files results).

Definition store_not_configured (doc : DBDocument) (store_name : string)
    : string :=
  "Cannot use Document " +:+ id doc +:+ " for the BM25 retriever. "
  +:+ "Because vector store with name " +:+ store_name +:+ " "
  +:+ "has not been configured yet.".

(** The loop of [get_from_external_docs], bm25.py lines 102-111: one fetch
    task per document whose store is configured, a warning for each other. *)
Fixpoint external_doc_tasks (vs_configurer : VectorStoreConfigurerImpl)
    (documents : list DBDocument) : M Event (list (VectorStore * list string)) :=
  match documents with
  | [] => mret []
  | doc :: documents' =>
      let store_name := embed_to_vs doc in
      match get_store vs_configurer store_name with
      | None =>
          _ ← tell (LogWarning (store_not_configured doc store_name));
          external_doc_tasks vs_configurer documents'
      | Some vector_store =>
          let chunk_ids := chunk_id <$> chunks doc in
          doc_tasks ← external_doc_tasks vs_configurer documents';
          mret ((vector_store, chunk_ids) :: doc_tasks)
      end
  end.

(** [get_from_external_docs], bm25.py lines 98-115. *)
Definition get_from_external_docs (vs_configurer : VectorStoreConfigurerImpl)
    (documents : list DBDocument) : M Event (list Document) :=
  _ ← tell (LogDebug "Collecting chunks from external documents.");
  doc_tasks ← external_doc_tasks vs_configurer documents;
  mret (concat ((λ t, aget_by_ids t.1 t.2) <$> doc_tasks)).

(** The helper of [preprocess], bm25.py lines 134-136. *)
Definition make_helper (config : BM25Configuration)
    : result (option TextPreprocessing) :=
  match removal_words_path config with
  | Some p =>
      if bool_decide (p = "") then Ok None
      else
        match get_config_folder_path with
        | Raise e => Raise e
        | Ok folder =>
            match load_text_preprocessing (Path folder p) with
            | Raise e => Raise e
            | Ok h => Ok (Some h)
            end
        end
  | None => Ok None
  end.

Definition options_of (config : BM25Configuration)
    (helper : option TextPreprocessing) : Options :=
  {| Normalizer.enable_remove_emoji := enable_remove_emoji config;
     Normalizer.enable_remove_emoticon := enable_remove_emoticon config;
     Normalizer.helper := helper |}.

(** The two gathering branches, bm25.py lines 117-124: a task per non-empty
    population, the uploaded one first. *)
Definition gather (vs_configurer : VectorStoreConfigurerImpl)
    (db_docs : list DBDocument) : M Event (list (list Document)) :=
  let uploaded_docs := filter (λ doc, source doc = UPLOADED) db_docs in
  let external_docs := filter (λ doc, source doc = EXTERNAL) db_docs in
  from_uploaded ←
    (if 0 <? length uploaded_docs
     then r ← get_from_uploaded_docs uploaded_docs; mret [r]
     else mret []);
  from_external ←
    (if 0 <? length external_docs
     then r ← get_from_external_docs vs_configurer external_docs; mret [r]
     else mret []);
  mret (from_uploaded ++ from_external).

(** [BM25ConfigurerImpl.async_configure], bm25.py lines 54-164.  The result
    is the configurer after a call that returns.  The three assignments (lines
    150, 153 and 162) are recorded where they happen: the first one follows
    the return of the index constructor, so that a call that raises has
    assigned nothing and leaves the configurer as it was. *)
Definition async_configure (self : BM25ConfigurerImpl)
    (config : BM25Configuration) (kwargs : gmap string KwArg)
    : M Event BM25ConfigurerImpl :=
  _ ← tell (LogInfo "Configuring BM25 retriever...");
  vs_configurer ←
    match kwargs !! "vs_configurer" with
    | Some (KwVectorStoreConfigurer v) => mret v
    | _ => raise (ValueError "Configure BM25 Retriever must provide a VectorStoreConfigurer.")
    end;
  embeddings_configurer ←
    match kwargs !! "embeddings_configurer" with
    | Some (KwEmbeddingsConfigurer e) => mret e
    | _ => raise (ValueError "Configure BM25 Retriever must provide a EmbeddingsConfigurer.")
    end;
  let embeddings_config := embeddings_model config in
  let embeddings_configurer :=
    embeddings_async_configure embeddings_configurer embeddings_config in
  embeddings_model ←
    match get_model embeddings_configurer (embeddings_name embeddings_config) with
    | Some m => mret m
    | None => raise (ValueError ("No " +:+ str_embeddings embeddings_config
                                 +:+ " embeddings model has configured yet."))
    end;
  let db_docs := get_all_vs_embedded in
  if length db_docs <=? 0 then
    _ ← tell (LogInfo "No document for initializing BM25 retriever. Skipping...");
    mret self
  else
    chunk_tasks ← gather vs_configurer db_docs;
    if 0 <? length chunk_tasks then
      let docs := concat chunk_tasks in
      _ ← tell (CallSplitDocuments docs);
      let chunks := split_documents embeddings_model docs in
      helper ← lift (make_helper config);
      let preprocess := preprocess (options_of config helper) in
      _ ← tell (LogDebug "Constructing BM25 retriever from retrieved chunks...");
      _ ← tell (CallFromDocuments chunks (k config));
      retriever ← lift (from_documents chunks preprocess (k config));
      _ ← tell (Assign "_retriever");
      _ ← tell (Assign "_config");
      _ ← tell (LogInfo "Configured BM25 retriever successfully.");
      _ ← tell (CreateTaskSaveAll (mark_bm25 <$> db_docs));
      _ ← tell (Assign "_last_sync");
      mret {| _config := Some config;
              _retriever := Some retriever;
              _last_sync := Some get_datetime_now |}
    else
      _ ← tell (LogInfo "No chunks for initializing BM25 retriever. Skipping...");
      mret self.

(** ** Notions used to state the properties of the rebuild *)

(** The warning logged for an external document, if its store is not
    configured. *)
Definition skip_warning (vs : VectorStoreConfigurerImpl) (doc : DBDocument)
    : option Event :=
  match get_store vs (embed_to_vs doc) with
  | None => Some (LogWarning (store_not_configured doc (embed_to_vs doc)))
  | Some _ => None
  end.

(** The chunks fetched for an external document: those its store returns for
    its chunk ids, none when the store is not configured. *)
Definition fetched (vs : VectorStoreConfigurerImpl) (doc : DBDocument)
    : list Document :=
  match get_store vs (embed_to_vs doc) with
  | None => []
  | Some vector_store => aget_by_ids vector_store (chunk_id <$> chunks doc)
  end.

(** The passages of the uploaded documents. *)
Definition converted (documents : list DBDocument) : list Document :=
  match (get_from_uploaded_docs documents).2 with
  | Ok passages => passages
  | Raise _ => []
  end.

Definition uploaded (db_docs : list DBDocument) : list DBDocument :=
  filter (λ doc, source doc = UPLOADED) db_docs.
Definition external (db_docs : list DBDocument) : list DBDocument :=
  filter (λ doc, source doc = EXTERNAL) db_docs.

(** Everything a rebuild gathers from the population. *)
Definition passages (vs : VectorStoreConfigurerImpl)
    (db_docs : list DBDocument) : list Document :=
  converted (uploaded db_docs) ++ concat (fetched vs <$> external db_docs).

(** The keyword arguments and the embeddings model a rebuild needs: both
    configurers are passed and the configured model is found. *)
Definition well_called (config : BM25Configuration) (kwargs : gmap string KwArg)
    (vs : VectorStoreConfigurerImpl) (m : Embeddings) : Prop :=
  kwargs !! "vs_configurer" = Some (KwVectorStoreConfigurer vs) ∧
  ∃ ec, kwargs !! "embeddings_configurer" = Some (KwEmbeddingsConfigurer ec) ∧
        get_model (embeddings_async_configure ec (embeddings_model config))
          (embeddings_name (embeddings_model config)) = Some m.

Definition is_assignment (ev : Event) : bool :=
  match ev with Assign _ => true | _ => false end.

(** The configurer object after a call of [async_configure]: as the call
    returns it, and as it was when the call raises. *)
Definition after_call (self : BM25ConfigurerImpl)
    (call : M Event BM25ConfigurerImpl) : BM25ConfigurerImpl :=
  match call.2 with
  | Ok self' => self'
  | Raise _ => self
  end.

End WithCollaborators.
End BM25.

(* ===================================================================== *)
(** * Concrete collaborators and inputs *)
(* ===================================================================== *)

Module Fixtures.
Import Effects Conversation Normalizer.

(** ** For the agent *)

(** A configurer object: its tools, its image recognizer, its checkpointer
    and the number of times it has been configured. *)
Record DemoConfigurer := {
  demo_tools : option (list string);
  demo_recognizer : option (AgentModel.ImageRecognizerConfigurer string);
  demo_checkpointer : option nat;
  demo_generation : nat
}.

Definition reconfigured (c : DemoConfigurer) : DemoConfigurer :=
  {| demo_tools := demo_tools c; demo_recognizer := demo_recognizer c;
     demo_checkpointer := demo_checkpointer c;
     demo_generation := S (demo_generation c) |}.

Definition demo_configurer : AgentModel.AgentConfigurer :=
  {| AgentModel.Configurer := DemoConfigurer;
     AgentModel.Checkpointer := nat;
     AgentModel.Tool := string;
     AgentModel.Language := string;
     AgentModel.checkpointer := demo_checkpointer;
     AgentModel.tools := demo_tools;
     AgentModel.agent_name := λ _, "rag-agent";
     AgentModel.language := λ _, "en";
     AgentModel.respond_prompt := λ _, "Answer the question.";
     AgentModel.suggest_questions_prompt := λ _, "Suggest questions.";
     AgentModel.image_recognizer_configurer := demo_recognizer;
     AgentModel.chat_model_ainvoke := λ _ _,
       {| kind := AIMessage;
          content := "I cannot recognize the attachment.";
          tool_calls := [] |};
     AgentModel.async_configure := λ c, (reconfigured c, Ok tt);
     AgentModel.configurer_sync_bm25 := λ c, ([c], (c, Ok tt)) |}.

(** The same configurer when the services behind it are down: its
    [async_configure()] and its [sync_bm25()] raise. *)
Definition failing_configurer : AgentModel.AgentConfigurer :=
  {| AgentModel.Configurer := DemoConfigurer;
     AgentModel.Checkpointer := nat;
     AgentModel.Tool := string;
     AgentModel.Language := string;
     AgentModel.checkpointer := demo_checkpointer;
     AgentModel.tools := demo_tools;
     AgentModel.agent_name := λ _, "rag-agent";
     AgentModel.language := λ _, "en";
     AgentModel.respond_prompt := λ _, "Answer the question.";
     AgentModel.suggest_questions_prompt := λ _, "Suggest questions.";
     AgentModel.image_recognizer_configurer := demo_recognizer;
     AgentModel.chat_model_ainvoke := λ _ _,
       {| kind := AIMessage;
          content := "I cannot recognize the attachment.";
          tool_calls := [] |};
     AgentModel.async_configure := λ c,
       (c, Raise (LibraryError "connection refused"));
     AgentModel.configurer_sync_bm25 := λ c,
       ([c], (c, Raise (LibraryError "connection refused"))) |}.

Definition demo_platform : @AgentModel.Platform demo_configurer :=
  {| AgentModel.UUID := string;
     AgentModel.RunnableConfig := nat;
     AgentModel.StateSnapshot := list Message;
     AgentModel.SUPPORTED_LANGUAGE_DICT := λ _, "English";
     AgentModel.str_attachment := att_name;
     AgentModel.str_uuid := λ u, u;
     AgentModel.tool_invoke := λ _ call,
       {| kind := ToolMessage; content := call_name call; tool_calls := [] |};
     AgentModel.recursion_limit := λ config, default 25 config;
     AgentModel.saved_state := λ _ _, [];
     AgentModel.saved_history := λ _, [] |}.

(** A configurer without tools, without image recognizer and without
    checkpointer. *)
Definition bare : @AgentModel.Configurer demo_configurer :=
  {| demo_tools := None; demo_recognizer := None;
     demo_checkpointer := None; demo_generation := 0 |}.

Definition thread_1 : @AgentModel.UUID demo_configurer demo_platform :=
  "thread-1".

(** A freshly constructed agent, and the same agent switched off through the
    [status] setter. *)
Definition fresh_agent : @AgentModel.Agent demo_configurer :=
  AgentModel.__init__ (H := demo_configurer) bare.
Definition agent_off : @AgentModel.Agent demo_configurer :=
  AgentModel.set_status AgentModel.OFF fresh_agent.

(** A freshly constructed agent whose configurer fails. *)
Definition bare_failing : @AgentModel.Configurer failing_configurer :=
  {| demo_tools := None; demo_recognizer := None;
     demo_checkpointer := None; demo_generation := 0 |}.
Definition failing_agent : @AgentModel.Agent failing_configurer :=
  AgentModel.__init__ (H := failing_configurer) bare_failing.

(** A turn whose only message is blank. *)
Definition blank_turn : State :=
  {| messages := [human "   "]; attachment := None |}.

(** A turn with an attached picture. *)
Definition picture : Attachment :=
  {| att_id := "f1"; att_name := "cat.png";
     mime_type := "image/png"; url := "http://files/cat.png" |}.
Definition picture_turn : State :=
  {| messages := [human "What is this?"]; attachment := Some picture |}.

(** ** For the normalizer *)

Definition demo_glyphs : GlyphTables :=
  {| emoji_glyphs := [Py.chr 169; Py.chr 174];
     emoticon_glyphs := [] |}.

Definition demo_options : Options :=
  {| enable_remove_emoji := true;
     enable_remove_emoticon := true;
     helper := Some {| stop_words := [Py.of_string "the"] |} |}.

Definition demo_text : Py.text :=
  Py.of_string "  The Quick, brown FOX -- jumps over the lazy dog!  ".

(** ** For the rebuild *)

Definition chunk_c1 : BM25.Document :=
  {| BM25.page_content := "first chunk"; BM25.metadata := ∅ |}.
Definition chunk_c2 : BM25.Document :=
  {| BM25.page_content := "second chunk"; BM25.metadata := ∅ |}.

(** The collaborators of a rebuild over [population].  A vector store maps
    chunk ids to chunks; no file resolves; the chunker keeps its input; the
    index constructor keeps the chunks and [k], and like
    [BM25Retriever.from_documents] it rejects an empty corpus. *)
Definition demo_world (population : list BM25.DBDocument)
    : BM25.Collaborators :=
  {| BM25.Embeddings := unit;
     BM25.EmbeddingsConfigurerImpl := unit;
     BM25.VectorStore := gmap string BM25.Document;
     BM25.BM25Retriever := list BM25.Document * nat;
     BM25.Datetime := string;
     BM25.get_all_vs_embedded := population;
     BM25.get_metadata_by_id := λ _, None;
     BM25.convert_all := λ _, [];
     BM25.aget_by_ids := λ store ids, omap (λ i, store !! i) ids;
     BM25.embeddings_async_configure := λ e _, e;
     BM25.get_model := λ _ _, Some tt;
     BM25.split_documents := λ _ docs, docs;
     BM25.from_documents := λ docs _ top_k,
       match docs with
       | [] => Raise (ValueError "not enough values to unpack (expected 2, got 0)")
       | _ => Ok (docs, top_k)
       end;
     BM25.load_text_preprocessing := λ _, Ok {| stop_words := [] |};
     BM25.get_datetime_now := "2025-01-01T00:00:00";
     BM25.AGENT_CONFIG_PATH := Some "/config";
     BM25.Path := λ a b, a +:+ "/" +:+ b;
     BM25.str_embeddings := BM25.embeddings_name |}.

(** The two documents of testable property 6: [A] is embedded in the
    configured store [s1] with chunks [c1] and [c2], [B] in a store that is
    not configured. *)
Definition doc_A : BM25.DBDocument :=
  {| BM25.id := "A"; BM25.source := BM25.EXTERNAL; BM25.file_id := "";
     BM25.embed_to_vs := "s1";
     BM25.chunks := [ {| BM25.chunk_id := "c1" |}; {| BM25.chunk_id := "c2" |} ];
     BM25.embed_bm25 := false |}.
Definition doc_B : BM25.DBDocument :=
  {| BM25.id := "B"; BM25.source := BM25.EXTERNAL; BM25.file_id := "";
     BM25.embed_to_vs := "unknown";
     BM25.chunks := [ {| BM25.chunk_id := "c3" |} ];
     BM25.embed_bm25 := false |}.

(** The store [s1] and a vector-store configurer that knows only [s1]. *)
Definition store_s1 : gmap string BM25.Document :=
  {[ "c1" := chunk_c1; "c2" := chunk_c2 ]}.

Definition demo_stores (population : list BM25.DBDocument)
    : @BM25.VectorStoreConfigurerImpl (demo_world population) :=
  {| BM25.stores := {[ "s1" := store_s1 ]} |}.

Definition demo_config : BM25.BM25Configuration :=
  {| BM25.embeddings_model := {| BM25.embeddings_name := "minilm" |};
     BM25.removal_words_path := None;
     BM25.enable_remove_emoji := false;
     BM25.enable_remove_emoticon := false;
     BM25.k := 4 |}.

Definition demo_kwargs (population : list BM25.DBDocument)
    : gmap string (@BM25.KwArg (demo_world population)) :=
  {[ "vs_configurer" :=
       BM25.KwVectorStoreConfigurer (demo_stores population);
     "embeddings_configurer" :=
       @BM25.KwEmbeddingsConfigurer (demo_world population) tt ]}.

(** A freshly constructed BM25 configurer, and a rebuild by it. *)
Definition fresh_bm25 (population : list BM25.DBDocument)
    : @BM25.BM25ConfigurerImpl (demo_world population) :=
  @BM25.__init__ (demo_world population).

Definition demo_rebuild (population : list BM25.DBDocument)
    : M BM25.Event
        (@BM25.BM25ConfigurerImpl (demo_world population)) :=
  @BM25.async_configure (demo_world population) demo_glyphs
    (fresh_bm25 population)
    demo_config (demo_kwargs population).

End Fixtures.

(* ===================================================================== *)
(** * Recognizer output: duplicate class names *)
(* ===================================================================== *)

Module Recognizer.

(** [ClassDescriptor], process/recognizer/__init__.py lines 9-12. *)
Record ClassDescriptor := {
  name : string;
  description : string
}.

(** The loop of [RecognizerOutput.remove_classes_duplicate], lines 23-29:
    [class_names] is the set of the names seen, [nodup_classes] the list
    built so far. *)
Fixpoint dedup_loop (class_names : gset string)
    (nodup_classes : list ClassDescriptor) (classes : list ClassDescriptor)
    : list ClassDescriptor :=
  match classes with
  | [] => nodup_classes
  | data_class :: classes' =>
      if decide (name data_class ∉ class_names)
      then dedup_loop ({[ name data_class ]} ∪ class_names)
             (nodup_classes ++ [data_class]) classes'
      else dedup_loop class_names nodup_classes classes'
  end.

(** [RecognizerOutput.remove_classes_duplicate], lines 20-29. *)
Definition remove_classes_duplicate (classes : list ClassDescriptor)
    : list ClassDescriptor :=
  dedup_loop ∅ [] classes.

(** The classes kept from [classes] when the names in [seen] were met
    before: the loop without its accumulator. *)
Fixpoint kept (seen : gset string) (classes : list ClassDescriptor)
    : list ClassDescriptor :=
  match classes with
  | [] => []
  | data_class :: classes' =>
      if decide (name data_class ∉ seen)
      then data_class :: kept ({[ name data_class ]} ∪ seen) classes'
      else kept seen classes'
  end.

End Recognizer.

(* ===================================================================== *)
(** * The MCP configurer *)
(* ===================================================================== *)

Module MCP.
Import Effects.

(** The members of [MCPTransport] that [configure] tells apart: the two it
    supports, and any other. *)
Inductive MCPTransport := STREAMABLE_HTTP | STDIO | OTHER_TRANSPORT.

(** The settings of one server, by transport, with the attributes
    [configure] copies. *)
Record StreamableHttpSettings := {
  url : string;
  headers : option (gmap string string);
  timeout : Q;
  sse_read_timeout : Q;
  terminate_on_close : bool
}.

Record StdioSettings := {
  command : string;
  args : list string;
  env : option (gmap string string);
  cwd : option string;
  encoding : string;
  encoding_error_handler : string
}.

Inductive ConnectionConfiguration :=
| HttpConfiguration (s : StreamableHttpSettings)
| StdioConfiguration (s : StdioSettings)
| OtherConfiguration (class_repr : string).

(** [cfg.type] and [str(type(cfg))] *)
Definition type (cfg : ConnectionConfiguration) : MCPTransport :=
  match cfg with
  | HttpConfiguration _ => STREAMABLE_HTTP
  | StdioConfiguration _ => STDIO
  | OtherConfiguration _ => OTHER_TRANSPORT
  end.

(** [MCPConfiguration]: the items of its [connections] dictionary, in the
    order of iteration. *)
Record MCPConfiguration := {
  connections : list (string * ConnectionConfiguration)
}.

(** [StreamableHttpConnection] and [StdioConnection], with their [transport]
    tag; [timedelta(seconds=x)] is kept as [x]. *)
Inductive SupportedConnection :=
| StreamableHttpConnection (transport : string) (s : StreamableHttpSettings)
| StdioConnection (transport : string) (s : StdioSettings).

Definition transport_of (conn : SupportedConnection) : string :=
  match conn with
  | StreamableHttpConnection t _ => t
  | StdioConnection t _ => t
  end.

(** [MultiServerMCPClient(connections)] *)
Record MultiServerMCPClient := {
  client_connections : gmap string SupportedConnection
}.

Record MCPConfigurerImpl := {
  _config : option MCPConfiguration;
  _client : option MultiServerMCPClient
}.

(** The class attributes [_config = None] and [_client = None]. *)
Definition initial : MCPConfigurerImpl :=
  {| _config := None; _client := None |}.

(** The loop of [configure], mcp.py lines 22-45. *)
Fixpoint build_connections (items : list (string * ConnectionConfiguration))
    (connections : gmap string SupportedConnection)
    : result (gmap string SupportedConnection) :=
  match items with
  | [] => Ok connections
  | (server, cfg) :: items' =>
      match cfg with
      | HttpConfiguration s =>
          build_connections items'
            (<[server := StreamableHttpConnection "streamable_http" s]> connections)
      | StdioConfiguration s =>
          build_connections items'
            (<[server := StdioConnection "stdio" s]> connections)
      | OtherConfiguration class_repr =>
          Raise (ValueError ("Unsupported connection type: " +:+ class_repr))
      end
  end.

(** [MCPConfigurerImpl.configure], mcp.py lines 18-46: the configurer after
    the call, and how the call ended. *)
Definition configure (self : MCPConfigurerImpl) (config : MCPConfiguration)
    : MCPConfigurerImpl * result unit :=
  let self := {| _config := Some config; _client := _client self |} in
  match build_connections (connections config) ∅ with
  | Raise e => (self, Raise e)
  | Ok connections =>
      ({| _config := _config self;
          _client := Some {| client_connections := connections |} |},
       Ok tt)
  end.

(** [MCPConfigurerImpl.async_configure], mcp.py lines 48-49. *)
Definition async_configure (self : MCPConfigurerImpl)
    (config : MCPConfiguration) : MCPConfigurerImpl * result unit :=
  configure self config.

Inductive Event :=
| LogWarning (msg : string)
| LogDebug (e : Exception).

(** [try: body except Exception as e: handler(e)] *)
Definition try_except {A} (body : M Event A) (handler : Exception → M Event A)
    : M Event A :=
  match body with
  | (t, Ok a) => (t, Ok a)
  | (t, Raise e) => let '(t', r) := handler e in (t ++ t', r)
  end.

Section WithClient.
(** [MultiServerMCPClient.get_tools()]: the tools of the servers, or the
    exception of a failed session. *)
Context {Tool : Type} (client_get_tools : MultiServerMCPClient → result (list Tool)).

(** [MCPConfigurerImpl.get_tools], mcp.py lines 57-64. *)
Definition get_tools (self : MCPConfigurerImpl) : M Event (list Tool) :=
  try_except
    (tools ← lift (match _client self with
                   | None => Raise AttributeError
                   | Some client => client_get_tools client
                   end);
     mret tools)
    (λ e,
       _ ← tell (LogWarning "Failed to get tools from MCP servers.");
       _ ← tell (LogDebug e);
       mret []).

End WithClient.
End MCP.

(* ===================================================================== *)
(** * Embedding and unembedding a document *)
(* ===================================================================== *)

Module Embedding.
Import Effects Conversation AgentModel.

(** [FileInformation], the dictionary passed to [embed_document]. *)
Record FileInformation := {
  file_name : string;
  file_mime_type : string;
  file_path : string
}.

(** What [embed_document] and [unembed_document] call besides the members of
    [AgentConfigurer] above. *)
Class VectorStores `{AgentConfigurer} := {
  VectorStoreConfigurer : Type;
  VectorStore : Type;
  Document : Type;
  Entropy : Type;
  (** [configurer.vector_store_configurer], which may be [None] *)
  vector_store_configurer : Configurer → option VectorStoreConfigurer;
  (** [vector_store_configurer.get_store(store_name)] *)
  get_store : VectorStoreConfigurer → string → option VectorStore;
  (** [get_documents(path, mime_type)] *)
  get_documents : string → string → list Document;
  (** [SemanticChunker(vector_store.embeddings).split_documents(documents)] *)
  split_documents : VectorStore → list Document → list Document;
  (** [str(uuid4())]: one identifier drawn from the source of randomness *)
  uuid4 : Entropy → string * Entropy;
  (** the ids [vector_store.aadd_documents(documents, ids)] returns *)
  aadd_documents : VectorStore → list Document → list string → list string
}.

Section WithStores.
Context `{VectorStores}.

Inductive Event :=
| EvGetDocuments (path mime : string)
| EvAddDocuments (store_name : string) (chunks : list Document)
    (ids : list string)
| EvDelete (store_name : string) (ids : list string).

(** [[str(uuid4()) for _ in range(n)]] *)
Fixpoint uuids (n : nat) (seed : Entropy) : list string :=
  match n with
  | 0 => []
  | S n' => let '(u, seed') := uuid4 seed in u :: uuids n' seed'
  end.

(** [self._configurer.vector_store_configurer.get_store(store_name)] *)
Definition lookup_store (a : Agent) (store_name : string)
    : result (option VectorStore) :=
  match vector_store_configurer (_configurer a) with
  | None => Raise AttributeError
  | Some vs_configurer => Ok (get_store vs_configurer store_name)
  end.

Definition no_vector_store (store_name : string) : string :=
  "No vector store " +:+ store_name +:+ " configured.".

(** [Agent.embed_document], agent.py lines 173-211. *)
Definition embed_document (a : Agent) (seed : Entropy) (store_name : string)
    (file_info : FileInformation) : M Event (list string) :=
  vector_store ← lift (lookup_store a store_name);
  match vector_store with
  | Some vector_store =>
      _ ← tell (EvGetDocuments (file_path file_info) (file_mime_type file_info));
      let documents :=
        get_documents (file_path file_info) (file_mime_type file_info) in
      let chunks := split_documents vector_store documents in
      let uuids := uuids (length chunks) seed in
      _ ← tell (EvAddDocuments store_name chunks uuids);
      let added_ids := aadd_documents vector_store chunks uuids in
      mret added_ids
  | None => raise (ValueError (no_vector_store store_name))
  end.

(** [Agent.unembed_document], agent.py lines 213-221. *)
Definition unembed_document (a : Agent) (store_name : string)
    (chunk_ids : list string) : M Event unit :=
  vector_store ← lift (lookup_store a store_name);
  match vector_store with
  | Some vector_store => tell (EvDelete store_name chunk_ids)
  | None => raise (ValueError (no_vector_store store_name))
  end.

End WithStores.
End Embedding.

(* ===================================================================== *)
(** * Notions used to state further properties *)
(* ===================================================================== *)

Module Notions.
Import Effects Conversation AgentModel.

Section WithCollaborators.
Context `{Platform}.

(** The two language directives every prompt of the agent starts with. *)
Definition language_directives (c : Configurer) : list Message :=
  [ system ("You must answer in "
            +:+ SUPPORTED_LANGUAGE_DICT (language c) +:+ ".");
    system ("Queries for using tools purpose must be in "
            +:+ SUPPORTED_LANGUAGE_DICT (language c) +:+ ".") ].

Definition is_warning (ev : Event) : bool :=
  match ev with EvWarning _ => true | _ => false end.

End WithCollaborators.

(** The connection [MCP.configure] builds for a supported configuration. *)
Definition connection_of (cfg : MCP.ConnectionConfiguration)
    : option MCP.SupportedConnection :=
  match cfg with
  | MCP.HttpConfiguration s =>
      Some (MCP.StreamableHttpConnection "streamable_http" s)
  | MCP.StdioConfiguration s => Some (MCP.StdioConnection "stdio" s)
  | MCP.OtherConfiguration _ => None
  end.

Definition supported (item : string * MCP.ConnectionConfiguration) : Prop :=
  MCP.type item.2 ≠ MCP.OTHER_TRANSPORT.

End Notions.

(* ===================================================================== *)
(** * Further concrete collaborators and inputs *)
(* ===================================================================== *)

Module MoreFixtures.
Import Effects Conversation Normalizer.

(** ** Class descriptors *)

Definition classes_with_duplicate : list Recognizer.ClassDescriptor :=
  [ {| Recognizer.name := "cat"; Recognizer.description := "a small feline" |};
    {| Recognizer.name := "dog"; Recognizer.description := "a loyal canine" |};
    {| Recognizer.name := "cat"; Recognizer.description := "another feline" |} ].

(** ** MCP configurations *)

Definition docs_server : MCP.StreamableHttpSettings :=
  {| MCP.url := "http://localhost:8000/mcp"; MCP.headers := None;
     MCP.timeout := 30; MCP.sse_read_timeout := 300;
     MCP.terminate_on_close := true |}.

Definition local_server : MCP.StdioSettings :=
  {| MCP.command := "python"; MCP.args := ["server.py"]; MCP.env := None;
     MCP.cwd := None; MCP.encoding := "utf-8";
     MCP.encoding_error_handler := "strict" |}.

Definition two_servers : MCP.MCPConfiguration :=
  {| MCP.connections :=
       [ ("docs", MCP.HttpConfiguration docs_server);
         ("local", MCP.StdioConfiguration local_server) ] |}.

Definition with_unsupported_server : MCP.MCPConfiguration :=
  {| MCP.connections :=
       [ ("docs", MCP.HttpConfiguration docs_server);
         ("events", MCP.OtherConfiguration "<class 'SSEConfiguration'>") ] |}.

(** ** Vector stores of the demo agent *)

Definition demo_vector_stores : @Embedding.VectorStores Fixtures.demo_configurer :=
  {| Embedding.VectorStoreConfigurer := gmap string nat;
     Embedding.VectorStore := nat;
     Embedding.Document := string;
     Embedding.Entropy := nat;
     Embedding.vector_store_configurer := λ _, Some {[ "s1" := 1 ]};
     Embedding.get_store := λ vs_configurer store_name,
       vs_configurer !! store_name;
     Embedding.get_documents := λ path _, [path];
     Embedding.split_documents := λ _ documents, documents ++ documents;
     Embedding.uuid4 := λ seed, (String (Py.chr (65 + seed)) "", S seed);
     Embedding.aadd_documents := λ _ _ ids, ids |}.

Definition manual : Embedding.FileInformation :=
  {| Embedding.file_name := "manual.pdf";
     Embedding.file_mime_type := "application/pdf";
     Embedding.file_path := "/resource/manual.pdf" |}.

Definition seed_0 : @Embedding.Entropy _ demo_vector_stores := 0.
Definition stores_s1 : @Embedding.VectorStoreConfigurer _ demo_vector_stores :=
  {[ "s1" := 1 ]}.
Definition store_1 : @Embedding.VectorStore _ demo_vector_stores := 1.

(** ** An agent with an image recognizer *)

Definition with_recognizer : @AgentModel.Configurer Fixtures.demo_configurer :=
  {| Fixtures.demo_tools := Some ["recognize_image"];
     Fixtures.demo_recognizer :=
       Some {| AgentModel.tool := Some "recognize_image" |};
     Fixtures.demo_checkpointer := None;
     Fixtures.demo_generation := 0 |}.

Definition recognition_result : Message :=
  {| kind := ToolMessage; content := "cat: 0.98"; tool_calls := [] |}.

(** A turn with a picture whose recognition result has just arrived. *)
Definition recognized_turn : State :=
  {| messages := [human "What is this?"; recognition_result];
     attachment := Some Fixtures.picture |}.

(** ** A rebuild without the configuration folder *)

(** The collaborators of [Fixtures.demo_world], in a process whose
    environment lacks [AGENT_CONFIG_PATH]. *)
Definition world_without_folder (population : list BM25.DBDocument)
    : BM25.Collaborators :=
  {| BM25.Embeddings := unit;
     BM25.EmbeddingsConfigurerImpl := unit;
     BM25.VectorStore := gmap string BM25.Document;
     BM25.BM25Retriever := list BM25.Document * nat;
     BM25.Datetime := string;
     BM25.get_all_vs_embedded := population;
     BM25.get_metadata_by_id := λ _, None;
     BM25.convert_all := λ _, [];
     BM25.aget_by_ids := λ store ids, omap (λ i, store !! i) ids;
     BM25.embeddings_async_configure := λ e _, e;
     BM25.get_model := λ _ _, Some tt;
     BM25.split_documents := λ _ docs, docs;
     BM25.from_documents := λ docs _ top_k,
       match docs with
       | [] => Raise (ValueError "not enough values to unpack (expected 2, got 0)")
       | _ => Ok (docs, top_k)
       end;
     BM25.load_text_preprocessing := λ _, Ok {| stop_words := [] |};
     BM25.get_datetime_now := "2025-01-01T00:00:00";
     BM25.AGENT_CONFIG_PATH := None;
     BM25.Path := λ a b, a +:+ "/" +:+ b;
     BM25.str_embeddings := BM25.embeddings_name |}.

Definition stores_without_folder (population : list BM25.DBDocument)
    : @BM25.VectorStoreConfigurerImpl (world_without_folder population) :=
  {| BM25.stores := {[ "s1" := Fixtures.store_s1 ]} |}.

Definition kwargs_without_folder (population : list BM25.DBDocument)
    : gmap string (@BM25.KwArg (world_without_folder population)) :=
  {[ "vs_configurer" :=
       BM25.KwVectorStoreConfigurer (stores_without_folder population);
     "embeddings_configurer" :=
       @BM25.KwEmbeddingsConfigurer (world_without_folder population) tt ]}.

Definition config_with_removal_words : BM25.BM25Configuration :=
  {| BM25.embeddings_model := {| BM25.embeddings_name := "minilm" |};
     BM25.removal_words_path := Some "stopwords.txt";
     BM25.enable_remove_emoji := false;
     BM25.enable_remove_emoticon := false;
     BM25.k := 4 |}.

Definition fresh_without_folder (population : list BM25.DBDocument)
    : @BM25.BM25ConfigurerImpl (world_without_folder population) :=
  @BM25.__init__ (world_without_folder population).

End MoreFixtures.

(* ===================================================================== *)
(** * Properties *)
(* ===================================================================== *)

Section MonadFacts.
Import Effects.
Context {E : Type}.

Lemma bind_trace {A B} (m : M E A) (f : A → M E B) :
  (m ≫= f).1 = m.1 ++ match m.2 with Ok a => (f a).1 | Raise _ => [] end.
Proof.
  destruct m as [t [a|e]]; unfold mbind, M_bind; simpl; [|by rewrite app_nil_r].
  by destruct (f a).
Qed.

Lemma bind_result {A B} (m : M E A) (f : A → M E B) :
  (m ≫= f).2 = match m.2 with Ok a => (f a).2 | Raise e => Raise e end.
Proof.
  destruct m as [t [a|e]]; unfold mbind, M_bind; simpl; [|done].
  by destruct (f a).
Qed.

Lemma bind_pure {A B} (t : list E) (a : A) (f : A → M E B) :
  ((t, Ok a) ≫= f) = (t ++ (f a).1, (f a).2).
Proof. unfold mbind, M_bind. by destruct (f a). Qed.

End MonadFacts.

(** Runs a computation over its leading returns. *)
Ltac run_binds :=
  repeat (unfold mret, Effects.M_ret, Effects.tell, Effects.lift;
          rewrite ?bind_pure; cbn [fst snd]).

(** ** The normalizer *)

Section NormalizerFacts.
Import Py Normalizer.
Context `{GlyphTables}.

Lemma lower_char_idem (c : ascii) : lower_char (lower_char c) = lower_char c.
Proof. by destruct c as [[] [] [] [] [] [] [] []]. Qed.

Lemma lower_char_space : lower_char " " = " "%char.
Proof. done. Qed.

Lemma filter_all {A} (P : A → Prop) `{!∀ x, Decision (P x)} (l : list A) :
  Forall P l → filter P l = l.
Proof.
  induction 1 as [|x l Hx _ IH]; [done|].
  by rewrite filter_cons_True, IH.
Qed.

Lemma Forall_filter_of {A} (P Q : A → Prop) `{!∀ x, Decision (Q x)} (l : list A) :
  Forall P l → Forall P (filter Q l).
Proof.
  induction 1 as [|x l Hx _ IH]; [constructor|].
  rewrite filter_cons. destruct (decide (Q x)); [by constructor|done].
Qed.

Lemma Forall_filter_pred {A} (Q : A → Prop) `{!∀ x, Decision (Q x)} (l : list A) :
  Forall Q (filter Q l).
Proof.
  induction l as [|x l IH]; [constructor|].
  rewrite filter_cons. destruct (decide (Q x)); [by constructor|done].
Qed.

Lemma split_go_nonspace (cur t s : text) :
  Forall nonspace t → split_go cur (t ++ s) = split_go (cur ++ t) s.
Proof.
  intros Ht. revert cur. induction Ht as [|c t Hc _ IH]; intros cur; simpl.
  - by rewrite app_nil_r.
  - rewrite Hc, IH. by rewrite <-app_assoc.
Qed.

Lemma emit_token (t : text) : t ≠ [] → emit t = [t].
Proof. by destruct t. Qed.

Lemma Forall_emit (Q : text → Prop) (cur : text) :
  (cur ≠ [] → Q cur) → Forall Q (emit cur).
Proof. destruct cur; simpl; [constructor|]. intros HQ. by repeat constructor; apply HQ. Qed.

Lemma split_go_Forall (P : ascii → Prop) (cur s : text) :
  Forall P cur → Forall P s → Forall (Forall P) (split_go cur s).
Proof.
  intros Hcur Hs. revert cur Hcur.
  induction Hs as [|c s Hc _ IH]; intros cur Hcur; simpl.
  - by apply Forall_emit.
  - destruct (isspace c).
    + apply Forall_app. split; [by apply Forall_emit|by apply IH].
    + apply IH, Forall_app. by repeat constructor.
Qed.

Lemma split_go_tokens (cur s : text) :
  Forall nonspace cur → Forall token (split_go cur s).
Proof.
  revert cur. induction s as [|c s IH]; intros cur Hcur; simpl.
  - by apply Forall_emit.
  - destruct (isspace c) eqn:Hc.
    + apply Forall_app. split; [by apply Forall_emit|by apply IH].
    + apply IH, Forall_app. by repeat constructor.
Qed.

Lemma split_tokens (s : text) : Forall token (split s).
Proof. by apply split_go_tokens. Qed.

Lemma split_join (ts : list text) :
  Forall token ts → split (join space ts) = ts.
Proof.
  unfold split. induction 1 as [|t ts [Hne Ht] Hts IH]; [done|].
  destruct ts as [|t' ts].
  - pose proof (split_go_nonspace [] t [] Ht) as E.
    rewrite app_nil_r in E. simpl in *. rewrite E. by apply emit_token.
  - change (join space (t :: t' :: ts)) with (t ++ space ++ join space (t' :: ts)).
    rewrite split_go_nonspace by done.
    change (split_go ([] ++ t) (space ++ join space (t' :: ts)))
      with (emit t ++ split_go [] (join space (t' :: ts))).
    rewrite IH. by rewrite emit_token.
Qed.

Lemma Forall_join (P : ascii → Prop) (sep : text) (ts : list text) :
  Forall P sep → Forall (Forall P) ts → Forall P (join sep ts).
Proof.
  intros Hsep. induction 1 as [|t ts Ht Hts IH]; [constructor|].
  destruct ts as [|t' ts]; [done|].
  change (join sep (t :: t' :: ts)) with (t ++ sep ++ join sep (t' :: ts)).
  by rewrite !Forall_app.
Qed.

Lemma preprocess_stages (o : Options) (t : text) :
  preprocess o t = split (reworded o (cleaned o t)).
Proof.
  unfold preprocess, cleaned, filter_if, reworded, remove_emoji, remove_emoticons.
  by destruct (enable_remove_emoji o), (enable_remove_emoticon o).
Qed.

Lemma filter_if_Forall (P : ascii → Prop) (b : bool) (glyphs t : text) :
  Forall P t →
  Forall (λ c, P c ∧ (b = true → c ∉ glyphs)) (filter_if b glyphs t).
Proof.
  intros Ht. apply Forall_and. split.
  - destruct b; simpl; [by apply Forall_filter_of|done].
  - destruct b; simpl; [|by apply Forall_true].
    eapply Forall_impl; [apply (Forall_filter_pred (λ c, c ∉ glyphs))|done].
Qed.

Lemma filter_if_fixed (b : bool) (glyphs t : text) :
  Forall (λ c, b = true → c ∉ glyphs) t → filter_if b glyphs t = t.
Proof.
  destruct b; simpl; [|done]. intros Ht.
  apply (filter_all (λ c, c ∉ glyphs)).
  eapply Forall_impl; [exact Ht|]. auto.
Qed.

Lemma cleaned_clean (o : Options) (t : text) : Forall (clean o) (cleaned o t).
Proof.
  unfold cleaned, clean. do 2 apply filter_if_Forall.
  unfold translate_delete, lower. apply Forall_and. split.
  - apply Forall_filter_of, Forall_fmap, Forall_true.
    intros c. apply lower_char_idem.
  - apply (Forall_filter_pred (λ c, c ∉ punctuation)).
Qed.

Lemma cleaned_fixed (o : Options) (t : text) :
  Forall (clean o) t → cleaned o t = t.
Proof.
  intros Ht. unfold cleaned, lower, translate_delete.
  assert (lower_char <$> t = t) as ->.
  { induction Ht as [|c t [[[Hc _] _] _] _ IH]; [done|].
    rewrite fmap_cons. by rewrite Hc, IH. }
  rewrite (filter_all (λ c, c ∉ punctuation))
    by (eapply Forall_impl; [exact Ht|]; by intros c [[[_ ?] _] _]).
  rewrite (filter_if_fixed (enable_remove_emoji o))
    by (eapply Forall_impl; [exact Ht|]; by intros c [[_ ?] _]).
  apply filter_if_fixed.
  eapply Forall_impl; [exact Ht|]; by intros c [_ ?].
Qed.

(** The tokens left by the word-level stage. *)
Lemma split_reworded (o : Options) (v : text) :
  split (reworded o v) =
  match helper o with
  | Some h => filter (λ w, w ∉ stop_words h) (split v)
  | None => split v
  end.
Proof.
  unfold reworded, remove_words. destruct (helper o) as [h|]; [|done].
  apply split_join, Forall_filter_of, split_tokens.
Qed.

Lemma reworded_fixed (o : Options) (ws : list text) :
  Forall token ws →
  (∀ h, helper o = Some h → Forall (λ w, w ∉ stop_words h) ws) →
  reworded o (join space ws) = join space ws.
Proof.
  intros Htok Hstop. unfold reworded, remove_words.
  destruct (helper o) as [h|]; [|done].
  rewrite split_join by done.
  by rewrite (filter_all (λ w, w ∉ stop_words h)) by auto.
Qed.

Lemma clean_space (o : Options) :
  " "%char ∉ emoji_glyphs → " "%char ∉ emoticon_glyphs → clean o " ".
Proof.
  intros ??. repeat split; [|done..].
  apply (bool_decide_unpack _). by vm_compute.
Qed.

(** C9. For every input text and every fixed normalization configuration
    (emoji removal, emoticon removal, stop-word set), normalizing the tokens
    of a first normalization, rejoined by blanks, gives the same tokens again:
    [preprocess (join (preprocess x)) = preprocess x].  The blank is assumed
    not to be listed in the emoji and emoticon glyph tables. *)
Theorem preprocess_idempotent (o : Options) (x : text) :
  " "%char ∉ emoji_glyphs →
  " "%char ∉ emoticon_glyphs →
  preprocess o (join space (preprocess o x)) = preprocess o x.
Proof.
  intros Hemoji Hemoticon.
  rewrite (preprocess_stages o x).
  set (v := cleaned o x). set (ws := split (reworded o v)).
  assert (Forall token ws) as Htok by apply split_tokens.
  assert (Forall (Forall (clean o)) ws ∧
          ∀ h, helper o = Some h → Forall (λ w, w ∉ stop_words h) ws)
    as [Hclean Hstop].
  { subst ws. rewrite split_reworded.
    pose proof (split_go_Forall (clean o) [] v (Forall_nil_2 _) (cleaned_clean o x)) as Hv.
    fold (split v) in Hv.
    destruct (helper o) as [h|].
    - split; [by apply Forall_filter_of|].
      intros h' [= <-]. apply (Forall_filter_pred (λ w, w ∉ stop_words h)).
    - split; [done|]. intros h' [=]. }
  rewrite preprocess_stages.
  rewrite cleaned_fixed.
  - rewrite reworded_fixed by done. by apply split_join.
  - apply Forall_join; [|done].
    repeat constructor; by apply clean_space.
Qed.

End NormalizerFacts.

(** ** The agent *)

Section AgentFacts.
Import Effects Conversation AgentModel.
Context `{Platform}.

Lemma strip_nil_iff (t : Py.text) :
  Py.strip t = [] ↔ Forall (λ c, Py.isspace c = true) t.
Proof.
  assert (∀ u, Py.lstrip u = [] ↔ Forall (λ c, Py.isspace c = true) u) as Hl.
  { induction u as [|c u IH]; simpl; [by split; [constructor|]|].
    destruct (Py.isspace c) eqn:Hc.
    - rewrite IH. split; [by constructor|by inversion 1].
    - split; [done|]. inversion 1; congruence. }
  assert (∀ u, Forall (λ c, Py.isspace c = false) (take 1 (Py.lstrip u))) as Hhd.
  { induction u as [|c u IH]; simpl; [constructor|].
    destruct (Py.isspace c) eqn:Hc; [done|]. by repeat constructor. }
  unfold Py.strip, Py.rstrip. split.
  - intros Hs. apply Hl.
    destruct (Py.lstrip t) as [|c u] eqn:Ht; [done|].
    apply (f_equal reverse) in Hs. rewrite reverse_involutive in Hs.
    change (reverse []) with (@nil ascii) in Hs.
    apply Hl in Hs. rewrite Forall_reverse in Hs.
    specialize (Hhd t). rewrite Ht in Hhd. simpl in Hhd.
    inversion Hs; inversion Hhd; congruence.
  - intros Ht. apply Hl in Ht. by rewrite Ht.
Qed.

Lemma routing_function_spec (state : State) (m : Message) :
  last (messages state) = Some m →
  _routing_function state =
    Ok (if decide (routes_to_suggest m) then suggest_questions else query_or_respond).
Proof.
  intros Hm. unfold _routing_function, latest_message. rewrite Hm.
  unfold isinstance, routes_to_suggest.
  destruct (decide _) as [[Hk|Hs]|Hn].
  - by rewrite bool_decide_eq_false_2.
  - rewrite Hs. simpl. by rewrite orb_true_r.
  - destruct (decide (kind m = HumanMessage)) as [Hk|Hk]; [|by destruct Hn; left].
    rewrite bool_decide_eq_true_2 by done. simpl.
    destruct (Py.strip _); [by destruct Hn; right|done].
Qed.

Lemma bind_Forall {A B} (P : Event → Prop) (m : M Event A) (f : A → M Event B) :
  Forall P m.1 →
  (∀ a, m.2 = Ok a → Forall P (f a).1) →
  Forall P (m ≫= f).1.
Proof.
  destruct m as [t [a|e]]; simpl; intros Ht Hf; [|done].
  specialize (Hf a eq_refl). unfold mbind, M_bind.
  destruct (f a) as [t' r]. simpl in *. by apply Forall_app.
Qed.

Lemma bind_Ok {A B} (m : M Event A) (f : A → M Event B) (b : B) :
  (m ≫= f).2 = Ok b → ∃ a, m.2 = Ok a ∧ (f a).2 = Ok b.
Proof.
  destruct m as [t [a|e]]; unfold mbind, M_bind; simpl; [|done].
  destruct (f a) as [t' r] eqn:Hf. simpl. intros ->. exists a. by rewrite Hf.
Qed.

Lemma bind_Raise {A B} (m : M Event A) (f : A → M Event B) (e : Exception) :
  (m ≫= f).2 = Raise e →
  m.2 = Raise e ∨ ∃ a, m.2 = Ok a ∧ (f a).2 = Raise e.
Proof.
  destruct m as [t [a|e']]; unfold mbind, M_bind; simpl; [|intros [= ->]; by left].
  destruct (f a) as [t' r] eqn:Hf. simpl. intros ->. right. exists a. by rewrite Hf.
Qed.

Lemma node_template_no_route (c : Configurer) (state : State) :
  Forall (λ ev, is_route ev = false) (respond_template c state).1 ∧
  Forall (λ ev, is_route ev = false) (suggest_template c state).1.
Proof.
  unfold respond_template, suggest_template, lift. split.
  - destruct (attachment state); [destruct (recognizer_missing c)|].
    + apply bind_Forall; by repeat constructor.
    + by repeat constructor.
    + apply bind_Forall; [by destruct (latest_message state)|].
      intros m _. by destruct (isinstance m ToolMessage).
  - destruct (attachment state); [destruct (recognizer_missing c)|].
    + apply bind_Forall; by repeat constructor.
    + apply bind_Forall; [by destruct (latest_message state)|].
      intros m _. by destruct (isinstance m ToolMessage).
    + apply bind_Forall; by repeat constructor.
Qed.

Lemma invoke_model_no_route (c : Configurer) (state : State) t :
  Forall (λ ev, is_route ev = false) (invoke_model c state t).1.
Proof.
  unfold invoke_model, lift. apply bind_Forall; [by destruct (template_invoke _ _)|].
  intros prompt _. apply bind_Forall; by repeat constructor.
Qed.

Lemma invoke_node_sync (c : Configurer) (action : NodeAction) (state : State) :
  invoke_node Synchronous c action state =
    match action with
    | RunTools _ => exec_node c action state
    | _ => raise TypeError
    end.
Proof. by destruct action. Qed.

Lemma invoke_node_async (c : Configurer) (action : NodeAction) (state : State) :
  invoke_node Asynchronous c action state = exec_node c action state.
Proof. by destruct action. Qed.

Lemma exec_node_no_route (c : Configurer) (action : NodeAction) (state : State) :
  Forall (λ ev, is_route ev = false) (exec_node c action state).1.
Proof.
  destruct action; unfold exec_node, _query_or_respond, _suggest_questions.
  - apply bind_Forall; [|by intros; repeat constructor].
    apply bind_Forall; [apply node_template_no_route|intros; apply invoke_model_no_route].
  - apply bind_Forall; [|by intros; repeat constructor].
    apply bind_Forall; [apply node_template_no_route|intros; apply invoke_model_no_route].
  - apply bind_Forall; [unfold lift; by destruct (latest_message state)|].
    intros m _. apply bind_Forall; [|by intros; repeat constructor].
    simpl. apply Forall_fmap, Forall_true. done.
Qed.

Lemma configured_tools_Some (c : Configurer) :
  is_Some (configured_tools c) ↔ at_least_one_tool c.
Proof.
  unfold configured_tools, at_least_one_tool.
  destruct (tools c) as [[|t ts]|]; split;
    try (intros [? [=]]); try (intros (? & ? & [=])); eauto.
Qed.

Lemma configured_tools_None (c : Configurer) :
  configured_tools c = None ↔ ¬ at_least_one_tool c.
Proof.
  rewrite <-configured_tools_Some, <-eq_None_not_Some. done.
Qed.

Lemma branches_built (c : Configurer) (node : string) :
  branches (build_state_graph c) !! node =
    if decide (node = START) then Some {| path := RoutingFunction; path_map := None |}
    else match configured_tools c with
         | None => None
         | Some _ =>
             if decide (node = suggest_questions)
             then Some {| path := ToolsCondition; path_map := Some (tools_map "tools_2") |}
             else if decide (node = query_or_respond)
             then Some {| path := ToolsCondition; path_map := Some (tools_map "tools_1") |}
             else None
         end.
Proof.
  unfold build_state_graph. destruct (configured_tools c); simpl;
    repeat (rewrite lookup_insert; case_decide; subst; try done);
    repeat (case_decide; subst; try done).
Qed.

Lemma edges_built (c : Configurer) :
  edges (build_state_graph c) =
    match configured_tools c with
    | Some _ => [("tools_1", query_or_respond); ("tools_2", suggest_questions)]
    | None => []
    end.
Proof. unfold build_state_graph. by destruct (configured_tools c). Qed.

Lemma nodes_built (c : Configurer) (node : string) :
  nodes (build_state_graph c) !! node =
    match configured_tools c with
    | Some ts =>
        if decide (node = "tools_2") then Some (RunTools ts)
        else if decide (node = "tools_1") then Some (RunTools ts)
        else if decide (node = suggest_questions) then Some RunSuggestQuestions
        else if decide (node = query_or_respond) then Some RunQueryOrRespond
        else None
    | None =>
        if decide (node = suggest_questions) then Some RunSuggestQuestions
        else if decide (node = query_or_respond) then Some RunQueryOrRespond
        else None
    end.
Proof.
  unfold build_state_graph. destruct (configured_tools c); simpl;
    repeat (rewrite lookup_insert; case_decide; subst; try done);
    repeat (case_decide; subst; try done).
Qed.

Lemma successor_built (c : Configurer) (node : string) (state : State) :
  successor (build_state_graph c) node state =
    if decide (node = START) then
      r ← lift (_routing_function state); _ ← tell (EvRoute r); mret r
    else match configured_tools c with
         | None => mret END
         | Some _ =>
             if decide (node = suggest_questions)
             then after_tools_condition "tools_2" state
             else if decide (node = query_or_respond)
             then after_tools_condition "tools_1" state
             else if decide (node = "tools_1") then mret query_or_respond
             else if decide (node = "tools_2") then mret suggest_questions
             else mret END
         end.
Proof.
  unfold successor. rewrite branches_built, edges_built.
  case_decide as Hstart.
  { simpl. unfold lift. destruct (_routing_function state) as [r|e]; done. }
  destruct (configured_tools c) as [ts|]; [|done].
  assert (∀ tools_node,
    (r ← lift (tools_condition state);
     lift (resolve {| path := ToolsCondition;
                      path_map := Some (tools_map tools_node) |} r))
    = after_tools_condition tools_node state) as Hcond.
  { intros tools_node. unfold tools_condition, after_tools_condition.
    destruct (last (messages state)) as [m|]; [|done].
    by destruct (isinstance m AIMessage && negb (length (tool_calls m) =? 0)). }
  case_decide; [by rewrite <-Hcond|].
  case_decide; [by rewrite <-Hcond|].
  simpl. repeat (case_decide; subst; simpl; try done).
Qed.

Lemma successor_after_start (c : Configurer) (node : string) (state : State) :
  node ≠ START →
  (successor (build_state_graph c) node state).1 = [] ∧
  ∀ next, (successor (build_state_graph c) node state).2 = Ok next →
          next ≠ START.
Proof.
  intros Hnode. rewrite successor_built. rewrite decide_False by done.
  assert (∀ tools_node, tools_node ≠ START →
    (after_tools_condition tools_node state).1 = [] ∧
    ∀ next, (after_tools_condition tools_node state).2 = Ok next → next ≠ START)
    as Hcond.
  { intros tools_node Hne. unfold after_tools_condition.
    destruct (last (messages state)) as [m|]; [|done].
    destruct (isinstance m AIMessage && negb (length (tool_calls m) =? 0));
      (split; [done|]); by intros next [= <-]. }
  destruct (configured_tools c) as [ts|].
  - repeat case_decide; try (by apply Hcond);
      (split; [done|]); by intros next [= <-].
  - split; [done|]. by intros next [= <-].
Qed.

Lemma invoke_node_no_route (mode : RunMode) (c : Configurer)
    (action : NodeAction) (state : State) :
  Forall (λ ev, is_route ev = false) (invoke_node mode c action state).1.
Proof.
  destruct mode; [|rewrite invoke_node_async; apply exec_node_no_route].
  rewrite invoke_node_sync.
  destruct action; try by constructor. apply exec_node_no_route.
Qed.

Lemma run_from_unfold (mode : RunMode) (c : Configurer) (g : StateGraph)
    (fuel : nat) (node : string) (state : State) :
  run_from mode c g (S fuel) node state =
    if decide (node = END) then mret []
    else match nodes g !! node with
         | None => raise (KeyError node)
         | Some action =>
             state' ← invoke_node mode c action state;
             next ← successor g node state';
             rest ← run_from mode c g fuel next state';
             mret (state' :: rest)
         end.
Proof. done. Qed.

Lemma run_from_no_route (mode : RunMode) (c : Configurer) (fuel : nat)
    (node : string) (state : State) :
  node ≠ START →
  Forall (λ ev, is_route ev = false)
    (run_from mode c (build_state_graph c) fuel node state).1.
Proof.
  revert node state. induction fuel as [|fuel IH]; intros node state Hnode;
    [by constructor|].
  rewrite run_from_unfold. case_decide; [by constructor|].
  destruct (nodes (build_state_graph c) !! node) as [action|];
    [|by constructor].
  apply bind_Forall; [apply invoke_node_no_route|]. intros state' _.
  destruct (successor_after_start c node state' Hnode) as [Hquiet Hnext].
  apply bind_Forall; [by rewrite Hquiet|]. intros next Hn.
  apply bind_Forall; [by apply IH, Hnext|]. by intros; repeat constructor.
Qed.

(** C1. For every conversation state whose history is not empty, the entry
    routing function chooses [suggest_questions] exactly when the last message
    is not a human message or its stripped content is the empty text, and
    [query_or_respond] in every other case; a run of the built graph,
    synchronous or asynchronous, takes this decision once, as its first step,
    before any call to the chat model. *)
Theorem entry_routing (c : Configurer) (limit : nat) (state : State) :
  messages state ≠ [] →
  ∃ m, last (messages state) = Some m ∧
    (_routing_function state = Ok suggest_questions ↔
       kind m ≠ HumanMessage ∨ Py.strip (Py.of_string (content m)) = []) ∧
    (_routing_function state = Ok query_or_respond ↔
       ¬ (kind m ≠ HumanMessage ∨ Py.strip (Py.of_string (content m)) = [])) ∧
    ∃ chosen,
      _routing_function state = Ok chosen ∧
      ∀ mode, ∃ rest,
        (graph_run mode c (build_state_graph c) limit state).1
          = EvRoute chosen :: rest ∧
        Forall (λ ev, is_route ev = false) rest.
Proof.
  intros Hne. destruct (last (messages state)) as [m|] eqn:Hm;
    [|by apply last_None in Hm].
  exists m. split; [done|].
  pose proof (routing_function_spec state m Hm) as Hr.
  unfold routes_to_suggest in Hr.
  split; [|split].
  - rewrite Hr. by case_decide.
  - rewrite Hr. case_decide; [|done]. split; [done|]. by intros [].
  - set (chosen := if decide _ then _ else _) in Hr.
    assert (chosen ≠ START) as Hc by (subst chosen; by case_decide).
    exists chosen. split; [exact Hr|]. intros mode.
    exists (run_from mode c (build_state_graph c) limit chosen state).1.
    split; [|by apply run_from_no_route].
    unfold graph_run.
    rewrite successor_built, decide_True by done.
    rewrite Hr. unfold lift, tell, mbind, M_bind, mret, M_ret. simpl.
    destruct (run_from mode c (build_state_graph c) limit chosen state)
      as [t [states|e]]; simpl; by rewrite ?app_nil_r.
Qed.



Lemma bind_no_runtime_error {A B} (m : M Event A) (f : A → M Event B) :
  no_runtime_error m.2 → (∀ a, no_runtime_error (f a).2) →
  no_runtime_error (m ≫= f).2.
Proof.
  intros Hm Hf msg [Hr|(a & _ & Hr)]%bind_Raise; [by eapply Hm|by eapply Hf].
Qed.

Lemma latest_message_no_runtime_error (state : State) :
  no_runtime_error (latest_message state).
Proof. unfold latest_message. by destruct (last _). Qed.

Lemma template_invoke_no_runtime_error t inputs :
  no_runtime_error (template_invoke t inputs).
Proof.
  induction t as [|[m|v] t IH]; simpl; [done|..].
  - destruct (template_invoke t inputs); [done|]. intros msg [= ->]. by eapply IH.
  - destruct (inputs !! v); [|done].
    destruct (template_invoke t inputs); [done|]. intros msg [= ->]. by eapply IH.
Qed.

Lemma node_no_runtime_error (c : Configurer) (state : State) :
  no_runtime_error (_query_or_respond c state).2 ∧
  no_runtime_error (_suggest_questions c state).2.
Proof.
  assert (∀ t, no_runtime_error (invoke_model c state t).2) as Hinv.
  { intros t. unfold invoke_model. apply bind_no_runtime_error.
    - apply template_invoke_no_runtime_error.
    - intros prompt. by apply bind_no_runtime_error. }
  pose proof (latest_message_no_runtime_error state) as Hlast.
  unfold _query_or_respond, _suggest_questions, respond_template,
    suggest_template, lift.
  split; (apply bind_no_runtime_error; [|done]).
  - destruct (attachment state); [by destruct (recognizer_missing c)|].
    apply bind_no_runtime_error; [done|]. intros m. by destruct (isinstance _ _).
  - destruct (attachment state); [destruct (recognizer_missing c)|]; try done.
    apply bind_no_runtime_error; [done|]. intros m. by destruct (isinstance _ _).
Qed.

Lemma exec_node_no_runtime_error (c : Configurer) action (state : State) :
  no_runtime_error (exec_node c action state).2.
Proof.
  destruct action; unfold exec_node.
  - apply bind_no_runtime_error; [apply node_no_runtime_error|done].
  - apply bind_no_runtime_error; [apply node_no_runtime_error|done].
  - apply bind_no_runtime_error; [apply latest_message_no_runtime_error|].
    intros m. by apply bind_no_runtime_error.
Qed.

Lemma successor_no_runtime_error (g : StateGraph) node (state : State) :
  no_runtime_error (successor g node state).2.
Proof.
  unfold successor. destruct (branches g !! node) as [b|].
  - apply bind_no_runtime_error.
    + destruct (path b).
      * apply bind_no_runtime_error; [|by intros; apply bind_no_runtime_error].
        unfold _routing_function, latest_message.
        destruct (last _) as [m|]; [|done]. by destruct (_ || _).
      * unfold tools_condition. destruct (last _) as [m|]; [|done].
        by destruct (_ && _).
    + intros r. unfold resolve. destruct (path_map b) as [pm|]; [|done].
      by destruct (pm !! r).
  - by destruct (list_find _ _) as [[? [? ?]]|].
Qed.

Lemma invoke_node_no_runtime_error mode (c : Configurer) action (state : State) :
  no_runtime_error (invoke_node mode c action state).2.
Proof.
  destruct mode; [|rewrite invoke_node_async; apply exec_node_no_runtime_error].
  rewrite invoke_node_sync.
  destruct action; try done. apply exec_node_no_runtime_error.
Qed.

Lemma run_from_no_runtime_error mode (c : Configurer) g fuel node (state : State) :
  no_runtime_error (run_from mode c g fuel node state).2.
Proof.
  revert node state. induction fuel as [|fuel IH]; intros node state; [done|].
  rewrite run_from_unfold. case_decide; [done|].
  destruct (nodes g !! node) as [action|]; [|done].
  apply bind_no_runtime_error; [apply invoke_node_no_runtime_error|].
  intros state'. apply bind_no_runtime_error; [apply successor_no_runtime_error|].
  intros next. by apply bind_no_runtime_error.
Qed.

Lemma graph_run_no_runtime_error mode (c : Configurer) g limit (state : State) :
  no_runtime_error (graph_run mode c g limit state).2.
Proof.
  apply bind_no_runtime_error; [apply successor_no_runtime_error|].
  intros first. apply bind_no_runtime_error; [|done].
  apply run_from_no_runtime_error.
Qed.

(** A failed guard ends every turn-execution call at once. *)
Lemma perform_guarded (a : Agent) (call : TurnCall) (e : Exception) :
  check_graph_available a = Raise e → perform a call = ([], Some e).
Proof.
  intros Hc. destruct call; unfold perform, stream, astream, get_state_history,
    get_state; by rewrite Hc.
Qed.

Lemma perform_ready (a : Agent) (call : TurnCall) :
  check_graph_available a = Ok tt →
  ∀ msg, (perform a call).2 ≠ Some (RuntimeError msg).
Proof.
  intros Hc msg.
  assert (∃ g, _graph a = Some g) as [g Hg].
  { unfold check_graph_available in Hc.
    destruct (_graph a) as [g|]; [by exists g|by destruct (negb _)]. }
  assert (∀ A (m : M Event A), no_runtime_error m.2 →
            (observe m).2 ≠ Some (RuntimeError msg)) as Hobs.
  { intros A [t [x|e]] Hm; simpl; [done|]. intros [= ->]. by eapply Hm. }
  destruct call; unfold perform, stream, astream, get_state_history, get_state,
    the_graph; rewrite Hc, Hg; apply Hobs.
  - apply bind_no_runtime_error; [done|]. intros _.
    apply bind_no_runtime_error; [done|]. intros g'.
    apply graph_run_no_runtime_error.
  - apply bind_no_runtime_error; [done|]. intros _.
    apply bind_no_runtime_error; [done|]. intros g'.
    apply graph_run_no_runtime_error.
  - apply bind_no_runtime_error; [done|]. intros _.
    apply bind_no_runtime_error; [done|]. intros g'.
    apply bind_no_runtime_error; [|done].
    unfold lift, graph_saver. by destruct (graph_checkpointer g').
  - apply bind_no_runtime_error; [done|]. intros _.
    apply bind_no_runtime_error; [done|]. intros g'.
    apply bind_no_runtime_error; [|done].
    unfold lift, graph_saver. by destruct (graph_checkpointer g').
Qed.

Lemma guard_messages_distinct : NoDup readiness_messages.
Proof. by apply (bool_decide_unpack _); vm_compute. Qed.

Lemma guard_not_configured (a : Agent) :
  _is_configured a = false →
  check_graph_available a = Raise (RuntimeError NOT_CONFIGURED).
Proof. intros Hc. unfold check_graph_available. by rewrite Hc. Qed.

Lemma guard_not_initialized (a : Agent) :
  _is_configured a = true → _graph a = None →
  check_graph_available a = Raise (RuntimeError NOT_INITIALIZED).
Proof. intros Hc Hg. unfold check_graph_available. by rewrite Hc, Hg. Qed.

Lemma guard_turned_off (a : Agent) :
  _is_configured a = true → is_Some (_graph a) → _status a = OFF →
  check_graph_available a = Raise (RuntimeError TURNED_OFF).
Proof.
  intros Hc [g Hg] Hs. unfold check_graph_available. by rewrite Hc, Hg, Hs.
Qed.

Lemma guard_restarting (a : Agent) :
  _is_configured a = true → is_Some (_graph a) → _status a = RESTART →
  check_graph_available a = Raise (RuntimeError RESTARTING_NOW).
Proof.
  intros Hc [g Hg] Hs. unfold check_graph_available. by rewrite Hc, Hg, Hs.
Qed.

Lemma guard_passes (a : Agent) :
  _is_configured a = true → is_Some (_graph a) → _status a = ON →
  check_graph_available a = Ok tt.
Proof.
  intros Hc [g Hg] Hs. unfold check_graph_available. by rewrite Hc, Hg, Hs.
Qed.

(** An agent that is not ready rejects every turn-execution call with one of
    the four messages, before anything else happens. *)
Lemma guard_rejects (a : Agent) (call : TurnCall) :
  _is_configured a = false ∨ _graph a = None ∨
  _status a = OFF ∨ _status a = RESTART →
  ∃ msg, msg ∈ readiness_messages ∧
         perform a call = ([], Some (RuntimeError msg)).
Proof.
  intros Hnot. unfold readiness_messages.
  destruct (_is_configured a) eqn:Hc.
  2: { exists NOT_CONFIGURED. split; [by left|].
       by apply perform_guarded, guard_not_configured. }
  destruct (_graph a) as [g|] eqn:Hg.
  2: { exists NOT_INITIALIZED. split; [by right; left|].
       by apply perform_guarded, guard_not_initialized. }
  destruct (_status a) eqn:Hs.
  - by destruct Hnot as [?|[?|[?|?]]].
  - exists TURNED_OFF. split; [by do 2 right; left|].
    apply perform_guarded, guard_turned_off; eauto.
  - exists RESTARTING_NOW. split; [by do 3 right; left|].
    apply perform_guarded, guard_restarting; eauto.
Qed.

(** C2. Every turn-execution call ([stream], [astream], [get_state_history],
    [get_state]) made while the agent is not configured, or its graph is not
    built, or its status is OFF or RESTART, raises a [RuntimeError] before any
    collaborator is called; the four messages are pairwise distinct, one per
    precondition, the first violated one in the order of the checks being
    reported; when all preconditions hold the guard passes and the call raises
    none of these errors. *)
Theorem readiness_guard (a : Agent) (call : TurnCall) :
  NoDup readiness_messages ∧
  (_is_configured a = false →
     perform a call = ([], Some (RuntimeError NOT_CONFIGURED))) ∧
  (_is_configured a = true → _graph a = None →
     perform a call = ([], Some (RuntimeError NOT_INITIALIZED))) ∧
  (_is_configured a = true → is_Some (_graph a) → _status a = OFF →
     perform a call = ([], Some (RuntimeError TURNED_OFF))) ∧
  (_is_configured a = true → is_Some (_graph a) → _status a = RESTART →
     perform a call = ([], Some (RuntimeError RESTARTING_NOW))) ∧
  (_is_configured a = false ∨ _graph a = None ∨
   _status a = OFF ∨ _status a = RESTART →
     ∃ msg, msg ∈ readiness_messages ∧
            perform a call = ([], Some (RuntimeError msg))) ∧
  (_is_configured a = true → is_Some (_graph a) → _status a = ON →
     check_graph_available a = Ok tt ∧
     ∀ msg, (perform a call).2 ≠ Some (RuntimeError msg)).
Proof.
  split; [apply guard_messages_distinct|].
  split; [intros; by apply perform_guarded, guard_not_configured|].
  split; [intros; by apply perform_guarded, guard_not_initialized|].
  split; [intros; by apply perform_guarded, guard_turned_off|].
  split; [intros; by apply perform_guarded, guard_restarting|].
  split; [apply guard_rejects|].
  intros Hc Hg Hs. pose proof (guard_passes a Hc Hg Hs) as Hok.
  split; [done|]. by apply perform_ready.
Qed.

(** C7. For every turn that carries an attachment while no recognition tool
    is configured, both [_query_or_respond] and [_suggest_questions] send the
    fixed refusal prompt to the chat model, issue no tool call themselves and
    return one message, which the history gains as its last entry. *)
Theorem refusal_without_recognizer (c : Configurer) (state : State)
    (a : Attachment) :
  attachment state = Some a →
  recognizer_missing c = true →
  let response := chat_model_ainvoke c (refusal_prompt c) in
  let refused := ([EvWarning recognizer_warning; EvModel (refusal_prompt c)],
                  Ok [response]) in
  _query_or_respond c state = refused ∧
  _suggest_questions c state = refused ∧
  Forall (λ ev, is_tool_call ev = false) refused.1 ∧
  messages (apply_update state [response]) = messages state ++ [response] ∧
  length (messages (apply_update state [response]))
    = S (length (messages state)).
Proof.
  intros Ha Hmissing response refused.
  unfold _query_or_respond, _suggest_questions, respond_template,
    suggest_template.
  rewrite Ha, Hmissing.
  repeat split.
  - by repeat constructor.
  - simpl. rewrite length_app. simpl. lia.
Qed.

(** C10. [delete_thread] never consults the readiness guard: whatever the
    status, the graph and the configured flag of the agent, it hands the
    thread to the checkpointer when there is one, and raises a [RuntimeError]
    exactly when the checkpointer is [None]. *)
Theorem delete_thread_unguarded (a : Agent) (thread_id : UUID) :
  (∀ cp, checkpointer (_configurer a) = Some cp →
     delete_thread a thread_id
       = ([EvDeleteThread cp (str_uuid thread_id)], Ok tt)) ∧
  (checkpointer (_configurer a) = None →
     delete_thread a thread_id
       = ([], Raise (RuntimeError "Checkpointer is still not configured yet."))) ∧
  ((∃ msg, (delete_thread a thread_id).2 = Raise (RuntimeError msg)) ↔
     checkpointer (_configurer a) = None) ∧
  (∀ s g b,
     delete_thread (set_status s (set_graph g (set_is_configured b a))) thread_id
       = delete_thread a thread_id).
Proof.
  unfold delete_thread. repeat split.
  - by intros cp ->.
  - by intros ->.
  - destruct (checkpointer _); [by intros [? [=]]|done].
  - intros ->. eauto.
Qed.

(** ** [restart] *)

Lemma configure_forced (a : Agent) :
  configure true a =
    let configured := async_configure (_configurer a) in
    match configured.2 with
    | Raise e => (set_configurer configured.1 a, Raise e)
    | Ok _ => (set_is_configured true (set_configurer configured.1 a), Ok tt)
    end.
Proof. unfold configure. by rewrite andb_false_r. Qed.


(** ** [sync_bm25] *)


End AgentFacts.

(** ** The rebuild *)

(** Refutes the membership [Hin] of an event in a list of other events. *)
Ltac not_listed Hin :=
  repeat (apply elem_of_cons in Hin as [Hin|Hin]; [done|]);
  by apply elem_of_nil in Hin.


Section BM25Facts.
Import Effects Py Normalizer BM25.
Context `{Collaborators} `{GlyphTables}.

Lemma external_doc_tasks_spec vs (documents : list DBDocument) :
  ∃ doc_tasks,
    external_doc_tasks vs documents = (omap (skip_warning vs) documents, Ok doc_tasks) ∧
    concat ((λ t, aget_by_ids t.1 t.2) <$> doc_tasks)
      = concat (fetched vs <$> documents).
Proof.
  induction documents as [|doc documents (doc_tasks & IH & Hc)]; simpl.
  - by exists [].
  - unfold skip_warning, fetched at 1.
    destruct (get_store vs (embed_to_vs doc)) as [vector_store|].
    + exists ((vector_store, chunk_id <$> chunks doc) :: doc_tasks).
      rewrite IH, bind_pure. simpl. rewrite app_nil_r. split; [done|].
      f_equal. exact Hc.
    + exists doc_tasks. rewrite IH. split; [done|]. exact Hc.
Qed.

Lemma get_from_external_docs_spec vs (documents : list DBDocument) :
  get_from_external_docs vs documents =
    (LogDebug "Collecting chunks from external documents."
       :: omap (skip_warning vs) documents,
     Ok (concat (fetched vs <$> documents))).
Proof.
  unfold get_from_external_docs.
  destruct (external_doc_tasks_spec vs documents) as (doc_tasks & -> & <-).
  unfold tell. rewrite !bind_pure. simpl. by rewrite app_nil_r.
Qed.

Lemma converted_nil : converted [] = [].
Proof. done. Qed.

Lemma get_from_uploaded_docs_spec (documents : list DBDocument) :
  get_from_uploaded_docs documents =
    ([LogDebug "Collecting chunks from uploaded documents."],
     Ok (converted documents)).
Proof. done. Qed.

Lemma gather_spec vs (db_docs : list DBDocument) :
  ∃ chunk_tasks,
    gather vs db_docs =
      ((if 0 <? length (uploaded db_docs)
        then [LogDebug "Collecting chunks from uploaded documents."] else [])
       ++ (if 0 <? length (external db_docs)
           then LogDebug "Collecting chunks from external documents."
                  :: omap (skip_warning vs) (external db_docs)
           else []),
       Ok chunk_tasks) ∧
    concat chunk_tasks = passages vs db_docs ∧
    (db_docs ≠ [] → (0 <? length chunk_tasks) = true).
Proof.
  unfold gather, passages. fold (uploaded db_docs) (external db_docs).
  assert (db_docs ≠ [] →
          (0 <? length (uploaded db_docs)) = true ∨
          (0 <? length (external db_docs)) = true) as Hsome.
  { destruct db_docs as [|doc db_docs]; [done|]. intros _.
    unfold uploaded, external. rewrite !filter_cons.
    destruct (source doc); [left|right]; by rewrite decide_True. }
  destruct (0 <? length (uploaded db_docs)) eqn:Hup;
    destruct (0 <? length (external db_docs)) eqn:Hex;
    rewrite ?get_from_uploaded_docs_spec, ?get_from_external_docs_spec;
    unfold mret, M_ret; rewrite ?bind_pure; cbn [fst snd];
    rewrite ?bind_pure; cbn [fst snd]; rewrite ?app_nil_r.
  - 
    eexists. split; [reflexivity|]. split; [|done].
    simpl. by rewrite app_nil_r.
  - eexists. split; [reflexivity|]. split; [|done].
    apply Nat.ltb_ge in Hex. apply Nat.le_0_r, nil_length_inv in Hex.
    rewrite Hex. simpl. by rewrite !app_nil_r.
  - eexists. split; [reflexivity|]. split; [|done].
    apply Nat.ltb_ge in Hup. apply Nat.le_0_r, nil_length_inv in Hup.
    rewrite Hup. simpl. by rewrite app_nil_r.
  - eexists. split; [reflexivity|]. split; [|by intros [|]%Hsome].
    apply Nat.ltb_ge in Hup. apply Nat.le_0_r, nil_length_inv in Hup.
    apply Nat.ltb_ge in Hex. apply Nat.le_0_r, nil_length_inv in Hex.
    by rewrite Hup, Hex.
Qed.

Lemma async_configure_empty self config kwargs vs m :
  well_called config kwargs vs m →
  get_all_vs_embedded = [] →
  async_configure self config kwargs =
    ([LogInfo "Configuring BM25 retriever...";
      LogInfo "No document for initializing BM25 retriever. Skipping..."],
     Ok self).
Proof.
  intros (Hvs & ec & Hec & Hm) Hdb. unfold async_configure.
  run_binds. rewrite Hvs. run_binds. rewrite Hec. run_binds.
  rewrite Hm. run_binds. rewrite Hdb. done.
Qed.

(** With a non-empty population the rebuild always goes on to the chunker
    and to the index constructor. *)
Lemma async_configure_nonempty self config kwargs vs m :
  well_called config kwargs vs m →
  get_all_vs_embedded ≠ [] →
  let gather_log := (gather vs get_all_vs_embedded).1 in
    async_configure self config kwargs =
      let docs := passages vs get_all_vs_embedded in
      let chunks := split_documents m docs in
      match make_helper config with
      | Raise e =>
          (LogInfo "Configuring BM25 retriever..." :: gather_log
             ++ [CallSplitDocuments docs], Raise e)
      | Ok helper =>
          let built :=
            from_documents chunks (preprocess (options_of config helper))
              (k config) in
          (LogInfo "Configuring BM25 retriever..." :: gather_log
             ++ [CallSplitDocuments docs;
                 LogDebug "Constructing BM25 retriever from retrieved chunks...";
                 CallFromDocuments chunks (k config)]
             ++ match built with
                | Ok _ => [Assign "_retriever"; Assign "_config";
                           LogInfo "Configured BM25 retriever successfully.";
                           CreateTaskSaveAll (mark_bm25 <$> get_all_vs_embedded);
                           Assign "_last_sync"]
                | Raise _ => []
                end,
           match built with
           | Ok retriever =>
               Ok {| _config := Some config;
                     _retriever := Some retriever;
                     _last_sync := Some get_datetime_now |}
           | Raise e => Raise e
           end)
      end.
Proof.
  intros (Hvs & ec & Hec & Hm) Hdb.
  destruct (gather_spec vs get_all_vs_embedded) as (chunk_tasks & Hg & Hc & Hlen).
  specialize (Hlen Hdb). intros gather_log. subst gather_log.
  unfold async_configure.
  run_binds. rewrite Hvs. run_binds. rewrite Hec. run_binds.
  rewrite Hm. run_binds.
  assert ((length get_all_vs_embedded <=? 0) = false) as ->.
  { destruct get_all_vs_embedded; [done|]. done. }
  rewrite Hg. run_binds. rewrite Hlen, Hc. run_binds.
  destruct (make_helper config) as [helper|e].
  - run_binds.
    destruct (from_documents _ _ _) as [retriever|e]; simpl;
      by rewrite ?app_nil_r, <-?app_assoc.
  - simpl. by rewrite ?app_nil_r, <-?app_assoc.
Qed.


(** What the gathering logs: debug records and warnings. *)
Lemma gather_log_quiet vs (db_docs : list DBDocument) (ev : Event) :
  ev ∈ (gather vs db_docs).1 →
  (∃ msg, ev = LogDebug msg) ∨ (∃ msg, ev = LogWarning msg).
Proof.
  destruct (gather_spec vs db_docs) as (chunk_tasks & Hg & _ & _).
  rewrite Hg. cbn [fst]. intros [Hin|Hin]%elem_of_app.
  - destruct (0 <? length (uploaded _)); [|by apply elem_of_nil in Hin].
    apply elem_of_cons in Hin as [->|Hin]; [eauto|by apply elem_of_nil in Hin].
  - destruct (0 <? length (external _)); [|by apply elem_of_nil in Hin].
    apply elem_of_cons in Hin as [->|Hin]; [eauto|].
    apply list_elem_of_omap in Hin as (doc & _ & Hw). unfold skip_warning in Hw.
    destruct (get_store _ _); [done|]. injection Hw as <-. eauto.
Qed.

(** A call that raises has assigned no attribute: the assignments follow the
    last step that can raise. *)
Lemma raising_call_assigns_nothing self config kwargs (e : Exception) :
  (async_configure self config kwargs).2 = Raise e →
  Forall (λ ev, is_assignment ev = false) (async_configure self config kwargs).1.
Proof.
  destruct (kwargs !! "vs_configurer") as [kv|] eqn:Hvs.
  2: { unfold async_configure. run_binds. rewrite Hvs. intros _.
       by repeat constructor. }
  destruct kv as [vs| |];
    try (unfold async_configure; run_binds; rewrite Hvs; intros _;
         by repeat constructor).
  destruct (kwargs !! "embeddings_configurer") as [ke|] eqn:Hec.
  2: { unfold async_configure. run_binds. rewrite Hvs. run_binds. rewrite Hec.
       intros _. by repeat constructor. }
  destruct ke as [|ec|];
    try (unfold async_configure; run_binds; rewrite Hvs; run_binds; rewrite Hec;
         intros _; by repeat constructor).
  destruct (get_model (embeddings_async_configure ec (embeddings_model config))
              (embeddings_name (embeddings_model config))) as [m|] eqn:Hm.
  2: { unfold async_configure. run_binds. rewrite Hvs. run_binds. rewrite Hec.
       run_binds. rewrite Hm. intros _. by repeat constructor. }
  assert (well_called config kwargs vs m) as Hcall by (split; eauto).
  destruct (decide (get_all_vs_embedded = [])) as [Hdb|Hdb].
  { by rewrite (async_configure_empty self config kwargs vs m Hcall Hdb). }
  pose proof (async_configure_nonempty self config kwargs vs m Hcall Hdb) as Hrun.
  cbv zeta in Hrun. rewrite Hrun.
  assert (Forall (λ ev, is_assignment ev = false)
            (gather vs get_all_vs_embedded).1) as Hquiet.
  { apply Forall_forall. intros ev Hev.
    by destruct (gather_log_quiet _ _ _ Hev) as [[msg ->]|[msg ->]]. }
  destruct (make_helper config) as [helper|e']; cbn [fst snd].
  - destruct (from_documents _ _ _) as [retriever|e'']; [done|]. intros _.
    constructor; [done|]. rewrite app_nil_r. apply Forall_app. split; [done|].
    by repeat constructor.
  - intros _. constructor; [done|]. apply Forall_app. split; [done|].
    by repeat constructor.
Qed.

(** C4. For every population from which no passage is gathered, the empty
    population included, the rebuild leaves the retriever and the last-sync
    timestamp of the configurer as they were: it assigns no attribute.  Over
    the empty population the rebuild is skipped and returns; over a non-empty
    one it calls the chunker and the index constructor on the empty list, and
    ends with the exception by which the constructor rejects an empty corpus,
    before the first assignment.  The chunker is assumed to give no chunk for
    no document, and the constructor to reject the empty corpus, as
    [SemanticChunker.split_documents] and [BM25Retriever.from_documents]
    do. *)
Theorem rebuild_without_passages_keeps_index self config kwargs vs m :
  well_called config kwargs vs m →
  passages vs get_all_vs_embedded = [] →
  split_documents m [] = [] →
  (∀ preprocess_func top_k, ∃ e, from_documents [] preprocess_func top_k = Raise e) →
  let call := async_configure self config kwargs in
  Forall (λ ev, is_assignment ev = false) call.1 ∧
  after_call self call = self ∧
  _retriever (after_call self call) = _retriever self ∧
  _last_sync (after_call self call) = _last_sync self ∧
  (get_all_vs_embedded = [] → call.2 = Ok self) ∧
  (get_all_vs_embedded ≠ [] → ∃ e, call.2 = Raise e).
Proof.
  intros Hcall Hzero Hsplit Hempty call.
  assert (Forall (λ ev, is_assignment ev = false) call.1 ∧
          (get_all_vs_embedded = [] → call.2 = Ok self) ∧
          (get_all_vs_embedded ≠ [] → ∃ e, call.2 = Raise e))
    as (Hquiet & Hskip & Hraise).
  { subst call. destruct (decide (get_all_vs_embedded = [])) as [Hdb|Hdb].
    - rewrite (async_configure_empty self config kwargs vs m Hcall Hdb).
      split; [by repeat constructor|]. split; [done|]. by intros [].
    - assert (∃ e, (async_configure self config kwargs).2 = Raise e) as [e He].
      { pose proof (async_configure_nonempty self config kwargs vs m Hcall Hdb)
          as Hrun.
        cbv zeta in Hrun. rewrite Hrun, Hzero, Hsplit.
        destruct (make_helper config) as [helper|e]; [|by exists e].
        destruct (Hempty (preprocess (options_of config helper)) (k config))
          as [e ->].
        by exists e. }
      split; [by apply (raising_call_assigns_nothing _ _ _ e)|].
      split; [done|]. intros _. by exists e. }
  assert (after_call self call = self) as Hafter.
  { unfold after_call. destruct (decide (get_all_vs_embedded = [])) as [Hdb|Hdb].
    - by rewrite (Hskip Hdb).
    - destruct (Hraise Hdb) as [e ->]. done. }
  split; [done|]. split; [done|]. by rewrite Hafter.
Qed.


End BM25Facts.

(* ===================================================================== *)
(** * The properties at concrete inputs *)
(* ===================================================================== *)

Section AtConcreteInputs.
Import Effects Conversation.

#[local] Existing Instance Fixtures.demo_configurer.
#[local] Existing Instance Fixtures.demo_platform.
#[local] Existing Instance Fixtures.demo_glyphs.

(** A blank human message is routed to [suggest_questions]. *)
Lemma entry_routing_witness :
  messages Fixtures.blank_turn ≠ [] ∧
  _routing_function Fixtures.blank_turn = Ok suggest_questions.
Proof.
  split; [discriminate|].
  destruct (entry_routing Fixtures.bare 25
              Fixtures.blank_turn) as (m & Hm & Hsuggest & _); [discriminate|].
  apply Hsuggest. injection Hm as <-. right. reflexivity.
Defined.

(** A freshly constructed agent rejects [stream]. *)
Lemma readiness_guard_witness :
  AgentModel._is_configured Fixtures.fresh_agent = false ∧
  AgentModel.perform Fixtures.fresh_agent
    (AgentModel.CallStream Fixtures.blank_turn None)
    = ([], Some (RuntimeError AgentModel.NOT_CONFIGURED)).
Proof.
  split; [reflexivity|].
  destruct (readiness_guard Fixtures.fresh_agent
              (AgentModel.CallStream Fixtures.blank_turn None))
    as (_ & Hnot_configured & _).
  apply Hnot_configured. reflexivity.
Defined.

(** A picture sent to an agent without image recognizer is refused. *)
Lemma refusal_without_recognizer_witness :
  attachment Fixtures.picture_turn = Some Fixtures.picture ∧
  AgentModel.recognizer_missing Fixtures.bare = true ∧
  AgentModel._query_or_respond Fixtures.bare
    Fixtures.picture_turn
    = ([AgentModel.EvWarning AgentModel.recognizer_warning;
        AgentModel.EvModel (AgentModel.refusal_prompt Fixtures.bare)],
       Ok [AgentModel.chat_model_ainvoke Fixtures.bare
             (AgentModel.refusal_prompt Fixtures.bare)]).
Proof.
  split; [reflexivity|]. split; [reflexivity|].
  destruct (refusal_without_recognizer Fixtures.bare Fixtures.picture_turn
              Fixtures.picture eq_refl eq_refl) as (Hrespond & _).
  exact Hrespond.
Defined.


(** An agent that is switched off and has no checkpointer refuses to delete a
    thread because of the missing checkpointer. *)
Lemma delete_thread_unguarded_witness :
  AgentModel.checkpointer (AgentModel._configurer Fixtures.agent_off) = None ∧
  AgentModel.delete_thread Fixtures.agent_off
    Fixtures.thread_1
    = ([], Raise (RuntimeError "Checkpointer is still not configured yet.")).
Proof.
  split; [reflexivity|].
  destruct (delete_thread_unguarded Fixtures.agent_off Fixtures.thread_1)
    as (_ & Hnone & _).
  apply Hnone. reflexivity.
Defined.

(** A sentence is normalized to the same tokens twice. *)
Lemma preprocess_idempotent_witness :
  (" "%char ∉ Normalizer.emoji_glyphs) ∧
  (" "%char ∉ Normalizer.emoticon_glyphs) ∧
  Normalizer.preprocess Fixtures.demo_options
    (Py.join Py.space
       (Normalizer.preprocess
          Fixtures.demo_options Fixtures.demo_text))
    = Normalizer.preprocess Fixtures.demo_options
        Fixtures.demo_text.
Proof.
  assert (" "%char ∉ Normalizer.emoji_glyphs
                      ) as Hemoji.
  { apply (bool_decide_unpack _). vm_compute. exact I. }
  assert (" "%char ∉ Normalizer.emoticon_glyphs
                      ) as Hemoticon.
  { apply (bool_decide_unpack _). vm_compute. exact I. }
  split; [exact Hemoji|]. split; [exact Hemoticon|].
  exact (preprocess_idempotent
           Fixtures.demo_options Fixtures.demo_text Hemoji Hemoticon).
Defined.



(** The population of the one document [B]: no passage is gathered, the
    constructor rejects the empty corpus, and the fresh configurer stays
    without retriever and without timestamp. *)
Lemma rebuild_without_passages_keeps_index_witness :
  BM25.well_called Fixtures.demo_config (Fixtures.demo_kwargs [Fixtures.doc_B])
    (Fixtures.demo_stores [Fixtures.doc_B]) tt ∧
  BM25.passages (Fixtures.demo_stores [Fixtures.doc_B]) [Fixtures.doc_B] = [] ∧
  BM25._retriever
    (BM25.after_call (Fixtures.fresh_bm25 [Fixtures.doc_B])
       (Fixtures.demo_rebuild [Fixtures.doc_B])) = None ∧
  BM25._last_sync
    (BM25.after_call (Fixtures.fresh_bm25 [Fixtures.doc_B])
       (Fixtures.demo_rebuild [Fixtures.doc_B])) = None ∧
  ∃ e, (Fixtures.demo_rebuild [Fixtures.doc_B]).2 = Raise e.
Proof.
  assert (BM25.well_called Fixtures.demo_config
            (Fixtures.demo_kwargs [Fixtures.doc_B])
            (Fixtures.demo_stores [Fixtures.doc_B]) tt) as Hcall.
  { split; [reflexivity|]. exists tt. split; reflexivity. }
  split; [exact Hcall|]. split; [reflexivity|].
  destruct (rebuild_without_passages_keeps_index
              (H := Fixtures.demo_world [Fixtures.doc_B])
              (Fixtures.fresh_bm25 [Fixtures.doc_B])
              Fixtures.demo_config _ _ tt Hcall eq_refl eq_refl
              (λ _ _, ex_intro _ _ eq_refl))
    as (_ & _ & Hretriever & Hlast_sync & _ & Hraises).
  split; [exact Hretriever|]. split; [exact Hlast_sync|].
  apply Hraises. discriminate.
Defined.



(** ** Further evaluations *)

Example routing_of_a_question :
  _routing_function
    {| messages := [human "   "; human " What is BM25? "]; attachment := None |}
    = Ok query_or_respond.
Proof. reflexivity. Qed.

Example routing_of_an_assistant_message :
  _routing_function
    {| messages := [ {| kind := AIMessage; content := "Done.";
                        tool_calls := [] |} ];
       attachment := None |}
    = Ok suggest_questions.
Proof. reflexivity. Qed.

Example routing_of_an_empty_history :
  _routing_function {| messages := []; attachment := None |} = Raise IndexError.
Proof. reflexivity. Qed.

Example preprocess_of_a_sentence :
  Py.to_string <$> Normalizer.preprocess Fixtures.demo_options Fixtures.demo_text
    = ["quick"; "brown"; "fox"; "jumps"; "over"; "lazy"; "dog"].
Proof. vm_compute. reflexivity. Qed.

Example strip_of_padded_text :
  Py.to_string (Py.strip (Py.of_string "  a b  ")) = "a b".
Proof. vm_compute. reflexivity. Qed.

(** An empty population is the one case the rebuild skips. *)
Example rebuild_of_empty_population :
  Fixtures.demo_rebuild [] =
    ([ BM25.LogInfo "Configuring BM25 retriever...";
       BM25.LogInfo "No document for initializing BM25 retriever. Skipping..." ],
     Ok (Fixtures.fresh_bm25 [])).
Proof. vm_compute. reflexivity. Qed.

(** A rebuild that succeeds assigns the three attributes in the order of the
    lines 150, 153 and 162. *)
Example rebuild_of_two_documents :
  (Fixtures.demo_rebuild [Fixtures.doc_A; Fixtures.doc_B]).1 =
    [ BM25.LogInfo "Configuring BM25 retriever...";
      BM25.LogDebug "Collecting chunks from external documents.";
      BM25.LogWarning (BM25.store_not_configured Fixtures.doc_B "unknown");
      BM25.CallSplitDocuments [Fixtures.chunk_c1; Fixtures.chunk_c2];
      BM25.LogDebug "Constructing BM25 retriever from retrieved chunks...";
      BM25.CallFromDocuments [Fixtures.chunk_c1; Fixtures.chunk_c2] 4;
      BM25.Assign "_retriever";
      BM25.Assign "_config";
      BM25.LogInfo "Configured BM25 retriever successfully.";
      BM25.CreateTaskSaveAll
        [BM25.mark_bm25 Fixtures.doc_A; BM25.mark_bm25 Fixtures.doc_B];
      BM25.Assign "_last_sync" ].
Proof. vm_compute. reflexivity. Qed.

(** A turn of the fresh agent, once configured and built, run with
    [astream]: one routing decision, one call to the chat model, one message
    gained; the input state is emitted first.  The same turn run with
    [stream] is refused at its first node. *)
Example turn_of_a_question :
  let a := AgentModel.build_graph
             (AgentModel.configure false Fixtures.fresh_agent).1 in
  let question := {| messages := [human "What is BM25?"]; attachment := None |} in
  (∃ prompt final,
     AgentModel.astream a question None
       = ([AgentModel.EvRoute query_or_respond; AgentModel.EvModel prompt],
          Ok [question; final]) ∧
     length (messages final) = 2) ∧
  AgentModel.stream a question None
    = ([AgentModel.EvRoute query_or_respond], Raise TypeError).
Proof.
  split; [|vm_compute; reflexivity].
  eexists _, _. split; [vm_compute; reflexivity|reflexivity].
Qed.

(** A restart whose reconfiguration raises: one event, then the exception;
    the status stays RESTART. *)
Example restart_of_a_failing_agent :
  AgentModel.restart (H := Fixtures.failing_configurer) Fixtures.failing_agent
    = ([ (AgentModel.ON,
          {| AgentModel.status := AgentModel.RESTARTING;
             AgentModel.percentage := 0.0 |}) ],
       Some (AgentModel.set_status AgentModel.RESTART Fixtures.failing_agent,
             Raise (LibraryError "connection refused"))).
Proof. reflexivity. Qed.

(** A state inspection on a graph compiled without checkpointer. *)
Example state_without_checkpointer :
  let a := AgentModel.build_graph
             (AgentModel.configure false Fixtures.fresh_agent).1 in
  AgentModel.get_state a 7 false
    = ([], Raise (ValueError "No checkpointer set")).
Proof. vm_compute. reflexivity. Qed.

End AtConcreteInputs.

(* ===================================================================== *)
(** * Further properties *)
(* ===================================================================== *)

(** ** Duplicate class names *)

Section RecognizerFacts.
Import Recognizer.

Lemma dedup_loop_kept (seen : gset string) (acc classes : list ClassDescriptor) :
  dedup_loop seen acc classes = acc ++ kept seen classes.
Proof.
  revert seen acc. induction classes as [|d classes IH]; intros seen acc; simpl.
  - by rewrite app_nil_r.
  - case_decide; [|done]. by rewrite IH, <-app_assoc.
Qed.

Lemma remove_classes_duplicate_kept (classes : list ClassDescriptor) :
  remove_classes_duplicate classes = kept ∅ classes.
Proof. apply dedup_loop_kept. Qed.

Lemma kept_names (seen : gset string) (classes : list ClassDescriptor) (n : string) :
  n ∈ name <$> kept seen classes ↔ n ∈ name <$> classes ∧ n ∉ seen.
Proof.
  revert seen. induction classes as [|d classes IH]; intros seen; simpl.
  - rewrite elem_of_nil. naive_solver.
  - case_decide as Hd.
    + rewrite ?fmap_cons, !elem_of_cons, IH, not_elem_of_union,
        not_elem_of_singleton.
      destruct (decide (n = name d)) as [->|]; naive_solver.
    + rewrite IH, ?fmap_cons, elem_of_cons.
      destruct (decide (n = name d)) as [->|]; naive_solver.
Qed.

Lemma kept_NoDup (seen : gset string) (classes : list ClassDescriptor) :
  NoDup (name <$> kept seen classes).
Proof.
  revert seen. induction classes as [|d classes IH]; intros seen; simpl.
  - constructor.
  - case_decide; [|done]. rewrite fmap_cons. constructor; [|done].
    rewrite kept_names, not_elem_of_union, not_elem_of_singleton. naive_solver.
Qed.

Lemma kept_sublist (seen : gset string) (classes : list ClassDescriptor) :
  kept seen classes `sublist_of` classes.
Proof.
  revert seen. induction classes as [|d classes IH]; intros seen; simpl.
  - constructor.
  - case_decide; [by apply sublist_skip|by apply sublist_cons].
Qed.

Lemma kept_all (seen : gset string) (classes : list ClassDescriptor) :
  NoDup (name <$> classes) →
  (∀ n, n ∈ name <$> classes → n ∉ seen) →
  kept seen classes = classes.
Proof.
  revert seen. induction classes as [|d classes IH]; intros seen Hnd Hseen;
    simpl; [done|].
  rewrite fmap_cons in Hnd. apply NoDup_cons in Hnd as [Hd Hnd].
  rewrite decide_True by (apply Hseen; rewrite fmap_cons; by left).
  f_equal. apply IH; [done|]. intros n Hn.
  assert (n ∉ seen) by (apply Hseen; rewrite fmap_cons; by right).
  rewrite not_elem_of_union, not_elem_of_singleton. split; [|done].
  intros ->. done.
Qed.

(** X1. The list returned by [remove_classes_duplicate] has pairwise
    distinct class names, and a name occurs in it exactly when it occurs in
    the given list: no name is lost and none is invented. *)
Theorem remove_classes_duplicate_distinct (classes : list ClassDescriptor) :
  NoDup (name <$> remove_classes_duplicate classes) ∧
  ∀ n, n ∈ name <$> remove_classes_duplicate classes ↔ n ∈ name <$> classes.
Proof.
  rewrite remove_classes_duplicate_kept. split; [apply kept_NoDup|].
  intros n. rewrite kept_names. split; [by intros [? _]|].
  intros Hn. split; [done|]. apply not_elem_of_empty.
Qed.

(** X2. [remove_classes_duplicate] keeps the order of the given list,
    and of the descriptors that share a name it keeps the first one: every
    descriptor it returns is the first descriptor of the given list with that
    name. *)
Theorem remove_classes_duplicate_keeps_first (classes : list ClassDescriptor) :
  remove_classes_duplicate classes `sublist_of` classes ∧
  ∀ d, d ∈ remove_classes_duplicate classes →
    ∃ i, list_find (λ x, name x = name d) classes = Some (i, d).
Proof.
  rewrite remove_classes_duplicate_kept. split; [apply kept_sublist|].
  assert (∀ seen d, d ∈ kept seen classes →
    ∃ i, list_find (λ x, name x = name d) classes = Some (i, d)) as Hfirst.
  { induction classes as [|c classes IH]; intros seen d; simpl.
    - by intros ?%elem_of_nil.
    - case_decide as Hc.
      + intros [->|Hd]%elem_of_cons.
        * exists 0. by rewrite decide_True.
        * assert (name d ≠ name c) as Hne.
          { intros Heq. assert (name d ∈ name <$> kept ({[name c]} ∪ seen) classes)
              as Hin by (by apply list_elem_of_fmap_2).
            apply kept_names in Hin as [_ Hin].
            rewrite Heq in Hin. apply Hin, elem_of_union_l, elem_of_singleton.
            done. }
          rewrite decide_False by done.
          destruct (IH _ _ Hd) as [i ->]. by exists (S i).
      + intros Hd.
        assert (name d ≠ name c) as Hne.
        { intros Heq. assert (name d ∈ name <$> kept seen classes)
            as Hin by (by apply list_elem_of_fmap_2).
          apply kept_names in Hin as [_ Hin]. by rewrite Heq in Hin. }
        rewrite decide_False by done.
        destruct (IH _ _ Hd) as [i ->]. by exists (S i). }
  eauto.
Qed.

(** X3. [remove_classes_duplicate] is idempotent, and it returns a list
    whose names are already pairwise distinct as it is. *)
Theorem remove_classes_duplicate_idempotent (classes : list ClassDescriptor) :
  remove_classes_duplicate (remove_classes_duplicate classes)
    = remove_classes_duplicate classes ∧
  (NoDup (name <$> classes) → remove_classes_duplicate classes = classes).
Proof.
  assert (∀ l, NoDup (name <$> l) → remove_classes_duplicate l = l) as Hid.
  { intros l Hl. rewrite remove_classes_duplicate_kept.
    apply kept_all; [done|]. intros n _. apply not_elem_of_empty. }
  split; [|apply Hid].
  apply Hid. apply remove_classes_duplicate_distinct.
Qed.

End RecognizerFacts.

(** ** The MCP configurer *)

Section MCPFacts.
Import Effects MCP Notions.

Lemma build_connections_supported items (connections : gmap string SupportedConnection) :
  Forall supported items →
  ∃ built,
    build_connections items connections = Ok built ∧
    dom built = list_to_set items.*1 ∪ dom connections ∧
    (∀ server, server ∉ items.*1 → built !! server = connections !! server) ∧
    (NoDup items.*1 →
     ∀ server cfg, (server, cfg) ∈ items →
                   built !! server = connection_of cfg).
Proof.
  intros Hsup. revert connections.
  induction Hsup as [|[server cfg] items Hcfg _ IH]; intros connections.
  - exists connections. split; [done|]. split; [set_solver|]. split; [done|].
    by intros _ ? ? ?%elem_of_nil.
  - assert (∃ conn, connection_of cfg = Some conn ∧
              build_connections ((server, cfg) :: items) connections
                = build_connections items (<[server := conn]> connections))
      as (conn & Hconn & ->).
    { destruct cfg; simpl; eauto. by destruct Hcfg. }
    destruct (IH (<[server := conn]> connections))
      as (built & -> & Hdom & Hother & Hitems).
    exists built. split; [done|]. split; [|split].
    + rewrite Hdom, dom_insert_L, fmap_cons. simpl. set_solver.
    + intros server' Hnot. rewrite fmap_cons, not_elem_of_cons in Hnot.
      destruct Hnot as [Hne Hnot]. simpl in Hne.
      rewrite Hother by done. by rewrite lookup_insert_ne.
    + rewrite fmap_cons. simpl. intros [Hfresh Hnd]%NoDup_cons server' cfg'.
      intros [[= -> ->]|Hin]%elem_of_cons.
      * rewrite Hother by done. by rewrite lookup_insert_eq.
      * by apply Hitems.
Qed.

Lemma build_connections_unsupported items (connections : gmap string SupportedConnection) :
  Exists (λ item, type item.2 = OTHER_TRANSPORT) items →
  ∃ msg, build_connections items connections = Raise (ValueError msg).
Proof.
  revert connections. induction items as [|[server cfg] items IH];
    intros connections Hex; [by apply Exists_nil in Hex|].
  destruct cfg as [s|s|class_repr]; simpl.
  - apply IH. by apply Exists_cons in Hex as [|].
  - apply IH. by apply Exists_cons in Hex as [|].
  - eauto.
Qed.

(** X4. When every connection of the configuration is of the
    streamable-HTTP or of the stdio transport, [MCPConfigurerImpl.configure]
    returns normally, records the configuration and creates a client whose
    connection names are exactly the configured server names; with distinct
    server names, each server is connected with its own settings, under the
    transport name of its kind. *)
Theorem mcp_configure_supported (self : MCPConfigurerImpl)
    (config : MCPConfiguration) :
  Forall supported (connections config) →
  ∃ client,
    configure self config
      = ({| _config := Some config; _client := Some client |}, Ok tt) ∧
    dom (client_connections client) = list_to_set (connections config).*1 ∧
    (NoDup (connections config).*1 →
     ∀ server cfg, (server, cfg) ∈ connections config →
       client_connections client !! server = connection_of cfg).
Proof.
  intros Hsup. unfold configure.
  destruct (build_connections_supported _ ∅ Hsup)
    as (built & -> & Hdom & _ & Hitems).
  exists {| client_connections := built |}. split; [done|]. split; [|done].
  simpl. rewrite Hdom. set_solver.
Qed.

(** X5. When some connection of the configuration is of another
    transport, [MCPConfigurerImpl.configure] raises a [ValueError]; the
    configuration has been recorded all the same (line 19 runs first), while
    the client is the one the configurer had before the call. *)
Theorem mcp_configure_unsupported (self : MCPConfigurerImpl)
    (config : MCPConfiguration) :
  Exists (λ item, type item.2 = OTHER_TRANSPORT) (connections config) →
  ∃ msg,
    configure self config
      = ({| _config := Some config; _client := _client self |},
         Raise (ValueError msg)).
Proof.
  intros Hex. unfold configure.
  destruct (build_connections_unsupported _ ∅ Hex) as [msg ->]. eauto.
Qed.

(** X6. [MCPConfigurerImpl.get_tools] never raises: it returns the tools
    the client returns; when the client raises, and also when the configurer
    has no client yet (the attribute access on [None] fails), it logs one
    warning and the exception and returns the empty list. *)
Theorem mcp_get_tools_never_raises {Tool : Type}
    (client_get_tools : MultiServerMCPClient → result (list Tool))
    (self : MCPConfigurerImpl) :
  let failed e :=
    ([LogWarning "Failed to get tools from MCP servers."; LogDebug e], Ok [])
  in
  get_tools client_get_tools self =
    match _client self with
    | None => failed AttributeError
    | Some client =>
        match client_get_tools client with
        | Ok tools => ([], Ok tools)
        | Raise e => failed e
        end
    end.
Proof.
  intros failed. unfold get_tools.
  destruct (_client self) as [client|]; [|done].
  by destruct (client_get_tools client).
Qed.

End MCPFacts.

(** ** Embedding and unembedding *)

Section EmbeddingFacts.
Import Effects Conversation AgentModel Embedding.
Context `{VectorStores}.

Lemma uuids_length (n : nat) (seed : Entropy) : length (uuids n seed) = n.
Proof.
  revert seed. induction n as [|n IH]; intros seed; simpl; [done|].
  destruct (uuid4 seed) as [u seed']. simpl. by rewrite IH.
Qed.

(** X7. [embed_document] and [unembed_document] raise a [ValueError]
    with the message naming the store when the store is not configured,
    before any document is loaded, added or deleted; when the configurer has
    no vector-store configurer, the attribute access fails instead. *)
Theorem embedding_needs_configured_store (a : Agent) (seed : Entropy)
    (store_name : string) (file_info : FileInformation) (chunk_ids : list string) :
  (∀ vs_configurer,
     vector_store_configurer (_configurer a) = Some vs_configurer →
     get_store vs_configurer store_name = None →
     embed_document a seed store_name file_info
       = ([], Raise (ValueError (no_vector_store store_name))) ∧
     unembed_document a store_name chunk_ids
       = ([], Raise (ValueError (no_vector_store store_name)))) ∧
  (vector_store_configurer (_configurer a) = None →
     embed_document a seed store_name file_info = ([], Raise AttributeError) ∧
     unembed_document a store_name chunk_ids = ([], Raise AttributeError)).
Proof.
  unfold embed_document, unembed_document, lookup_store. split.
  - intros vs_configurer -> Hstore. simpl. by rewrite Hstore.
  - by intros ->.
Qed.

(** X8. For a configured store, [embed_document] loads the file once,
    splits what it loaded with the store's embeddings, draws as many
    identifiers as there are chunks, adds the chunks under these identifiers
    and returns what the store returns.  It does so whatever the status of the
    agent: unlike the turn-execution calls it does not consult the readiness
    guard. *)
Theorem embedding_into_configured_store (a : Agent) (seed : Entropy)
    (store_name : string) (file_info : FileInformation)
    (vs_configurer : VectorStoreConfigurer) (vector_store : VectorStore) :
  vector_store_configurer (_configurer a) = Some vs_configurer →
  get_store vs_configurer store_name = Some vector_store →
  ∃ chunks ids,
    chunks = split_documents vector_store
               (get_documents (file_path file_info) (file_mime_type file_info)) ∧
    length ids = length chunks ∧
    embed_document a seed store_name file_info
      = ([EvGetDocuments (file_path file_info) (file_mime_type file_info);
          EvAddDocuments store_name chunks ids],
         Ok (aadd_documents vector_store chunks ids)) ∧
    ∀ status flag graph,
      embed_document
        (set_status status (set_is_configured flag (set_graph graph a)))
        seed store_name file_info
      = embed_document a seed store_name file_info.
Proof.
  intros Hvs Hstore. eexists _, _. split; [reflexivity|].
  split; [apply uuids_length|]. split; [|done].
  unfold embed_document, lookup_store. rewrite Hvs. simpl. by rewrite Hstore.
Qed.

End EmbeddingFacts.

(** ** The agent: life cycle *)

Section LifecycleFacts.
Import Effects Conversation AgentModel.
Context `{Platform}.

(** An agent whose status is RESTART fails the guard. *)
Lemma guard_while_restarting (a : Agent) :
  _status a = RESTART →
  ∃ msg, check_graph_available a = Raise (RuntimeError msg).
Proof.
  intros Hs. unfold check_graph_available.
  destruct (_is_configured a); [|by eexists].
  destruct (_graph a); [|by eexists]. rewrite Hs. by eexists.
Qed.

(** X9. [configure] leaves the status and the graph of the agent untouched;
    it calls the configurer unless the agent is already configured and
    [force] is false, and it ends as that call ends.  When it returns, the
    agent is configured, and a second, unforced [configure] changes nothing;
    when it raises, the configured flag is as before. *)
Theorem configure_once (force : bool) (a : Agent) :
  let skipped := _is_configured a && negb force in
  let configured := async_configure (_configurer a) in
  let a' := (configure force a).1 in
  _status a' = _status a ∧
  _graph a' = _graph a ∧
  _configurer a' = (if skipped then _configurer a else configured.1) ∧
  (configure force a).2 = (if skipped then Ok tt else configured.2) ∧
  ((configure force a).2 = Ok tt →
     _is_configured a' = true ∧ configure false a' = (a', Ok tt)) ∧
  (∀ e, (configure force a).2 = Raise e →
     _is_configured a' = _is_configured a).
Proof.
  intros skipped configured a'. subst skipped configured a'. unfold configure.
  destruct (_is_configured a && negb force) eqn:Hskip.
  - apply andb_true_iff in Hskip as [Hc _]. cbn [fst snd]. rewrite Hc.
    by repeat split.
  - destruct (async_configure (_configurer a)) as [c' [[]|e]]; cbn [fst snd];
      by repeat split.
Qed.

(** X10. A [restart()] that is iterated to its end always ends.  When the
    reconfiguration returns, the agent then passes the readiness guard,
    whatever it was before; its configurer has been configured anew, and its
    graph has been built from that configurer.  When the reconfiguration
    raises, the iteration ends with the same exception and the agent fails
    the readiness guard. *)
Theorem restart_makes_ready (a : Agent) :
  let configured := async_configure (_configurer a) in
  (configured.2 = Ok tt →
     ∃ items final,
       restart a = (items, Some (final, Ok tt)) ∧
       check_graph_available final = Ok tt ∧
       _configurer final = configured.1 ∧
       builder <$> _graph final = Some (build_state_graph configured.1)) ∧
  (∀ e, configured.2 = Raise e →
     ∃ items final,
       restart a = (items, Some (final, Raise e)) ∧
       ∃ msg, check_graph_available final = Raise (RuntimeError msg)).
Proof.
  intros configured. subst configured.
  unfold restart, restart_iterate, restart_resume.
  rewrite configure_forced. cbn [_configurer set_status].
  split; [intros Hok|intros e Hraise].
  - rewrite Hok. cbn [fst snd]. eexists _, _. split; [reflexivity|]. done.
  - rewrite Hraise. cbn [fst snd]. eexists _, _. split; [reflexivity|].
    by apply guard_while_restarting.
Qed.

(** X11. A constructed agent becomes ready by a [configure] that returns
    and [build_graph], in either order: on its own the guard reports it as not
    configured, after [build_graph] alone still as not configured, after
    [configure] alone as not initialized, and after both it passes.  After a
    [configure] that raises, the guard still reports it as not configured. *)
Theorem ready_after_configure_and_build (c : Configurer) (force : bool) :
  check_graph_available (__init__ c) = Raise (RuntimeError NOT_CONFIGURED) ∧
  check_graph_available (build_graph (__init__ c))
    = Raise (RuntimeError NOT_CONFIGURED) ∧
  ((async_configure c).2 = Ok tt →
     check_graph_available (configure force (__init__ c)).1
       = Raise (RuntimeError NOT_INITIALIZED) ∧
     check_graph_available (build_graph (configure force (__init__ c)).1)
       = Ok tt ∧
     check_graph_available (configure force (build_graph (__init__ c))).1
       = Ok tt) ∧
  (∀ e, (async_configure c).2 = Raise e →
     check_graph_available (configure force (__init__ c)).1
       = Raise (RuntimeError NOT_CONFIGURED) ∧
     check_graph_available (build_graph (configure force (__init__ c)).1)
       = Raise (RuntimeError NOT_CONFIGURED) ∧
     check_graph_available (configure force (build_graph (__init__ c))).1
       = Raise (RuntimeError NOT_CONFIGURED)).
Proof.
  split; [done|]. split; [done|].
  unfold configure, __init__, build_graph.
  cbn [_is_configured _configurer set_graph andb].
  split; [intros Hok|intros e Hraise].
  - rewrite Hok. done.
  - rewrite Hraise. done.
Qed.

(** X12. [configure] never rebuilds the graph, whether it returns or
    raises: after a reconfiguration the agent still holds the graph built from
    the configurer as it was, until [build_graph] is called again. *)
Theorem graph_is_a_snapshot (force : bool) (a : Agent) :
  _graph (configure force (build_graph a)).1 = _graph (build_graph a) ∧
  builder <$> _graph (configure force (build_graph a)).1
    = Some (build_state_graph (_configurer a)) ∧
  builder <$> _graph (build_graph (configure force (build_graph a)).1)
    = Some (build_state_graph (_configurer (configure force a).1)).
Proof.
  unfold configure, build_graph.
  cbn [_is_configured _configurer set_graph].
  destruct (_is_configured a && negb force); [done|].
  by destruct (async_configure (_configurer a)) as [c' [[]|e]].
Qed.

(** X13. [sync_bm25] never touches the graph and the configured flag.  When
    it returns, the status is ON whatever it was before; so an agent that was
    configured and built passes the readiness guard afterwards, even one that
    had been switched off. *)
Theorem sync_bm25_turns_on (a : Agent) :
  let run := sync_bm25 a in
  _graph (after run) = _graph a ∧
  _is_configured (after run) = _is_configured a ∧
  (outcome run = Ok tt →
     _status (after run) = ON ∧
     check_graph_available (after run)
       = check_graph_available (set_status ON a) ∧
     (_is_configured a = true → is_Some (_graph a) →
      check_graph_available (after run) = Ok tt)).
Proof.
  intros run. subst run. unfold sync_bm25.
  change (_configurer (set_status RESTART a)) with (_configurer a).
  destruct (configurer_sync_bm25 (_configurer a)) as [during [c' [[]|e]]];
    cbn [fst snd suspended after outcome]; [|done].
  repeat split. intros Hc [g Hg].
  unfold check_graph_available. simpl. by rewrite Hc, Hg.
Qed.

(** X14. While the generator of [restart()] is suspended at its first
    [yield] the agent is as it was.  When the reconfiguration returns, the
    generator is next suspended at its second [yield], where every
    turn-execution call is rejected before any collaborator is called, with
    the restarting message when the agent had a graph and with the
    not-initialized message otherwise; once resumed from there, the agent
    passes the readiness guard.  When the reconfiguration raises, every
    turn-execution call is rejected afterwards. *)
Theorem restart_rejects_turns_midway (a : Agent) (call : TurnCall) :
  let midway := (restart_resume AfterYield0 a).1 in
  (restart_resume NotStarted a).1 = a ∧
  ((async_configure (_configurer a)).2 = Ok tt →
     (restart_resume AfterYield0 a).2
       = Yield {| status := RESTARTING; percentage := 0.6 |} AfterYield1 ∧
     perform midway call
       = ([], Some (RuntimeError
                      (match _graph a with
                       | Some _ => RESTARTING_NOW
                       | None => NOT_INITIALIZED
                       end))) ∧
     check_graph_available (restart_resume AfterYield1 midway).1 = Ok tt) ∧
  (∀ e, (async_configure (_configurer a)).2 = Raise e →
     (restart_resume AfterYield0 a).2 = Raised e ∧
     ∃ msg, msg ∈ readiness_messages ∧
            perform midway call = ([], Some (RuntimeError msg))).
Proof.
  intros midway. subst midway. split; [done|].
  unfold restart_resume. rewrite configure_forced.
  cbn [_configurer set_status].
  split; [intros Hok|intros e Hraise].
  - rewrite Hok. cbn [fst snd]. split; [done|]. split; [|done].
    apply perform_guarded.
    destruct (_graph a) as [g|] eqn:Hg.
    + apply guard_restarting; [done|by simpl; eauto|done].
    + by apply guard_not_initialized.
  - rewrite Hraise. cbn [fst snd]. split; [done|].
    apply guard_rejects. do 3 right. done.
Qed.

End LifecycleFacts.

(** ** The agent: the two nodes *)

Section NodeFacts.
Import Effects Conversation AgentModel Notions.
Context `{Platform}.

Lemma invoke_model_fixed (c : Configurer) (state : State) (tail : list Message) :
  invoke_model c state (system_msgs c ++ (Fixed <$> tail))
    = ([EvModel (language_directives c ++ tail)],
       Ok [chat_model_ainvoke c (language_directives c ++ tail)]).
Proof.
  assert (∀ t inputs, template_invoke (Fixed <$> t) inputs = Ok t) as Hfixed.
  { induction t as [|m t IH]; intros inputs; simpl; [done|]. by rewrite IH. }
  unfold invoke_model, system_msgs. simpl. by rewrite Hfixed.
Qed.

Lemma invoke_model_history (c : Configurer) (state : State)
    (before after : list Message) :
  invoke_model c state
    (system_msgs c ++ (Fixed <$> before)
       ++ MessagesPlaceholder "messages" :: (Fixed <$> after))
    = ([EvModel (language_directives c ++ before ++ messages state ++ after)],
       Ok [chat_model_ainvoke c
             (language_directives c ++ before ++ messages state ++ after)]).
Proof.
  assert (∀ t inputs, template_invoke (Fixed <$> t) inputs = Ok t) as Hfixed.
  { induction t as [|m t IH]; intros inputs; simpl; [done|]. by rewrite IH. }
  assert (∀ t rest (inputs : gmap string (list Message)),
    template_invoke ((Fixed <$> t) ++ rest) inputs
      = match template_invoke rest inputs with
        | Ok ms => Ok (t ++ ms)
        | Raise e => Raise e
        end) as Happ.
  { induction t as [|m t IH]; intros rest inputs; simpl.
    - by destruct (template_invoke rest inputs).
    - rewrite IH. by destruct (template_invoke rest inputs). }
  unfold invoke_model, system_msgs. simpl.
  rewrite Happ. simpl. rewrite lookup_singleton_eq, Hfixed. done.
Qed.

(** The four prompts of [_query_or_respond], by case. *)
Lemma query_or_respond_cases (c : Configurer) (state : State) :
  _query_or_respond c state =
    match attachment state with
    | Some a =>
        if recognizer_missing c then
          ([EvWarning recognizer_warning; EvModel (refusal_prompt c)],
           Ok [chat_model_ainvoke c (refusal_prompt c)])
        else
          let prompt :=
            language_directives c ++ [system (respond_prompt c)]
              ++ messages state
              ++ [human (ATTACHMENT_INSTRUCTION (str_attachment a))] in
          ([EvModel prompt], Ok [chat_model_ainvoke c prompt])
    | None =>
        match last (messages state) with
        | None => ([], Raise IndexError)
        | Some m =>
            let prompt :=
              if isinstance m ToolMessage then
                language_directives c ++ [] ++ messages state
                  ++ [system DO_NOT_REPEAT;
                      human ("Tell me what you think about the attachment "
                             +:+ "based on the received recognition result "
                             +:+ "and the provided questions.")]
              else
                language_directives c ++ [system (respond_prompt c)]
                  ++ messages state ++ [] in
            ([EvModel prompt], Ok [chat_model_ainvoke c prompt])
        end
    end.
Proof.
  unfold _query_or_respond, respond_template, latest_message.
  destruct (attachment state) as [a|].
  - destruct (recognizer_missing c).
    + pose proof (invoke_model_fixed c state [human RECOGNIZER_NOT_CONFIGURED])
        as Hinv. cbn [fmap list_fmap] in Hinv. run_binds. by rewrite Hinv.
    + pose proof (invoke_model_history c state [system (respond_prompt c)]
                    [human (ATTACHMENT_INSTRUCTION (str_attachment a))]) as Hinv.
      cbn [fmap list_fmap app] in Hinv. run_binds. cbn [app]. by rewrite Hinv.
  - destruct (last (messages state)) as [m|]; [|done]. run_binds.
    destruct (isinstance m ToolMessage).
    + pose proof (invoke_model_history c state []
        [system DO_NOT_REPEAT;
         human ("Tell me what you think about the attachment "
                +:+ "based on the received recognition result "
                +:+ "and the provided questions.")]) as Hinv.
      cbn [fmap list_fmap app] in Hinv. run_binds. cbn [app]. by rewrite Hinv.
    + pose proof (invoke_model_history c state [system (respond_prompt c)] [])
        as Hinv.
      cbn [fmap list_fmap app] in Hinv. run_binds. cbn [app]. by rewrite Hinv.
Qed.

(** The four prompts of [_suggest_questions], by case. *)
Lemma suggest_questions_cases (c : Configurer) (state : State) :
  _suggest_questions c state =
    match attachment state with
    | None =>
        let prompt := language_directives c ++ [human ATTACHMENT_ERROR] in
        ([EvWarning "Attachment has not been provided yet. Skipping attachment recognition.";
          EvModel prompt],
         Ok [chat_model_ainvoke c prompt])
    | Some a =>
        if recognizer_missing c then
          ([EvWarning recognizer_warning; EvModel (refusal_prompt c)],
           Ok [chat_model_ainvoke c (refusal_prompt c)])
        else
          match last (messages state) with
          | None => ([], Raise IndexError)
          | Some m =>
              let prompt :=
                if isinstance m ToolMessage then
                  language_directives c ++ [] ++ messages state
                    ++ [system DO_NOT_REPEAT;
                        human ("Based on the received recognition result, you must do the following things:"
                               +:+ nl +:+ "1. Tell me what you think about the attachment."
                               +:+ nl +:+ "2. Suggest some questions about the attachment.")]
                else
                  language_directives c
                    ++ [system (suggest_questions_prompt c)]
                    ++ messages state
                    ++ [human (ATTACHMENT_INSTRUCTION (str_attachment a))] in
              ([EvModel prompt], Ok [chat_model_ainvoke c prompt])
          end
    end.
Proof.
  unfold _suggest_questions, suggest_template, latest_message.
  destruct (attachment state) as [a|].
  - destruct (recognizer_missing c).
    + pose proof (invoke_model_fixed c state [human RECOGNIZER_NOT_CONFIGURED])
        as Hinv. cbn [fmap list_fmap] in Hinv. run_binds. by rewrite Hinv.
    + destruct (last (messages state)) as [m|]; [|done]. run_binds.
      destruct (isinstance m ToolMessage).
      * pose proof (invoke_model_history c state []
          [system DO_NOT_REPEAT;
           human ("Based on the received recognition result, you must do the following things:"
                  +:+ nl +:+ "1. Tell me what you think about the attachment."
                  +:+ nl +:+ "2. Suggest some questions about the attachment.")])
          as Hinv.
        cbn [fmap list_fmap app] in Hinv. run_binds. cbn [app]. by rewrite Hinv.
      * pose proof (invoke_model_history c state
                      [system (suggest_questions_prompt c)]
                      [human (ATTACHMENT_INSTRUCTION (str_attachment a))])
          as Hinv.
        cbn [fmap list_fmap app] in Hinv. run_binds. cbn [app]. by rewrite Hinv.
  - pose proof (invoke_model_fixed c state [human ATTACHMENT_ERROR]) as Hinv.
    cbn [fmap list_fmap] in Hinv. run_binds. by rewrite Hinv.
Qed.

(** X15. [_query_or_respond] run on an empty history without attachment
    raises [IndexError] at once, before any warning and before the chat model
    is called.  In every other case it goes on to the chat model: it calls it
    exactly once, as the last of its calls and after warnings only, with a
    prompt that starts with the two language directives; and when the node
    returns, its update is the one message the model answered. *)
Theorem query_or_respond_outcome (c : Configurer) (state : State) :
  (attachment state = None → messages state = [] →
     _query_or_respond c state = ([], Raise IndexError)) ∧
  (¬ (attachment state = None ∧ messages state = []) →
     ∃ log tail,
       let prompt := language_directives c ++ tail in
       (_query_or_respond c state).1 = log ++ [EvModel prompt] ∧
       Forall (λ ev, is_warning ev = true) log ∧
       ∀ update, (_query_or_respond c state).2 = Ok update →
                 update = [chat_model_ainvoke c prompt]).
Proof.
  rewrite query_or_respond_cases.
  destruct (attachment state) as [a|]; [destruct (recognizer_missing c)|].
  - split; [done|]. intros _.
    exists [EvWarning recognizer_warning], [human RECOGNIZER_NOT_CONFIGURED].
    cbv zeta. split; [done|]. split; [by repeat constructor|].
    by intros update [= <-].
  - split; [done|]. intros _. eexists [], _. cbv zeta.
    split; [reflexivity|]. split; [constructor|]. by intros update [= <-].
  - destruct (last (messages state)) as [m|] eqn:Hlast.
    + assert (messages state ≠ []) by (by intros Hnil; rewrite Hnil in Hlast).
      split; [done|]. intros _.
      destruct (isinstance m ToolMessage); eexists [], _; cbv zeta;
        (split; [reflexivity|]); (split; [constructor|]);
        by intros update [= <-].
    + apply last_None in Hlast. split; [done|]. by intros [].
Qed.

(** X16. [_suggest_questions] run on an empty history with an attachment
    and an available image recognizer raises [IndexError] at once, before any
    warning and before the chat model is called.  In every other case it goes
    on to the chat model: it calls it exactly once, as the last of its calls
    and after warnings only, with a prompt that starts with the two language
    directives; and when the node returns, its update is the one message the
    model answered. *)
Theorem suggest_questions_outcome (c : Configurer) (state : State) :
  (is_Some (attachment state) → recognizer_missing c = false →
   messages state = [] →
     _suggest_questions c state = ([], Raise IndexError)) ∧
  (¬ (is_Some (attachment state) ∧ recognizer_missing c = false ∧
      messages state = []) →
     ∃ log tail,
       let prompt := language_directives c ++ tail in
       (_suggest_questions c state).1 = log ++ [EvModel prompt] ∧
       Forall (λ ev, is_warning ev = true) log ∧
       ∀ update, (_suggest_questions c state).2 = Ok update →
                 update = [chat_model_ainvoke c prompt]).
Proof.
  rewrite suggest_questions_cases.
  destruct (attachment state) as [a|]; [destruct (recognizer_missing c)|].
  - split; [done|]. intros _.
    exists [EvWarning recognizer_warning], [human RECOGNIZER_NOT_CONFIGURED].
    cbv zeta. split; [done|]. split; [by repeat constructor|].
    by intros update [= <-].
  - destruct (last (messages state)) as [m|] eqn:Hlast.
    + assert (messages state ≠ []) by (by intros Hnil; rewrite Hnil in Hlast).
      split; [done|]. intros _.
      destruct (isinstance m ToolMessage); eexists [], _; cbv zeta;
        (split; [reflexivity|]); (split; [constructor|]);
        by intros update [= <-].
    + apply last_None in Hlast. split; [done|]. intros []. eauto.
  - split; [by intros [? [=]]|]. intros _.
    eexists [EvWarning _], [human ATTACHMENT_ERROR].
    cbv zeta. split; [done|]. split; [by repeat constructor|].
    by intros update [= <-].
Qed.

(** X17. With an attachment, an available recognizer and a tool result as
    the last message, the two nodes differ: [_query_or_respond] tests the
    attachment first and sends the respond prompt, the history and the
    attachment instruction once more, while [_suggest_questions] sends the
    history followed by the do-not-repeat instruction and the request to
    comment on the recognition result. *)
Theorem tool_result_with_attachment (c : Configurer) (state : State)
    (a : Attachment) (m : Message) :
  attachment state = Some a →
  recognizer_missing c = false →
  last (messages state) = Some m →
  kind m = ToolMessage →
  (_query_or_respond c state).1 =
    [EvModel (language_directives c ++ [system (respond_prompt c)]
                ++ messages state
                ++ [human (ATTACHMENT_INSTRUCTION (str_attachment a))])] ∧
  (_suggest_questions c state).1 =
    [EvModel (language_directives c ++ messages state
                ++ [system DO_NOT_REPEAT;
                    human ("Based on the received recognition result, you must do the following things:"
                           +:+ nl +:+ "1. Tell me what you think about the attachment."
                           +:+ nl +:+ "2. Suggest some questions about the attachment.")])].
Proof.
  intros Ha Hrec Hlast Hkind.
  rewrite query_or_respond_cases, suggest_questions_cases, Ha, Hrec, Hlast.
  unfold isinstance. by rewrite bool_decide_eq_true_2.
Qed.

End NodeFacts.

(** ** The agent: whole turns *)

Section TurnFacts.
Import Effects Conversation AgentModel Notions.
Context `{Platform}.

(** With a non-empty history each node calls the chat model once and
    returns its answer. *)
Lemma node_answers (c : Configurer) (state : State) :
  messages state ≠ [] →
  ∀ node, node = _query_or_respond ∨ node = _suggest_questions →
    ∃ log prompt,
      node c state = (log ++ [EvModel prompt], Ok [chat_model_ainvoke c prompt]) ∧
      Forall (λ ev, is_warning ev = true) log.
Proof.
  intros Hne node Hnode.
  destruct (last (messages state)) as [m|] eqn:Hlast;
    [|by apply last_None in Hlast].
  destruct Hnode as [-> | ->].
  - rewrite query_or_respond_cases, Hlast.
    destruct (attachment state); [destruct (recognizer_missing c)|].
    + eexists [EvWarning _], _. split; [reflexivity|by repeat constructor].
    + eexists [], _. split; [reflexivity|constructor].
    + eexists [], _. split; [reflexivity|constructor].
  - rewrite suggest_questions_cases, Hlast.
    destruct (attachment state); [destruct (recognizer_missing c)|].
    + eexists [EvWarning _], _. split; [reflexivity|by repeat constructor].
    + eexists [], _. split; [reflexivity|constructor].
    + eexists [EvWarning _], _. split; [reflexivity|by repeat constructor].
Qed.

(** X18. On an agent without tools, a turn over a non-empty history takes
    one routing decision and one call of the chat model, after warnings at
    most.  With a recursion limit of at least two the run then ends: it emits
    the input state and the state after the node, which holds the history
    extended by the model's answer.  With a recursion limit of one the same
    calls are made and the run then raises [GraphRecursionError]. *)
Theorem turn_without_tools (c : Configurer) (limit : nat) (state : State) :
  ¬ at_least_one_tool c →
  messages state ≠ [] →
  ∃ chosen log prompt,
    _routing_function state = Ok chosen ∧
    Forall (λ ev, is_warning ev = true) log ∧
    graph_astream c (build_state_graph c) (S (S limit)) state
      = (EvRoute chosen :: log ++ [EvModel prompt],
         Ok [state; apply_update state [chat_model_ainvoke c prompt]]) ∧
    graph_astream c (build_state_graph c) 1 state
      = (EvRoute chosen :: log ++ [EvModel prompt], Raise GraphRecursionError).
Proof.
  intros Hnone%configured_tools_None Hne.
  destruct (last (messages state)) as [m|] eqn:Hlast;
    [|by apply last_None in Hlast].
  pose proof (routing_function_spec state m Hlast) as Hroute.
  set (chosen := if decide _ then _ else _) in Hroute.
  assert (∃ node action,
            (node = _query_or_respond ∨ node = _suggest_questions) ∧
            nodes (build_state_graph c) !! chosen = Some action ∧
            ∀ st, invoke_node Asynchronous c action st
                  = update ← node c st; mret (apply_update st update))
    as (node & action & Hnode & Hlookup & Hexec).
  { rewrite nodes_built, Hnone. subst chosen.
    destruct (decide (routes_to_suggest m)).
    - exists _suggest_questions, RunSuggestQuestions. by split; [right|].
    - exists _query_or_respond, RunQueryOrRespond. by split; [left|]. }
  destruct (node_answers c state Hne node Hnode) as (log & prompt & Hrun & Hlog).
  exists chosen, log, prompt. split; [done|]. split; [done|].
  assert (chosen ≠ START ∧ chosen ≠ END) as [Hstart Hend]
    by (subst chosen; by case_decide).
  assert (∀ fuel,
    run_from Asynchronous c (build_state_graph c) (S fuel) chosen state
      = (log ++ [EvModel prompt],
         match fuel with
         | 0 => Raise GraphRecursionError
         | S _ => Ok [apply_update state [chat_model_ainvoke c prompt]]
         end)) as Hsteps.
  { intros fuel.
    rewrite run_from_unfold, decide_False, Hlookup, Hexec, Hrun by done.
    run_binds. rewrite successor_built, decide_False, Hnone by done.
    run_binds. destruct fuel as [|fuel].
    - cbn [run_from]. unfold raise, mbind, M_bind. by rewrite !app_nil_r.
    - rewrite run_from_unfold, decide_True by done.
      run_binds. by rewrite !app_nil_r. }
  unfold graph_astream, graph_run.
  rewrite successor_built, decide_True by done.
  rewrite Hroute. run_binds. rewrite !Hsteps.
  split.
  - run_binds. simpl. by rewrite !app_nil_r.
  - unfold mbind, M_bind. simpl. by rewrite ?app_nil_r.
Qed.

(** X19. A turn whose last message is not a human message, or is blank,
    and that has no attachment, whatever the tools of the agent: it is routed
    to [suggest_questions], which logs the missing attachment and sends the
    chat model the two language directives and the attachment-error
    sentence, nothing of the history. *)
Theorem blank_turn_without_attachment (c : Configurer) (limit : nat)
    (state : State) (m : Message) :
  last (messages state) = Some m →
  kind m ≠ HumanMessage ∨ Py.strip (Py.of_string (content m)) = [] →
  attachment state = None →
  ∃ rest,
    (graph_astream c (build_state_graph c) (S limit) state).1
      = EvRoute suggest_questions
          :: EvWarning "Attachment has not been provided yet. Skipping attachment recognition."
          :: EvModel (language_directives c ++ [human ATTACHMENT_ERROR])
          :: rest.
Proof.
  intros Hlast Hblank Hatt.
  pose proof (routing_function_spec state m Hlast) as Hroute.
  rewrite decide_True in Hroute by done.
  unfold graph_astream, graph_run.
  rewrite successor_built, decide_True by done.
  rewrite Hroute. run_binds.
  rewrite run_from_unfold, decide_False by done.
  assert (nodes (build_state_graph c) !! suggest_questions
            = Some RunSuggestQuestions) as ->.
  { rewrite nodes_built. by destruct (configured_tools c). }
  rewrite invoke_node_async. unfold exec_node.
  rewrite suggest_questions_cases, Hatt. run_binds.
  rewrite !bind_trace. cbn [fst snd]. eexists. reflexivity.
Qed.

End TurnFacts.

(** ** The rebuild: arguments, bookkeeping, uploaded documents *)

Section RebuildFacts.
Import Effects Py Normalizer BM25.
Context `{Collaborators} `{GlyphTables}.

(** X20. The rebuild validates its arguments in this order and raises a
    [ValueError] at the first failure, having logged its start only: the
    vector-store configurer among the keyword arguments, the embeddings
    configurer among the keyword arguments, the configured embeddings
    model. *)
Theorem async_configure_validates_arguments (self : BM25ConfigurerImpl)
    (config : BM25Configuration) (kwargs : gmap string KwArg) :
  let started := [LogInfo "Configuring BM25 retriever..."] in
  ((∀ v, kwargs !! "vs_configurer" ≠ Some (KwVectorStoreConfigurer v)) →
   async_configure self config kwargs =
     (started,
      Raise (ValueError "Configure BM25 Retriever must provide a VectorStoreConfigurer."))) ∧
  (∀ v, kwargs !! "vs_configurer" = Some (KwVectorStoreConfigurer v) →
   (∀ e, kwargs !! "embeddings_configurer" ≠ Some (KwEmbeddingsConfigurer e)) →
   async_configure self config kwargs =
     (started,
      Raise (ValueError "Configure BM25 Retriever must provide a EmbeddingsConfigurer."))) ∧
  (∀ v e, kwargs !! "vs_configurer" = Some (KwVectorStoreConfigurer v) →
   kwargs !! "embeddings_configurer" = Some (KwEmbeddingsConfigurer e) →
   get_model (embeddings_async_configure e (embeddings_model config))
     (embeddings_name (embeddings_model config)) = None →
   async_configure self config kwargs =
     (started,
      Raise (ValueError ("No " +:+ str_embeddings (embeddings_model config)
                         +:+ " embeddings model has configured yet.")))).
Proof.
  intros started. unfold async_configure. repeat split.
  - intros Hvs. run_binds.
    destruct (kwargs !! "vs_configurer") as [[v| |]|]; try done.
    by destruct (Hvs v).
  - intros v Hvs Hec. run_binds. rewrite Hvs. run_binds.
    destruct (kwargs !! "embeddings_configurer") as [[|e|]|]; try done.
    by destruct (Hec e).
  - intros v e Hvs Hec Hm. run_binds. rewrite Hvs. run_binds.
    rewrite Hec. run_binds. by rewrite Hm.
Qed.

(** X21. A rebuild over a non-empty population that succeeds records the
    configuration, the new retriever and the time of the rebuild, and
    schedules one save of the whole population, every document of it marked as
    indexed: also the documents from which no passage was gathered. *)
Theorem rebuild_marks_whole_population self config kwargs vs m helper retriever :
  well_called config kwargs vs m →
  get_all_vs_embedded ≠ [] →
  make_helper config = Ok helper →
  from_documents (split_documents m (passages vs get_all_vs_embedded))
    (preprocess (options_of config helper)) (k config) = Ok retriever →
  (async_configure self config kwargs).2 =
    Ok {| _config := Some config;
          _retriever := Some retriever;
          _last_sync := Some get_datetime_now |} ∧
  ∃ saved,
    CreateTaskSaveAll saved ∈ (async_configure self config kwargs).1 ∧
    length saved = length get_all_vs_embedded ∧
    Forall (λ doc, embed_bm25 doc = true) saved ∧
    ∀ doc, doc ∈ get_all_vs_embedded → mark_bm25 doc ∈ saved.
Proof.
  intros Hcall Hdb Hhelper Hbuilt.
  pose proof (async_configure_nonempty self config kwargs vs m Hcall Hdb) as Hrun.
  cbv zeta in Hrun. rewrite Hhelper, Hbuilt in Hrun. rewrite Hrun.
  split; [done|]. exists (mark_bm25 <$> get_all_vs_embedded). split; [|split; [|split]].
  - cbn [fst]. rewrite elem_of_cons, !elem_of_app, !elem_of_cons. auto 10.
  - by rewrite length_fmap.
  - apply Forall_fmap, Forall_true. done.
  - intros doc Hdoc. by apply list_elem_of_fmap_2.
Qed.

(** X22. A rebuild over a non-empty population whose configuration names
    a removal-words file, in a process without the [AGENT_CONFIG_PATH]
    environment variable, raises the [RuntimeError] of
    [get_config_folder_path], after the documents have been gathered and
    split and before the index constructor is called. *)
Theorem rebuild_needs_config_folder self config kwargs vs m p :
  well_called config kwargs vs m →
  get_all_vs_embedded ≠ [] →
  removal_words_path config = Some p →
  p ≠ "" →
  AGENT_CONFIG_PATH = None →
  async_configure self config kwargs =
    (LogInfo "Configuring BM25 retriever..."
       :: (gather vs get_all_vs_embedded).1
       ++ [CallSplitDocuments (passages vs get_all_vs_embedded)],
     Raise (RuntimeError "Missing the AGENT_CONFIG_PATH environment variable.")).
Proof.
  intros Hcall Hdb Hpath Hp Henv.
  pose proof (async_configure_nonempty self config kwargs vs m Hcall Hdb) as Hrun.
  cbv zeta in Hrun. rewrite Hrun.
  unfold make_helper, get_config_folder_path.
  by rewrite Hpath, bool_decide_eq_false_2, Henv.
Qed.

(** X23. A well-called rebuild is skipped exactly when the population is
    empty: it then logs the skip and returns the configurer as it was (the
    previous retriever and timestamp stay, the new configuration is not
    recorded); with a non-empty population the skip is never logged and the
    chunker is called with the gathered passages. *)
Theorem rebuild_skipped_iff_population_empty self config kwargs vs m :
  well_called config kwargs vs m →
  let skip := LogInfo "No document for initializing BM25 retriever. Skipping..." in
  (get_all_vs_embedded = [] →
   async_configure self config kwargs
     = ([LogInfo "Configuring BM25 retriever..."; skip], Ok self)) ∧
  (get_all_vs_embedded ≠ [] →
   (skip ∉ (async_configure self config kwargs).1) ∧
   CallSplitDocuments (passages vs get_all_vs_embedded)
     ∈ (async_configure self config kwargs).1).
Proof.
  intros Hcall skip. split; [by apply (async_configure_empty self config kwargs vs m)|].
  intros Hdb.
  pose proof (async_configure_nonempty self config kwargs vs m Hcall Hdb) as Hrun.
  cbv zeta in Hrun.
  destruct (gather_spec vs get_all_vs_embedded) as (chunk_tasks & Hg & _ & _).
  assert (skip ∉ (gather vs get_all_vs_embedded).1) as Hgather.
  { rewrite Hg. cbn [fst]. intros [Hin|Hin]%elem_of_app.
    - destruct (0 <? length (uploaded _)); not_listed Hin.
    - destruct (0 <? length (external _)); [|not_listed Hin].
      apply elem_of_cons in Hin as [Hin|Hin]; [done|].
      apply list_elem_of_omap in Hin as (doc & _ & Hw). unfold skip_warning in Hw.
      by destruct (get_store _ _). }
  rewrite Hrun. destruct (make_helper config) as [helper|e]; cbn [fst].
  - split.
    + intros Hin. rewrite elem_of_cons, !elem_of_app in Hin.
      destruct Hin as [Hin|[Hin|[Hin|Hin]]]; [done|done|not_listed Hin|].
      destruct (from_documents _ _ _); not_listed Hin.
    + rewrite elem_of_cons, !elem_of_app, elem_of_cons. auto.
  - split.
    + intros Hin. rewrite elem_of_cons, !elem_of_app in Hin.
      destruct Hin as [Hin|[Hin|Hin]]; [done|done|not_listed Hin].
    + rewrite elem_of_cons, elem_of_app, elem_of_cons. auto.
Qed.

Lemma omap_resolvable {A B} (f : A → option B) (l : list A) :
  omap (λ p, p) (f <$> filter (λ x, is_Some (f x)) l) = omap (λ p, p) (f <$> l).
Proof.
  induction l as [|x l IH]; [done|].
  rewrite filter_cons. destruct (decide (is_Some (f x))) as [[y Hy]|Hn].
  - rewrite !fmap_cons. cbn [omap list_omap]. rewrite Hy. f_equal. exact IH.
  - rewrite fmap_cons. cbn [omap list_omap].
    destruct (f x) eqn:Hx; [destruct Hn; eauto|exact IH].
Qed.

Lemma omap_length_le {A B} (f : A → option B) (l : list A) :
  length (omap f l) ≤ length l.
Proof.
  induction l as [|x l IH]; [done|]. cbn [omap list_omap].
  destruct (f x); simpl; lia.
Qed.

(** X24. In [get_from_uploaded_docs], the uploaded documents whose file
    metadata cannot be resolved contribute nothing, silently: the one record
    logged is the debug record of the start, no error is raised for them, and
    the result is the one for the resolvable documents alone, at most one
    passage per resolvable document. *)
Theorem uploaded_documents_unresolved (documents : list DBDocument) :
  let resolvable :=
    filter (λ doc, is_Some (get_metadata_by_id (file_id doc))) documents in
  get_from_uploaded_docs documents = get_from_uploaded_docs resolvable ∧
  ∃ passages,
    get_from_uploaded_docs documents
      = ([LogDebug "Collecting chunks from uploaded documents."], Ok passages) ∧
    length passages ≤ length resolvable.
Proof.
  intros resolvable. unfold get_from_uploaded_docs. split.
  - subst resolvable. run_binds.
    by rewrite (omap_resolvable (λ doc, get_metadata_by_id (file_id doc))).
  - run_binds. eexists. split; [reflexivity|].
    rewrite length_zip_with.
    rewrite <-(omap_resolvable (λ doc, get_metadata_by_id (file_id doc))).
    fold resolvable.
    etrans; [apply Nat.le_min_l|].
    etrans; [apply omap_length_le|]. by rewrite length_fmap.
Qed.

End RebuildFacts.

(** ** The normalizer: its tokens *)

Section TokenFacts.
Import Py Normalizer.
Context `{GlyphTables}.

(** X25. Every token returned by [preprocess] is non-empty and has no
    white-space character, no punctuation character and no upper-case
    letter, whatever the options (with the glyph and stop-word removal of
    [TextPreprocessing] as modelled above). *)
Theorem preprocess_tokens_clean (o : Options) (t : text) :
  Forall (λ w, w ≠ [] ∧
               Forall (λ c, isspace c = false ∧ (c ∉ punctuation)
                            ∧ lower_char c = c) w)
    (preprocess o t).
Proof.
  rewrite preprocess_stages.
  pose proof (split_tokens (reworded o (cleaned o t))) as Htok.
  assert (Forall (Forall (clean o)) (split (reworded o (cleaned o t)))) as Hclean.
  { rewrite split_reworded.
    pose proof (split_go_Forall (clean o) [] (cleaned o t) (Forall_nil_2 _)
                  (cleaned_clean o t)) as Hv.
    fold (split (cleaned o t)) in Hv.
    destruct (helper o); [by apply Forall_filter_of|done]. }
  apply Forall_forall. intros w Hw.
  rewrite Forall_forall in Htok, Hclean.
  destruct (Htok w Hw) as [Hne Hspace]. split; [done|].
  specialize (Hclean w Hw). rewrite Forall_forall in Hspace, Hclean.
  apply Forall_forall. intros c Hc.
  destruct (Hclean c Hc) as [[[Hlow Hpunct] _] _].
  split; [by apply Hspace|done].
Qed.

Lemma lower_keeps_punctuation (c : ascii) :
  lower_char c ∈ punctuation ↔ c ∈ punctuation.
Proof.
  assert (bool_decide (lower_char c ∈ punctuation)
          = bool_decide (c ∈ punctuation)) as Hb
    by (by destruct c as [[] [] [] [] [] [] [] []]).
  by rewrite <-(bool_decide_spec (lower_char c ∈ _)), Hb, bool_decide_spec.
Qed.

Lemma lower_keeps_space (c : ascii) : isspace (lower_char c) = isspace c.
Proof. by destruct c as [[] [] [] [] [] [] [] []]. Qed.

(** X26. [preprocess] gives the same tokens for a text, for the text in
    lower case and for the text in lower case without its punctuation
    characters: it absorbs its own first stage, which is idempotent. *)
Theorem preprocess_absorbs_first_stage (o : Options) (t : text) :
  preprocess o (lower t) = preprocess o t ∧
  preprocess o (translate_delete punctuation (lower t)) = preprocess o t.
Proof.
  assert (∀ u, Forall (λ c, lower_char c = c) u → lower u = u) as Hfixed.
  { unfold lower. induction 1 as [|c u Hc _ IH]; [done|].
    by rewrite fmap_cons, Hc, IH. }
  assert (Forall (λ c, lower_char c = c) (lower t)) as Hlow.
  { unfold lower. apply Forall_fmap, Forall_true. intros c. apply lower_char_idem. }
  rewrite !preprocess_stages. unfold cleaned. split.
  - by rewrite (Hfixed (lower t)).
  - rewrite (Hfixed (translate_delete punctuation (lower t)))
      by (by apply Forall_filter_of).
    assert (translate_delete punctuation (translate_delete punctuation (lower t))
            = translate_delete punctuation (lower t)) as ->; [|done].
    unfold translate_delete. apply (filter_all (λ c, c ∉ punctuation)).
    apply (Forall_filter_pred (λ c, c ∉ punctuation)).
Qed.

Lemma split_go_all_space (t : text) :
  Forall (λ c, isspace c = true) t → split_go [] t = [].
Proof. induction 1 as [|c t Hc _ IH]; simpl; [done|]. by rewrite Hc, IH. Qed.

(** X27. A text of white-space and punctuation characters only has no
    token, whatever the options. *)
Theorem preprocess_of_blank_text (o : Options) (t : text) :
  Forall (λ c, isspace c = true ∨ c ∈ punctuation) t →
  preprocess o t = [].
Proof.
  intros Ht. rewrite preprocess_stages.
  assert (Forall (λ c, isspace c = true) (cleaned o t)) as Hspace.
  { unfold cleaned, filter_if.
    assert (Forall (λ c, isspace c = true)
              (translate_delete punctuation (lower t))) as Hd.
    { unfold translate_delete, lower. induction Ht as [|c t Hc _ IH]; [constructor|].
      rewrite fmap_cons, filter_cons. case_decide as Hp; [|done].
      constructor; [|done]. rewrite lower_keeps_space.
      destruct Hc as [|Hc]; [done|]. by rewrite <-lower_keeps_punctuation in Hc. }
    destruct (enable_remove_emoji o), (enable_remove_emoticon o);
      [apply Forall_filter_of, Forall_filter_of|apply Forall_filter_of
      |apply Forall_filter_of|]; exact Hd. }
  rewrite split_reworded. unfold split. rewrite split_go_all_space by done.
  by destruct (helper o).
Qed.

End TokenFacts.

(* ===================================================================== *)
(** * The further properties at concrete inputs *)
(* ===================================================================== *)

Section FurtherConcreteInputs.
Import Effects Conversation.

#[local] Existing Instance Fixtures.demo_configurer.
#[local] Existing Instance Fixtures.demo_platform.
#[local] Existing Instance Fixtures.demo_glyphs.
#[local] Existing Instance MoreFixtures.demo_vector_stores.

(** A configuration with one HTTP and one stdio server is accepted. *)
Lemma mcp_configure_supported_witness :
  Forall Notions.supported (MCP.connections MoreFixtures.two_servers) ∧
  ∃ client,
    MCP.configure MCP.initial MoreFixtures.two_servers
      = ({| MCP._config := Some MoreFixtures.two_servers;
            MCP._client := Some client |}, Ok tt) ∧
    MCP.client_connections client !! "docs"
      = Some (MCP.StreamableHttpConnection "streamable_http"
                MoreFixtures.docs_server) ∧
    MCP.client_connections client !! "local"
      = Some (MCP.StdioConnection "stdio" MoreFixtures.local_server).
Proof.
  assert (Forall Notions.supported (MCP.connections MoreFixtures.two_servers))
    as Hsup by (repeat constructor; discriminate).
  split; [exact Hsup|].
  destruct (mcp_configure_supported MCP.initial MoreFixtures.two_servers Hsup)
    as (client & Hrun & _ & Hitems).
  assert (NoDup (MCP.connections MoreFixtures.two_servers).*1) as Hnd.
  { apply (bool_decide_unpack _). vm_compute. exact I. }
  exists client. split; [exact Hrun|]. split.
  - apply (Hitems Hnd "docs" (MCP.HttpConfiguration MoreFixtures.docs_server)).
    left.
  - apply (Hitems Hnd "local" (MCP.StdioConfiguration MoreFixtures.local_server)).
    right. left.
Defined.

(** A configuration with a server of another transport is rejected. *)
Lemma mcp_configure_unsupported_witness :
  Exists (λ item, MCP.type item.2 = MCP.OTHER_TRANSPORT)
    (MCP.connections MoreFixtures.with_unsupported_server) ∧
  ∃ msg,
    MCP.configure MCP.initial MoreFixtures.with_unsupported_server
      = ({| MCP._config := Some MoreFixtures.with_unsupported_server;
            MCP._client := None |}, Raise (ValueError msg)).
Proof.
  assert (Exists (λ item, MCP.type item.2 = MCP.OTHER_TRANSPORT)
            (MCP.connections MoreFixtures.with_unsupported_server)) as Hex
    by (right; left; reflexivity).
  split; [exact Hex|].
  exact (mcp_configure_unsupported MCP.initial
           MoreFixtures.with_unsupported_server Hex).
Defined.

(** The manual is embedded into the configured store [s1]: one document is
    loaded, its two chunks get two identifiers. *)
Lemma embedding_into_configured_store_witness :
  Embedding.vector_store_configurer
    (AgentModel._configurer Fixtures.fresh_agent)
    = Some MoreFixtures.stores_s1 ∧
  Embedding.get_store MoreFixtures.stores_s1 "s1" = Some MoreFixtures.store_1 ∧
  ∃ chunks ids,
    length ids = length chunks ∧
    Embedding.embed_document Fixtures.fresh_agent MoreFixtures.seed_0 "s1"
      MoreFixtures.manual
      = ([Embedding.EvGetDocuments "/resource/manual.pdf" "application/pdf";
          Embedding.EvAddDocuments "s1" chunks ids],
         Ok (Embedding.aadd_documents MoreFixtures.store_1 chunks ids)).
Proof.
  split; [reflexivity|]. split; [reflexivity|].
  destruct (embedding_into_configured_store Fixtures.fresh_agent
              MoreFixtures.seed_0 "s1" MoreFixtures.manual
              MoreFixtures.stores_s1 MoreFixtures.store_1 eq_refl eq_refl)
    as (chunks & ids & _ & Hlen & Hrun & _).
  exists chunks, ids. split; [exact Hlen|exact Hrun].
Defined.

(** A recognition result has arrived for the attached picture. *)
Lemma tool_result_with_attachment_witness :
  attachment MoreFixtures.recognized_turn = Some Fixtures.picture ∧
  AgentModel.recognizer_missing MoreFixtures.with_recognizer = false ∧
  last (messages MoreFixtures.recognized_turn)
    = Some MoreFixtures.recognition_result ∧
  kind MoreFixtures.recognition_result = ToolMessage ∧
  (AgentModel._query_or_respond MoreFixtures.with_recognizer
     MoreFixtures.recognized_turn).1 =
    [AgentModel.EvModel
       (Notions.language_directives MoreFixtures.with_recognizer
          ++ [system (AgentModel.respond_prompt MoreFixtures.with_recognizer)]
          ++ messages MoreFixtures.recognized_turn
          ++ [human (ATTACHMENT_INSTRUCTION "cat.png")])].
Proof.
  split; [reflexivity|]. split; [reflexivity|]. split; [reflexivity|].
  split; [reflexivity|].
  destruct (tool_result_with_attachment MoreFixtures.with_recognizer
              MoreFixtures.recognized_turn Fixtures.picture
              MoreFixtures.recognition_result eq_refl eq_refl eq_refl eq_refl)
    as [Hrespond _].
  exact Hrespond.
Defined.

(** A blank turn on an agent without tools, with the default recursion
    limit: one routing decision, one model call, the input state and one
    further state. *)
Lemma turn_without_tools_witness :
  ¬ AgentModel.at_least_one_tool Fixtures.bare ∧
  messages Fixtures.blank_turn ≠ [] ∧
  ∃ chosen log prompt,
    AgentModel.graph_astream Fixtures.bare
      (AgentModel.build_state_graph Fixtures.bare) 25 Fixtures.blank_turn
      = (AgentModel.EvRoute chosen :: log ++ [AgentModel.EvModel prompt],
         Ok [Fixtures.blank_turn;
             AgentModel.apply_update Fixtures.blank_turn
               [AgentModel.chat_model_ainvoke Fixtures.bare prompt]]).
Proof.
  assert (¬ AgentModel.at_least_one_tool Fixtures.bare) as Hnone.
  { intros (t & ts & Htools). discriminate Htools. }
  assert (messages Fixtures.blank_turn ≠ []) as Hne by discriminate.
  split; [exact Hnone|]. split; [exact Hne|].
  destruct (turn_without_tools Fixtures.bare 23 Fixtures.blank_turn Hnone Hne)
    as (chosen & log & prompt & _ & _ & Hrun & _).
  exists chosen, log, prompt. exact Hrun.
Defined.

(** A blank message without attachment is answered with the attachment
    error. *)
Lemma blank_turn_without_attachment_witness :
  last (messages Fixtures.blank_turn) = Some (human "   ") ∧
  Py.strip (Py.of_string (content (human "   "))) = [] ∧
  attachment Fixtures.blank_turn = None ∧
  ∃ rest,
    (AgentModel.graph_astream Fixtures.bare
       (AgentModel.build_state_graph Fixtures.bare) 25 Fixtures.blank_turn).1
      = AgentModel.EvRoute suggest_questions
          :: AgentModel.EvWarning "Attachment has not been provided yet. Skipping attachment recognition."
          :: AgentModel.EvModel
               (Notions.language_directives Fixtures.bare
                  ++ [human ATTACHMENT_ERROR])
          :: rest.
Proof.
  split; [reflexivity|]. split; [reflexivity|]. split; [reflexivity|].
  exact (blank_turn_without_attachment Fixtures.bare 24 Fixtures.blank_turn
           (human "   ") eq_refl (or_intror eq_refl) eq_refl).
Defined.

(** The rebuild over the documents [A] and [B] marks both of them. *)
Lemma rebuild_marks_whole_population_witness :
  BM25.well_called Fixtures.demo_config
    (Fixtures.demo_kwargs [Fixtures.doc_A; Fixtures.doc_B])
    (Fixtures.demo_stores [Fixtures.doc_A; Fixtures.doc_B]) tt ∧
  (∃ self',
     (Fixtures.demo_rebuild [Fixtures.doc_A; Fixtures.doc_B]).2 = Ok self' ∧
     BM25._retriever self' = Some ([Fixtures.chunk_c1; Fixtures.chunk_c2], 4) ∧
     BM25._last_sync self' = Some "2025-01-01T00:00:00") ∧
  ∃ saved,
    BM25.CreateTaskSaveAll saved
      ∈ (Fixtures.demo_rebuild [Fixtures.doc_A; Fixtures.doc_B]).1 ∧
    length saved = 2 ∧
    Forall (λ doc, BM25.embed_bm25 doc = true) saved.
Proof.
  assert (BM25.well_called Fixtures.demo_config
            (Fixtures.demo_kwargs [Fixtures.doc_A; Fixtures.doc_B])
            (Fixtures.demo_stores [Fixtures.doc_A; Fixtures.doc_B]) tt)
    as Hcall.
  { split; [reflexivity|]. exists tt. split; reflexivity. }
  split; [exact Hcall|].
  destruct (rebuild_marks_whole_population
              (H := Fixtures.demo_world [Fixtures.doc_A; Fixtures.doc_B])
              (Fixtures.fresh_bm25 [Fixtures.doc_A; Fixtures.doc_B])
              Fixtures.demo_config _ _ tt None
              ([Fixtures.chunk_c1; Fixtures.chunk_c2], 4)
              Hcall ltac:(discriminate) eq_refl eq_refl)
    as (Hstate & saved & Hsaved & Hlen & Hmarked & _).
  split; [eexists; split; [exact Hstate|split; reflexivity]|].
  exists saved. split; [exact Hsaved|]. split; [exact Hlen|exact Hmarked].
Defined.

(** With a removal-words file configured and no configuration folder in the
    environment, the rebuild over the document [A] raises. *)
Lemma rebuild_needs_config_folder_witness :
  BM25.well_called MoreFixtures.config_with_removal_words
    (MoreFixtures.kwargs_without_folder [Fixtures.doc_A])
    (MoreFixtures.stores_without_folder [Fixtures.doc_A]) tt ∧
  (@BM25.async_configure (MoreFixtures.world_without_folder [Fixtures.doc_A])
     Fixtures.demo_glyphs
     (MoreFixtures.fresh_without_folder [Fixtures.doc_A])
     MoreFixtures.config_with_removal_words
     (MoreFixtures.kwargs_without_folder [Fixtures.doc_A])).2
    = Raise (RuntimeError "Missing the AGENT_CONFIG_PATH environment variable.").
Proof.
  assert (BM25.well_called MoreFixtures.config_with_removal_words
            (MoreFixtures.kwargs_without_folder [Fixtures.doc_A])
            (MoreFixtures.stores_without_folder [Fixtures.doc_A]) tt) as Hcall.
  { split; [reflexivity|]. exists tt. split; reflexivity. }
  split; [exact Hcall|].
  rewrite (rebuild_needs_config_folder
             (H := MoreFixtures.world_without_folder [Fixtures.doc_A])
             (MoreFixtures.fresh_without_folder [Fixtures.doc_A])
             MoreFixtures.config_with_removal_words _ _ tt "stopwords.txt"
             Hcall ltac:(discriminate) eq_refl ltac:(discriminate) eq_refl).
  reflexivity.
Defined.

(** Over an empty population the rebuild is skipped and the configurer is
    returned as it was. *)
Lemma rebuild_skipped_iff_population_empty_witness :
  BM25.well_called Fixtures.demo_config (Fixtures.demo_kwargs [])
    (Fixtures.demo_stores []) tt ∧
  Fixtures.demo_rebuild []
    = ([BM25.LogInfo "Configuring BM25 retriever...";
        BM25.LogInfo "No document for initializing BM25 retriever. Skipping..."],
       Ok (Fixtures.fresh_bm25 [])).
Proof.
  assert (BM25.well_called Fixtures.demo_config (Fixtures.demo_kwargs [])
            (Fixtures.demo_stores []) tt) as Hcall.
  { split; [reflexivity|]. exists tt. split; reflexivity. }
  split; [exact Hcall|].
  destruct (rebuild_skipped_iff_population_empty
              (H := Fixtures.demo_world [])
              (Fixtures.fresh_bm25 []) Fixtures.demo_config _ _ tt Hcall)
    as [Hempty _].
  exact (Hempty eq_refl).
Defined.

(** A text of spaces and punctuation has no token. *)
Lemma preprocess_of_blank_text_witness :
  Forall (λ c, Py.isspace c = true ∨ c ∈ Py.punctuation)
    (Py.of_string "  ...  -- !?  ") ∧
  Normalizer.preprocess Fixtures.demo_options (Py.of_string "  ...  -- !?  ")
    = [].
Proof.
  assert (Forall (λ c, Py.isspace c = true ∨ c ∈ Py.punctuation)
            (Py.of_string "  ...  -- !?  ")) as Hblank.
  { apply (bool_decide_unpack _). vm_compute. exact I. }
  split; [exact Hblank|].
  exact (preprocess_of_blank_text Fixtures.demo_options _ Hblank).
Defined.

(** ** Further evaluations *)

Example classes_without_duplicate :
  Recognizer.name <$>
    Recognizer.remove_classes_duplicate MoreFixtures.classes_with_duplicate
    = ["cat"; "dog"] ∧
  Recognizer.description <$>
    Recognizer.remove_classes_duplicate MoreFixtures.classes_with_duplicate
    = ["a small feline"; "a loyal canine"].
Proof. split; vm_compute; reflexivity. Qed.

Example embedding_of_the_manual :
  (Embedding.embed_document Fixtures.fresh_agent MoreFixtures.seed_0 "s1"
     MoreFixtures.manual).2
    = Ok ["A"; "B"] ∧
  Embedding.embed_document Fixtures.fresh_agent MoreFixtures.seed_0 "s2"
    MoreFixtures.manual
    = ([], Raise (ValueError "No vector store s2 configured.")).
Proof. split; vm_compute; reflexivity. Qed.

End FurtherConcreteInputs.
